(** * pycardano [wallet.py]: a shallow embedding of the transaction
      composition engine and the properties of its specification.

    The development follows the layout of [pycardano/wallet.py]:

    - [PyBase]     Python values the module works with: exceptions, [str],
                   nested metadata values, [str()]/[repr()], [range], slices;
    - [Metadata]   [check_metadata], [Token._check_metadata], [format_message];
    - [PyNum]      Python numbers: unbounded [int] and binary64 [float];
    - [Amounts]    the classes [Amount], [Lovelace] and [Ada];
    - [Wallet]     [Token], [TokenPolicy], [Output], [Wallet.transact] and the
                   convenience methods [delegate] and [burn_tokens];
    - [Comparisons] the comparison methods of [Amount];
    - [Tokens]     [Token.__post_init__], with [bytes.fromhex] and UTF-8;
    - [MetadataShapes], [ComposerShapes]
                   predicates on metadata and on the composer's tables;
    - [Convenience] [send_ada], [send_utxo], [empty_wallet],
                   [withdraw_rewards], the readers of [TokenPolicy],
                   [get_stake_address], [wait_for_confirmation];
    - [Fixture]    a concrete chain context, wallet and policy on which the
                   composer is evaluated;
    - [MetadataFacts], [NumFacts], [AmountFacts], [WalletFacts]
                   the properties of the specification, in the order of the
                   modules above;
    - [ComparisonFacts], [TokenFacts], [ValidatorFacts], [ComposerFacts],
      [ConvenienceFacts]
                   further properties of the code.

    The classes of the rest of the library that the module calls
    ([Address], the hashes, [min_lovelace], the chain context) enter through
    the class [Collaborators].

    Python strings are sequences of Unicode code points ([len] counts code
    points, not encoded bytes); Python dictionaries are association lists in
    insertion order; exceptions are an explicit error result. *)

From Stdlib Require Import ZArith QArith Qabs Lia List String Ascii DecimalString.
From stdpp Require Import base option list functions strings numbers.

Set Default Proof Using "Type".
Set Warnings "-register-all".
#[local] Set Warnings "-notation-overridden".
Local Open Scope Z_scope.

(* ================================================================== *)
(** * Python base values *)
(* ================================================================== *)

Module PyBase.

(** The exceptions that the modelled code can raise. [ExternalError] stands
    for any exception raised inside a collaborator of the module (address
    decoding, hash construction, chain queries). *)
Inductive exn :=
| TypeError
| ValueError
| AttributeError
| ZeroDivisionError
| OverflowError
| UnicodeEncodeError
| MetadataFormattingException
| ExternalError.

#[global] Instance exn_eq_dec : EqDecision exn.
Proof. solve_decision. Defined.

(** A computation either returns a value or raises. *)
Inductive result (A : Type) :=
| Ok (a : A)
| Raise (e : exn).
Arguments Ok {A} a.
Arguments Raise {A} e.

#[global] Instance result_ret : MRet result := fun A a => Ok a.
#[global] Instance result_bind : MBind result := fun A B k m =>
  match m with
  | Ok a => k a
  | Raise e => Raise e
  end.

Definition is_ok {A} (m : result A) : bool :=
  match m with Ok _ => true | Raise _ => false end.

(** [for x in l: body(x)] where the body returns nothing: the first raising
    iteration aborts the loop. *)
Definition for_each {A} (body : A -> result unit) : list A -> result unit :=
  fix go (l : list A) : result unit :=
    match l with
    | [] => Ok tt
    | x :: rest => body x ;; go rest
    end.

(** A loop that threads an accumulator through its iterations. *)
Definition fold_result {A S} (body : S -> A -> result S) : list A -> S -> result S :=
  fix go (l : list A) (s : S) : result S :=
    match l with
    | [] => Ok s
    | x :: rest => s' ← body s x; go rest s'
    end.

(** ** Strings and bytes *)

(** A Python [str] is a sequence of Unicode code points. *)
Definition codepoint := N.
Definition pystr := list codepoint.
Definition bytes := list N.

(** An ASCII literal as a Python string. *)
Definition py (s : string) : pystr := map N_of_ascii (list_ascii_of_string s).

(** [len(s)] *)
Definition len {A} (l : list A) : Z := Z.of_nat (length l).

(** [str.encode("utf-8")] on one code point. Surrogates cannot be encoded. *)
Definition utf8_encode_char (c : codepoint) : result bytes :=
  (if c <? 128 then Ok [c]
   else if c <? 2048 then Ok [192 + c / 64; 128 + c mod 64]
   else if (55296 <=? c) && (c <=? 57343) then Raise UnicodeEncodeError
   else if c <? 65536 then
     Ok [224 + c / 4096; 128 + (c / 64) mod 64; 128 + c mod 64]
   else
     Ok [240 + c / 262144; 128 + (c / 4096) mod 64;
         128 + (c / 64) mod 64; 128 + c mod 64])%N.

Fixpoint utf8_encode (s : pystr) : result bytes :=
  match s with
  | [] => Ok []
  | c :: rest =>
      b ← utf8_encode_char c;
      bs ← utf8_encode rest;
      Ok (b ++ bs)
  end.

(** ** [range] and slices *)

(** [range(start, stop, step)] for a positive step: the values
    [start, start+step, ...] below [stop]. The iteration is bounded by
    [stop] steps, which is enough because the step is at least one. *)
Fixpoint range_from (fuel : nat) (i stop step : nat) : list nat :=
  match fuel with
  | O => []
  | S fuel' =>
      if (i <? stop)%nat then i :: range_from fuel' (i + step) stop step else []
  end.

Definition py_range (start stop step : nat) : list nat :=
  range_from stop start stop step.

(** [s[i:j]] for [0 <= i <= j]. *)
Definition slice {A} (s : list A) (i j : nat) : list A :=
  firstn (j - i) (skipn i s).

(** ** Metadata values *)

(** Dictionary keys that JSON can serialise: strings and integers. *)
Inductive pykey :=
| KStr (s : pystr)
| KInt (z : Z).

#[global] Instance pykey_eq_dec : EqDecision pykey.
Proof. solve_decision. Defined.

(** The tree-shaped Python values that metadata is made of. A dictionary is
    its list of items in insertion order. *)
Inductive pyval :=
| VStr (s : pystr)
| VInt (z : Z)
| VBool (b : bool)
| VNone
| VList (l : list pyval)
| VDict (d : list (pykey * pyval)).

(** Induction over nested metadata values. *)
Section pyval_induction.
Variable P : pyval -> Prop.
Hypothesis Hstr : forall s, P (VStr s).
Hypothesis Hint : forall z, P (VInt z).
Hypothesis Hbool : forall b, P (VBool b).
Hypothesis Hnone : P VNone.
Hypothesis Hlist : forall l, Forall P l -> P (VList l).
Hypothesis Hdict : forall d, Forall (fun kv => P (snd kv)) d -> P (VDict d).

Fixpoint pyval_nested_ind (v : pyval) : P v :=
  match v with
  | VStr s => Hstr s
  | VInt z => Hint z
  | VBool b => Hbool b
  | VNone => Hnone
  | VList l =>
      Hlist l ((fix go (l : list pyval) : Forall P l :=
                  match l with
                  | [] => Forall_nil P
                  | x :: r => Forall_cons P x r (pyval_nested_ind x) (go r)
                  end) l)
  | VDict d =>
      Hdict d ((fix go (d : list (pykey * pyval))
                  : Forall (fun kv => P (snd kv)) d :=
                  match d with
                  | [] => Forall_nil _
                  | kv :: r =>
                      Forall_cons (fun kv => P (snd kv)) kv r
                                  (pyval_nested_ind (snd kv)) (go r)
                  end) d)
  end.
End pyval_induction.

(** ** [str()] and [repr()] *)

(** [str(int)]: the decimal numeral. *)
Definition str_int (z : Z) : pystr := py (NilZero.string_of_int (Z.to_int z)).

Definition hex_digit (n : N) : codepoint :=
  (if n <? 10 then 48 + n else 87 + n)%N.

(** [width] lowercase hexadecimal digits of [c], most significant first. *)
Fixpoint hex_digits (width : nat) (c : N) : pystr :=
  match width with
  | O => []
  | S w => hex_digits w (c / 16)%N ++ [hex_digit (c mod 16)%N]
  end.

Section Repr.
(** Whether a non-ASCII code point is printable is decided by the Unicode
    character database of the interpreter. *)
Variable unicode_isprintable : codepoint -> bool.

Definition quote_single : codepoint := 39%N.
Definition quote_double : codepoint := 34%N.
Definition backslash : codepoint := 92%N.

Definition has_char (c : codepoint) (s : pystr) : bool :=
  existsb (N.eqb c) s.

(** [repr] picks double quotes only when the string contains a single
    quote and no double quote. *)
Definition repr_quote (s : pystr) : codepoint :=
  if has_char quote_single s && negb (has_char quote_double s)
  then quote_double else quote_single.

Definition repr_char (q c : codepoint) : pystr :=
  (if (c =? q) || (c =? backslash) then [backslash; c]
   else if c =? 9 then [backslash; 116]
   else if c =? 10 then [backslash; 110]
   else if c =? 13 then [backslash; 114]
   else if (c <? 32) || (c =? 127) then [backslash; 120] ++ hex_digits 2 c
   else if c <? 127 then [c]
   else if unicode_isprintable c then [c]
   else if c <? 256 then [backslash; 120] ++ hex_digits 2 c
   else if c <? 65536 then [backslash; 117] ++ hex_digits 4 c
   else [backslash; 85] ++ hex_digits 8 c)%N.

(** [repr(str)] *)
Definition repr_str (s : pystr) : pystr :=
  let q := repr_quote s in
  [q] ++ concat (map (repr_char q) s) ++ [q].

(** [", ".join(parts)] *)
Fixpoint join_comma (parts : list pystr) : pystr :=
  match parts with
  | [] => []
  | [p] => p
  | p :: rest => p ++ py ", " ++ join_comma rest
  end.

Definition repr_key (k : pykey) : pystr :=
  match k with
  | KStr s => repr_str s
  | KInt z => str_int z
  end.

(** [repr(v)] *)
Fixpoint py_repr (v : pyval) : pystr :=
  match v with
  | VStr s => repr_str s
  | VInt z => str_int z
  | VBool true => py "True"
  | VBool false => py "False"
  | VNone => py "None"
  | VList l => py "[" ++ join_comma (map py_repr l) ++ py "]"
  | VDict d =>
      py "{"
      ++ join_comma (map (fun kv => repr_key (fst kv) ++ py ": " ++ py_repr (snd kv)) d)
      ++ py "}"
  end.

(** [str(v)]: a string is itself, everything else prints as its [repr]. *)
Definition py_str (v : pyval) : pystr :=
  match v with
  | VStr s => s
  | _ => py_repr v
  end.

(** [str(key)] *)
Definition str_key (k : pykey) : pystr :=
  match k with
  | KStr s => s
  | KInt z => str_int z
  end.
End Repr.

End PyBase.

(* ================================================================== *)
(** * Metadata validation and message formatting *)
(* ================================================================== *)

Module Metadata.
Import PyBase.

Section Validation.
Variable unicode_isprintable : codepoint -> bool.

#[local] Abbreviation py_str := (py_str unicode_isprintable).

(** [json.dumps(to_check)] raises [TypeError] on objects JSON cannot
    represent. Every value of [pyval] is a tree of dictionaries with string
    or integer keys, lists and primitive leaves, all of which serialise. *)
Definition json_dumps (v : pyval) : result unit := Ok tt.

(** The [if top_level:] block closing both validators: a [TypeError] from
    [json.dumps] is turned into a [MetadataFormattingException]. *)
Definition check_serializable (top_level : bool) (v : pyval) : result unit :=
  if top_level then
    match json_dumps v with
    | Raise TypeError => Raise MetadataFormattingException
    | r => r
    end
  else Ok tt.

(** [if len(x) > 64: raise MetadataFormattingException(...)] *)
Definition too_long (s : pystr) : result unit :=
  if 64 <? len s then Raise MetadataFormattingException else Ok tt.

(** [check_metadata] (module level, wallet.py 1904-1954). The recursive
    calls leave [top_level] at its default [False]. *)
Fixpoint check_metadata_rec (to_check : pyval) : result unit :=
  match to_check with
  | VDict d =>
      for_each (fun kv : pykey * pyval =>
                  too_long (str_key (fst kv)) ;;
                  match snd kv with
                  | VDict _ | VList _ => check_metadata_rec (snd kv)
                  | value => too_long (py_str value)
                  end) d
  | VList l => for_each (fun item => too_long (py_str item)) l
  | VStr s => too_long s
  | _ => Ok tt
  end.

Definition check_metadata (to_check : pyval) (top_level : bool) : result unit :=
  check_metadata_rec to_check ;;
  check_serializable top_level to_check.

(** [len(to_check)] in the final branch of [Token._check_metadata], which
    the source comments as "must be a string": other scalars have no
    length and raise [TypeError]. *)
Definition len_scalar (v : pyval) : result Z :=
  match v with
  | VStr s => Ok (len s)
  | VList l => Ok (len l)
  | VDict d => Ok (len d)
  | VInt _ | VBool _ | VNone => Raise TypeError
  end.

(** [Token._check_metadata] (wallet.py 504-547). *)
Fixpoint Token_check_metadata_rec (to_check : pyval) : result unit :=
  match to_check with
  | VDict d =>
      for_each (fun kv : pykey * pyval =>
                  too_long (str_key (fst kv)) ;;
                  match snd kv with
                  | VDict _ | VList _ => Token_check_metadata_rec (snd kv)
                  | value => too_long (py_str value)
                  end) d
  | VList l => for_each Token_check_metadata_rec l
  | other =>
      n ← len_scalar other;
      if 64 <? n then Raise MetadataFormattingException else Ok tt
  end.

Definition Token_check_metadata (to_check : pyval) (top_level : bool)
  : result unit :=
  Token_check_metadata_rec to_check ;;
  check_serializable top_level to_check.
End Validation.

(** The [message] argument: a string or a list of lines. *)
Inductive message :=
| MsgStr (s : pystr)
| MsgList (lines : list pyval).

(** [[message[i : i + 64] for i in range(0, len(message), 64)]] *)
Definition chunk_message (s : pystr) : list pystr :=
  map (fun i => slice s i (i + 64)) (py_range 0 (length s) 64).

(** The validation loop of [format_message]: the length test comes before
    the type test. *)
Definition check_line (line : pyval) : result unit :=
  n ← len_scalar line;
  (if 64 <? n then Raise MetadataFormattingException else Ok tt) ;;
  match line with
  | VStr _ => Ok tt
  | _ => Raise MetadataFormattingException
  end.

(** [format_message] (wallet.py 1877-1901). *)
Definition format_message (m : message) : result pyval :=
  let lines :=
    match m with
    | MsgStr s => map VStr (chunk_message s)
    | MsgList l => l
    end in
  for_each check_line lines ;;
  Ok (VDict [(KStr (py "msg"), VList lines)]).

(** A string leaf longer than 64 characters somewhere inside the value: the
    value itself, an item of a list, or a value of a dictionary, at any
    depth. *)
Fixpoint has_long_leaf (v : pyval) : bool :=
  match v with
  | VStr s => 64 <? len s
  | VList l => existsb has_long_leaf l
  | VDict d => existsb (fun kv => has_long_leaf (snd kv)) d
  | _ => false
  end.

(** Every list item, at any depth, is a string, a list or a dictionary, and
    so is the value itself. This is the shape the final branch of
    [Token._check_metadata] assumes. *)
Fixpoint lists_hold_strings (v : pyval) : bool :=
  match v with
  | VStr _ => true
  | VList l => forallb lists_hold_strings l
  | VDict d =>
      forallb (fun kv =>
                 match snd kv with
                 | VDict _ | VList _ => lists_hold_strings (snd kv)
                 | _ => true
                 end) d
  | _ => false
  end.

(** The number of bytes of the UTF-8 encoding of a string. *)
Definition utf8_len (s : pystr) : result Z :=
  b ← utf8_encode s; Ok (len b).

End Metadata.

(* ================================================================== *)
(** * Python numbers *)
(* ================================================================== *)

Module PyNum.
Import PyBase.

(** A Python [float] is an IEEE 754 binary64 number. A finite float is
    modelled by the rational it denotes, kept in lowest terms so that equal
    floats are equal terms; the sign of zero is not modelled. *)
Inductive pyfloat :=
| Fin (q : Q)
| Inf (negative : bool)
| NaN.

(** A number is an unbounded [int] or a [float]. *)
Inductive pynum :=
| PInt (z : Z)
| PFloat (f : pyfloat).

(** ** Rounding to binary64 *)

(** [x * 2^k] for [k >= 0], and [x] otherwise. *)
Definition shl (x k : Z) : Z := x * 2 ^ Z.max 0 k.

(** [floor(log2(n/d))] for positive [n] and [d]. *)
Definition ilog2_ratio (n d : Z) : Z :=
  let e0 := Z.log2 n - Z.log2 d in
  if shl n (- e0) <? shl d e0 then e0 - 1 else e0.

(** The integer nearest to [n/d], ties to even ([n >= 0], [d > 0]). *)
Definition round_nearest_even (n d : Z) : Z :=
  let q := n / d in
  let r := n mod d in
  if 2 * r <? d then q
  else if d <? 2 * r then q + 1
  else if Z.even q then q else q + 1.

(** The rational [m * 2^t] in lowest terms. *)
Definition dyadic (m t : Z) : Q :=
  Qred (Qmake (shl m t) (Z.to_pos (shl 1 (- t)))).

(** Round a rational to the nearest binary64 number, ties to even: 53
    significant bits, the least exponent of a unit in the last place is
    -1074 (subnormals), and a rounded magnitude of [2^1024] or more
    overflows to infinity. *)
Definition round64 (x : Q) : pyfloat :=
  let x := Qred x in
  let n := Z.abs (Qnum x) in
  let d := Zpos (Qden x) in
  if n =? 0 then Fin 0
  else
    let e := ilog2_ratio n d in
    let t := Z.max (e - 52) (-1074) in
    let m := round_nearest_even (shl n (- t)) (shl d t) in
    if (971 <=? t) && (2 ^ 1024 <=? m * 2 ^ t) then Inf (Qnum x <? 0)
    else Fin (dyadic (Z.sgn (Qnum x) * m) t).

(** ** Float arithmetic (IEEE 754, round to nearest even) *)

Definition is_zero (f : pyfloat) : bool :=
  match f with Fin q => Qnum q =? 0 | _ => false end.

Definition is_negative (f : pyfloat) : bool :=
  match f with Fin q => Qnum q <? 0 | Inf s => s | NaN => false end.

Definition fneg (f : pyfloat) : pyfloat :=
  match f with
  | Fin q => Fin (Qmake (- Qnum q) (Qden q))
  | Inf s => Inf (negb s)
  | NaN => NaN
  end.

Definition fabs (f : pyfloat) : pyfloat :=
  match f with
  | Fin q => Fin (Qmake (Z.abs (Qnum q)) (Qden q))
  | Inf _ => Inf false
  | NaN => NaN
  end.

Definition fadd (a b : pyfloat) : pyfloat :=
  match a, b with
  | NaN, _ | _, NaN => NaN
  | Inf s, Inf s' => if Bool.eqb s s' then Inf s else NaN
  | Inf s, Fin _ | Fin _, Inf s => Inf s
  | Fin x, Fin y => round64 (x + y)
  end.

Definition fsub (a b : pyfloat) : pyfloat := fadd a (fneg b).

Definition fmul (a b : pyfloat) : pyfloat :=
  match a, b with
  | NaN, _ | _, NaN => NaN
  | Inf s, other | other, Inf s =>
      if is_zero other then NaN else Inf (xorb s (is_negative other))
  | Fin x, Fin y => round64 (x * y)
  end.

(** IEEE division by a divisor that is not zero (Python raises before
    dividing by zero). *)
Definition fdiv (a b : pyfloat) : pyfloat :=
  match a, b with
  | NaN, _ | _, NaN => NaN
  | Inf _, Inf _ => NaN
  | Inf s, Fin y => Inf (xorb s (Qnum y <? 0))
  | Fin _, Inf _ => Fin 0
  | Fin x, Fin y => round64 (x / y)
  end.

(** [a < b] and [a > b]; comparisons with NaN are false. *)
Definition flt (a b : pyfloat) : bool :=
  match a, b with
  | NaN, _ | _, NaN => false
  | Inf s, Inf s' => s && negb s'
  | Inf s, Fin _ => s
  | Fin _, Inf s => negb s
  | Fin x, Fin y => Qnum x * Zpos (Qden y) <? Qnum y * Zpos (Qden x)
  end.

(** C [floor]: exact on floats. *)
Definition ffloor (a : pyfloat) : pyfloat :=
  match a with
  | Fin x => Fin (inject_Z (Qnum x / Zpos (Qden x)))
  | other => other
  end.

(** C [fmod(x, y)] for [y] not zero: exact, with the sign of [x]. *)
Definition fmod (a b : pyfloat) : pyfloat :=
  match a, b with
  | NaN, _ | _, NaN => NaN
  | Inf _, _ => NaN
  | Fin x, Inf _ => Fin x
  | Fin x, Fin y =>
      let k := Z.quot (Qnum x * Zpos (Qden y)) (Qnum y * Zpos (Qden x)) in
      Fin (Qred (x - y * inject_Z k))
  end.

(** The truth value of a C double: everything but zero. *)
Definition ftruthy (a : pyfloat) : bool := negb (is_zero a).

(** CPython's [_float_div_mod] quotient, for a divisor that is not zero:
    the quotient is recovered from [fmod], corrected when the remainder and
    the divisor differ in sign, and snapped to the nearest integral value. *)
Definition ffloordiv (vx wx : pyfloat) : pyfloat :=
  let mod_ := fmod vx wx in
  let div := fdiv (fsub vx mod_) wx in
  let div :=
    if ftruthy mod_ && negb (Bool.eqb (flt wx (Fin 0)) (flt mod_ (Fin 0)))
    then fsub div (Fin 1) else div in
  if ftruthy div then
    let floordiv := ffloor div in
    if flt (Fin (1 # 2)) (fsub div floordiv) then fadd floordiv (Fin 1)
    else floordiv
  else Fin 0.

(** ** Conversions *)

(** [float(z)]: correctly rounded, [OverflowError] when out of range. *)
Definition of_int (z : Z) : result pyfloat :=
  match round64 (inject_Z z) with
  | Inf _ => Raise OverflowError
  | f => Ok f
  end.

(** [int(f)]: truncation toward zero. *)
Definition ftrunc (f : pyfloat) : result Z :=
  match f with
  | Fin q => Ok (Z.quot (Qnum q) (Zpos (Qden q)))
  | Inf _ => Raise OverflowError
  | NaN => Raise ValueError
  end.

(** [round(f)]: to the nearest [int], ties to even. *)
Definition fround (f : pyfloat) : result Z :=
  match f with
  | Fin q =>
      Ok (Z.sgn (Qnum q) * round_nearest_even (Z.abs (Qnum q)) (Zpos (Qden q)))
  | Inf _ => Raise OverflowError
  | NaN => Raise ValueError
  end.

(** [a / b] on two [int]s: the exact quotient correctly rounded. *)
Definition int_truediv (a b : Z) : result pyfloat :=
  if b =? 0 then Raise ZeroDivisionError
  else
    match round64 (inject_Z a / inject_Z b) with
    | Inf _ => Raise OverflowError
    | f => Ok f
    end.

(** ** The operators of [int] and [float] *)

Definition is_int (x : pynum) : bool :=
  match x with PInt _ => true | PFloat _ => false end.

(** Coercion of an operand to [float] in mixed arithmetic. *)
Definition to_float (x : pynum) : result pyfloat :=
  match x with
  | PInt z => of_int z
  | PFloat f => Ok f
  end.

(** A binary operator that is exact on two [int]s and otherwise works on
    the operands converted to [float]. *)
Definition arith (iop : Z -> Z -> Z) (fop : pyfloat -> pyfloat -> pyfloat)
  (x y : pynum) : result pynum :=
  match x, y with
  | PInt a, PInt b => Ok (PInt (iop a b))
  | _, _ =>
      fx ← to_float x;
      fy ← to_float y;
      Ok (PFloat (fop fx fy))
  end.

Definition py_add : pynum -> pynum -> result pynum := arith Z.add fadd.
Definition py_sub : pynum -> pynum -> result pynum := arith Z.sub fsub.
Definition py_mul : pynum -> pynum -> result pynum := arith Z.mul fmul.

(** [x / y]: always a [float]. *)
Definition py_truediv (x y : pynum) : result pynum :=
  match x, y with
  | PInt a, PInt b => f ← int_truediv a b; Ok (PFloat f)
  | _, _ =>
      fx ← to_float x;
      fy ← to_float y;
      if is_zero fy then Raise ZeroDivisionError
      else Ok (PFloat (fdiv fx fy))
  end.

(** [x // y]: an [int] on two [int]s, a [float] otherwise. *)
Definition py_floordiv (x y : pynum) : result pynum :=
  match x, y with
  | PInt a, PInt b =>
      if b =? 0 then Raise ZeroDivisionError else Ok (PInt (a / b))
  | _, _ =>
      fx ← to_float x;
      fy ← to_float y;
      if is_zero fy then Raise ZeroDivisionError
      else Ok (PFloat (ffloordiv fx fy))
  end.

Definition py_neg (x : pynum) : pynum :=
  match x with
  | PInt a => PInt (- a)
  | PFloat f => PFloat (fneg f)
  end.

Definition py_abs (x : pynum) : pynum :=
  match x with
  | PInt a => PInt (Z.abs a)
  | PFloat f => PFloat (fabs f)
  end.

(** [round(x)] with one argument: always an [int]. *)
Definition py_round (x : pynum) : result pynum :=
  match x with
  | PInt a => Ok (PInt a)
  | PFloat f => z ← fround f; Ok (PInt z)
  end.

(** [int(x)] *)
Definition py_int (x : pynum) : result Z :=
  match x with
  | PInt a => Ok a
  | PFloat f => ftrunc f
  end.

(** [bool(x)] *)
Definition py_bool (x : pynum) : bool :=
  match x with
  | PInt a => negb (a =? 0)
  | PFloat f => ftruthy f
  end.

End PyNum.

(* ================================================================== *)
(** * Amount, Lovelace and Ada *)
(* ================================================================== *)

Module Amounts.
Import PyBase PyNum.

(** The two concrete classes. [Amount] itself is a frozen dataclass whose
    [__post_init__] assigns attributes, so only its subclasses can be
    instantiated. *)
Inductive amount_class := Lovelace | Ada.

(** The values of [_amount_type]: ["lovelace"] and ["ada"]. *)
Inductive amount_type := lovelace_t | ada_t.

#[global] Instance amount_class_eq_dec : EqDecision amount_class.
Proof. solve_decision. Defined.
#[global] Instance amount_type_eq_dec : EqDecision amount_type.
Proof. solve_decision. Defined.

(** An instance: its class, the two dataclass fields and the attributes set
    by [__post_init__]. [_amount_dict] is [{"lovelace": _lovelace, "ada": _ada}]. *)
Record Amount := mkAmount {
  klass : amount_class;
  _amount : pynum;
  _amount_type : amount_type;
  _lovelace : Z;
  _ada : pynum
}.

Definition ratio : Z := 1000000.

(** [Amount.__init__] followed by [Amount.__post_init__] (wallet.py 74-83). *)
Definition Amount_init (cls : amount_class) (amount : pynum) (ty : amount_type)
  : result Amount :=
  match ty with
  | lovelace_t =>
      l ← py_int amount;
      a ← py_truediv amount (PInt ratio);
      Ok (mkAmount cls amount ty l a)
  | ada_t =>
      p ← py_mul amount (PInt ratio);
      l ← py_int p;
      Ok (mkAmount cls amount ty l amount)
  end.

(** [Lovelace.__init__] (wallet.py 251-256). *)
Definition Lovelace_new (amount : pynum) : result Amount :=
  if is_int amount then Amount_init Lovelace amount lovelace_t
  else Raise TypeError.

(** [Ada.__init__] (wallet.py 273-274). *)
Definition Ada_new (amount : pynum) : result Amount :=
  Amount_init Ada amount ada_t.

(** [self.__class__(x)] *)
Definition new_like (self : Amount) (x : pynum) : result Amount :=
  match klass self with
  | Lovelace => Lovelace_new x
  | Ada => Ada_new x
  end.

(** The properties [lovelace], [ada] and [amount]. *)
Definition lovelace (self : Amount) : Z := _lovelace self.
Definition ada (self : Amount) : pynum := _ada self.
Definition amount (self : Amount) : pynum :=
  match _amount_type self with
  | lovelace_t => PInt (lovelace self)
  | ada_t => ada self
  end.

(** [self[key]] *)
Definition getitem (self : Amount) (key : amount_type) : pynum :=
  match key with
  | lovelace_t => PInt (_lovelace self)
  | ada_t => _ada self
  end.

(** [bool(self)] *)
Definition Amount_bool (self : Amount) : bool := py_bool (_amount self).

(** The right operand of an operator: a bare number, another amount, or an
    object of any other type. *)
Inductive operand :=
| OpNum (n : pynum)
| OpAmount (a : Amount)
| OpOther.

(** The shape shared by [__add__], [__sub__], [__mul__], [__truediv__] and
    [__floordiv__]: [self.__class__(self.amount <op> other)], with an
    [Amount] operand read in the unit of [self]. *)
Definition binop (op : pynum -> pynum -> result pynum)
  (self : Amount) (other : operand) : result Amount :=
  match other with
  | OpNum n => r ← op (amount self) n; new_like self r
  | OpAmount o => r ← op (amount self) (getitem o (_amount_type self)); new_like self r
  | OpOther => Raise TypeError
  end.

(** The shape of the reflected methods: only bare numbers are accepted.
    [flip] tells whether the number is the left operand of [op]. *)
Definition rbinop (op : pynum -> pynum -> result pynum) (flip : bool)
  (self : Amount) (other : operand) : result Amount :=
  match other with
  | OpNum n =>
      r ← (if flip then op n (amount self) else op (amount self) n);
      new_like self r
  | _ => Raise TypeError
  end.

Definition Amount_add := binop py_add.
Definition Amount_radd := rbinop py_add false.
Definition Amount_sub := binop py_sub.
Definition Amount_rsub := rbinop py_sub true.
Definition Amount_mul := binop py_mul.
Definition Amount_rmul := rbinop py_mul false.
Definition Amount_truediv := binop py_truediv.
Definition Amount_floordiv := binop py_floordiv.
Definition Amount_rtruediv := rbinop py_truediv true.
Definition Amount_rfloordiv := rbinop py_floordiv true.

Definition Amount_neg (self : Amount) : result Amount :=
  new_like self (py_neg (amount self)).
Definition Amount_abs (self : Amount) : result Amount :=
  new_like self (py_abs (amount self)).
Definition Amount_round (self : Amount) : result Amount :=
  r ← py_round (amount self); new_like self r.

(** The ten binary methods and the three unary ones, by name. *)
Inductive binary_method :=
| m_add | m_radd | m_sub | m_rsub | m_mul | m_rmul
| m_truediv | m_floordiv | m_rtruediv | m_rfloordiv.

Inductive unary_method := m_neg | m_abs | m_round.

Definition call_binary (m : binary_method) : Amount -> operand -> result Amount :=
  match m with
  | m_add => Amount_add
  | m_radd => Amount_radd
  | m_sub => Amount_sub
  | m_rsub => Amount_rsub
  | m_mul => Amount_mul
  | m_rmul => Amount_rmul
  | m_truediv => Amount_truediv
  | m_floordiv => Amount_floordiv
  | m_rtruediv => Amount_rtruediv
  | m_rfloordiv => Amount_rfloordiv
  end.

Definition call_unary (m : unary_method) : Amount -> result Amount :=
  match m with
  | m_neg => Amount_neg
  | m_abs => Amount_abs
  | m_round => Amount_round
  end.

(** [as_lovelace] and [as_ada]: the same bodies in both subclasses. *)
Definition as_lovelace (self : Amount) : result Amount :=
  Lovelace_new (PInt (lovelace self)).
Definition as_ada (self : Amount) : result Amount :=
  Ada_new (ada self).


(** An instance is one that a constructor returned. *)
Definition constructed (self : Amount) : Prop :=
  exists x, new_like self x = Ok self.

End Amounts.

(* ================================================================== *)
(** * Wallet: tokens, outputs and the transaction composer *)
(* ================================================================== *)

Module Wallet.
Import PyBase PyNum Amounts Metadata.

(** ** Data of the collaborators

    The classes below belong to the rest of the library ([pycardano.address],
    [.hash], [.key], [.nativescript], [.transaction], [.certificate]). They
    are modelled by the data the composer reads and writes. *)

Inductive Network := MAINNET | TESTNET.

(** The staking part of an address: a key or script hash, or a pointer. *)
Inductive staking_part :=
| StakeHash (h : bytes)
| PointerAddress (p : bytes).

Record Address := mkAddress {
  payment_part : option bytes;
  staking_part_of : option staking_part;
  network : Network
}.

Definition ScriptHash := bytes.
Definition AssetName := bytes.
Definition PoolKeyHash := bytes.
Definition VerificationKeyHash := bytes.

(** A signing key; [extended] tells an [ExtendedSigningKey] from a
    [SigningKey]. *)
Record SigningKey := mkSigningKey {
  sk_payload : bytes;
  sk_extended : bool
}.

Record VerificationKey := mkVerificationKey { vk_payload : bytes }.

#[global] Instance Network_eq_dec : EqDecision Network.
Proof. solve_decision. Defined.
#[global] Instance staking_part_eq_dec : EqDecision staking_part.
Proof. solve_decision. Defined.
#[global] Instance Address_eq_dec : EqDecision Address.
Proof. solve_decision. Defined.
#[global] Instance SigningKey_eq_dec : EqDecision SigningKey.
Proof. solve_decision. Defined.

(** Native scripts, with the [_TYPE] tags 0 to 5 of their classes. *)
Inductive NativeScript :=
| ScriptPubkey (key_hash : bytes)
| ScriptAll (native_scripts : list NativeScript)
| ScriptAny (native_scripts : list NativeScript)
| ScriptNofK (n : Z) (native_scripts : list NativeScript)
| InvalidBefore (before : Z)
| InvalidHereAfter (after : Z).

Fixpoint NativeScript_eqb (a b : NativeScript) : bool :=
  let fix all2 (l l' : list NativeScript) : bool :=
    match l, l' with
    | [], [] => true
    | x :: r, y :: r' => NativeScript_eqb x y && all2 r r'
    | _, _ => false
    end in
  match a, b with
  | ScriptPubkey h, ScriptPubkey h' => bool_decide (h = h')
  | ScriptAll l, ScriptAll l' => all2 l l'
  | ScriptAny l, ScriptAny l' => all2 l l'
  | ScriptNofK n l, ScriptNofK n' l' => (n =? n') && all2 l l'
  | InvalidBefore s, InvalidBefore s' => s =? s'
  | InvalidHereAfter s, InvalidHereAfter s' => s =? s'
  | _, _ => false
  end.

Definition NativeScript_TYPE (s : NativeScript) : Z :=
  match s with
  | ScriptPubkey _ => 0
  | ScriptAll _ => 1
  | ScriptAny _ => 2
  | ScriptNofK _ _ => 3
  | InvalidBefore _ => 4
  | InvalidHereAfter _ => 5
  end.

(** [getattr(script, "native_scripts", [])] *)
Definition get_native_scripts (s : NativeScript) : list NativeScript :=
  match s with
  | ScriptAll l | ScriptAny l | ScriptNofK _ l => l
  | _ => []
  end.

(** [Asset] and [MultiAsset] are dictionaries. *)
Definition Asset := list (AssetName * Z).
Definition MultiAsset := list (ScriptHash * Asset).

Record Value := mkValue { coin : Z; multi_asset : MultiAsset }.

Record TransactionOutput := mkTransactionOutput {
  to_address : option Address;
  to_amount : Value
}.

Record UTxO := mkUTxO { utxo_tx : bytes; utxo_index : Z }.

Definition StakeCredential := bytes.

Inductive Certificate :=
| StakeRegistration (c : StakeCredential)
| StakeDeregistration (c : StakeCredential)
| StakeDelegation (c : StakeCredential) (pool_keyhash : PoolKeyHash).

(** [Withdrawals]: a dictionary from bytes to quantities. *)
Definition Withdrawals := list (bytes * pynum).

(** [AuxiliaryData] wrapping the metadata dictionary. *)
Record AuxiliaryData := mkAuxiliaryData { aux_metadata : list (pykey * pyval) }.

(** A value of the ["withdrawable_amount"] field of an account record. *)
Inductive account_field :=
| FieldNum (n : pynum)
| FieldStr (s : pystr).

(** What the chain reports for a stake address. *)
Record account_info := mkAccountInfo {
  active : bool;
  withdrawable_amount_field : option account_field
}.

(** The chain context: whether it is a [BlockFrostChainContext], and the
    account query [context.api.accounts] when the context has an [api]
    attribute (the query gives [None] when it fails with [ApiError]). *)
Record ChainContext := mkChainContext {
  is_blockfrost : bool;
  api_accounts : option (Address -> option account_info)
}.

(** ** Operations of the collaborators

    Functions of the library and of the interpreter that the composer calls
    and whose bodies are outside [wallet.py]. *)
Class Collaborators := {
  (** whether [Address(payment_part, staking_part, network)] accepts its
      parts; the constructor raises when it does not *)
  address_accepts : option bytes -> option staking_part -> bool;
  (** [Address.from_primitive(str)] *)
  address_from_primitive : pystr -> result Address;
  (** [Address.to_primitive()] *)
  address_to_primitive : Address -> bytes;
  (** [to_primitive()] of a staking part *)
  staking_to_primitive : staking_part -> bytes;
  (** [ScriptHash.from_primitive(str)] *)
  script_hash_from_primitive : pystr -> result ScriptHash;
  (** [str(ScriptHash)] *)
  script_hash_str : ScriptHash -> pystr;
  (** [NativeScript.hash()] *)
  native_script_hash : NativeScript -> ScriptHash;
  (** [AssetName(bytes)] *)
  asset_name : bytes -> result AssetName;
  (** [PoolKeyHash(bytes.fromhex(str))] *)
  pool_key_hash_fromhex : pystr -> result PoolKeyHash;
  (** [VerificationKey.hash()] *)
  verification_key_hash : VerificationKey -> VerificationKeyHash;
  (** [pycardano.utils.min_lovelace(context, output)] *)
  min_lovelace : ChainContext -> TransactionOutput -> Z;
  (** [AuxiliaryData(AlonzoMetadata(metadata=Metadata(d)))] *)
  make_auxiliary_data : list (pykey * pyval) -> result AuxiliaryData;
  (** [int(str)] and [str.isdigit()] *)
  int_of_str : pystr -> result Z;
  str_isdigit : pystr -> bool;
  (** the interpreter's table of printable code points, used by [str()] *)
  unicode_isprintable : codepoint -> bool;
  (** the script stored in the file [<name>.script] of the policy
      directory, when that file exists *)
  policy_file : pystr -> option NativeScript
}.

(** ** Python dictionaries as association lists *)

Section Dict.
Context {K V : Type} `{EqDecision K}.

(** [d.get(k)] *)
Fixpoint dict_get (d : list (K * V)) (k : K) : option V :=
  match d with
  | [] => None
  | (k', v) :: rest => if decide (k' = k) then Some v else dict_get rest k
  end.

(** [d[k] = v]: an existing key keeps its position. *)
Fixpoint dict_set (d : list (K * V)) (k : K) (v : V) : list (K * V) :=
  match d with
  | [] => [(k, v)]
  | (k', v') :: rest =>
      if decide (k' = k) then (k, v) :: rest else (k', v') :: dict_set rest k v
  end.
End Dict.

(** The truth value of a metadata object. *)
Definition py_truthy (v : pyval) : bool :=
  match v with
  | VStr s => negb (len s =? 0)
  | VInt z => negb (z =? 0)
  | VBool b => b
  | VNone => false
  | VList l => negb (len l =? 0)
  | VDict d => negb (len d =? 0)
  end.

(** An argument that is either one object or a list of them. *)
Inductive one_or_many (A : Type) :=
| One (x : A)
| Many (l : list A).
Arguments One {A} x.
Arguments Many {A} l.

(** ** TokenPolicy, Token *)

(** The state of a [TokenPolicy] once constructed (the directory holding
    its script file is left out). *)
Record TokenPolicy := mkTokenPolicy {
  tp_name : pystr;
  tp_policy_id : option pystr;
  tp_script : option NativeScript
}.

(** [TokenPolicy.expiration_slot] (wallet.py 330-349): the [after] of the
    last [InvalidHereAfter] among the sub-scripts. A policy without a script
    has no expiration slot, and neither has a slot 0. *)
Definition expiration_slot (p : TokenPolicy) : result Z :=
  match tp_script p with
  | None => Raise TypeError
  | Some s =>
      let exp :=
        fold_left (fun exp sub =>
                     match sub with
                     | InvalidHereAfter after => Some after
                     | _ => exp
                     end) (get_native_scripts s) None in
      match exp with
      | Some e => if e =? 0 then Raise TypeError else Ok e
      | None => Raise TypeError
      end
  end.

Inductive policy :=
| PolicyScript (s : NativeScript)
| PolicyToken (p : TokenPolicy).

(** The state of a [Token] object. *)
Record Token := mkToken {
  tok_policy : policy;
  tok_amount : Z;
  tok_name : pystr;
  tok_hex_name : pystr;
  tok_metadata : pyval
}.

(** [Token.bytes_name] *)
Definition bytes_name (t : Token) : result bytes := utf8_encode (tok_name t).

(** [Token.policy_id]: [self.policy.policy_id]; a bare [NativeScript] has no
    such attribute. *)
Definition Token_policy_id (t : Token) : result (option pystr) :=
  match tok_policy t with
  | PolicyToken p => Ok (tp_policy_id p)
  | PolicyScript _ => Raise AttributeError
  end.

(** ** Wallet *)

Record Wallet := mkWallet {
  w_name : pystr;
  w_address : option Address;
  w_network : Network;
  signing_key : option SigningKey;
  stake_signing_key : option SigningKey;
  stake_verification_key : option VerificationKey;
  w_context : option ChainContext
}.

(** [Wallet._find_context] *)
Definition find_context (w : Wallet) (context : option ChainContext)
  : result ChainContext :=
  match context, w_context w with
  | None, None => Raise TypeError
  | Some c, _ => Ok c
  | None, Some c => Ok c
  end.

(** [get_stake_info] (wallet.py 1834-1857) on an address object. *)
Definition get_stake_info (stake_address : option Address)
  (context : option ChainContext) : result (option account_info) :=
  match stake_address with
  | None => Raise AttributeError
  | Some a =>
      match staking_part_of a with
      | None => Raise TypeError
      | Some _ =>
          match context with
          | None => Raise AttributeError
          | Some c =>
              match api_accounts c with
              | Some accounts => Ok (accounts a)
              | None => Raise AttributeError
              end
          end
      end
  end.

(** The identity of a token object, and the store of token objects. *)
Definition token_ref := positive.
Abbreviation store := (token_ref -> Token).

Section Composer.
Context `{Collaborators}.

(** [Address(payment_part, staking_part, network)]: the object keeps the
    parts it is given. *)
Definition Address_new (payment : option bytes) (staking : option staking_part)
  (n : Network) : result Address :=
  if address_accepts payment staking then Ok (mkAddress payment staking n)
  else Raise ExternalError.

(** [Wallet.stake_address] (wallet.py 741-749) *)
Definition stake_address (w : Wallet) : result (option Address) :=
  match stake_signing_key w, w_address w with
  | Some _, Some a =>
      sa ← Address_new None (staking_part_of a) (w_network w); Ok (Some sa)
  | Some _, None => Raise AttributeError
  | None, None => Raise AttributeError
  | None, Some a =>
      match staking_part_of a with
      | Some _ =>
          sa ← Address_new None (staking_part_of a) (w_network w); Ok (Some sa)
      | None => Ok None
      end
  end.

(** [Wallet.full_address] (wallet.py 751-758) *)
Definition full_address (w : Wallet) : result Address :=
  match w_address w with
  | Some a => Address_new (payment_part a) (staking_part_of a) (w_network w)
  | None => Raise AttributeError
  end.

(** [Wallet.stake_info.get("active")] *)
Definition stake_info_active (w : Wallet) : result bool :=
  sa ← stake_address w;
  info ← get_stake_info sa (w_context w);
  Ok (match info with Some i => active i | None => false end).

Definition field_truthy (f : option account_field) : bool :=
  match f with
  | None => false
  | Some (FieldNum n) => py_bool n
  | Some (FieldStr s) => negb (len s =? 0)
  end.

(** [account_info.get("withdrawable_amount")]; a failed query gave [{}]. *)
Definition get_withdrawable (info : option account_info) : option account_field :=
  match info with
  | Some i => withdrawable_amount_field i
  | None => None
  end.

(** [Lovelace(int(x))] on a field of an account record. *)
Definition Lovelace_of_field (f : account_field) : result Amount :=
  match f with
  | FieldNum n => z ← py_int n; Lovelace_new (PInt z)
  | FieldStr s => z ← int_of_str s; Lovelace_new (PInt z)
  end.

(** [Wallet.withdrawable_amount] (wallet.py 792-799) *)
Definition withdrawable_amount (w : Wallet) : result Amount :=
  sa ← stake_address w;
  info ← get_stake_info sa (w_context w);
  match get_withdrawable info with
  | Some f => if field_truthy (Some f) then Lovelace_of_field f
              else Lovelace_new (PInt 0)
  | None => Lovelace_new (PInt 0)
  end.

(** ** Output *)

(** What the [address] attribute of an [Output] may hold. *)
Inductive address_like :=
| AddrStr (s : pystr)
| AddrWallet (w : Wallet)
| AddrObj (a : Address)
| AddrNone.

(** What its [amount] attribute may hold: an [Amount] or a bare number. *)
Inductive amount_like :=
| AmountObj (a : Amount)
| AmountNum (n : pynum).

Record Output := mkOutput {
  out_address : address_like;
  out_amount : amount_like;
  out_tokens : option (one_or_many Token)
}.

(** A list is true when it is not empty; an object is true. *)
Definition many_truthy {A} (x : option (one_or_many A)) : bool :=
  match x with
  | None => false
  | Some (One _) => true
  | Some (Many l) => negb (len l =? 0)
  end.

(** [Output.__init__] and [__post_init__] (wallet.py 599-612). *)
Definition Output_new (address : address_like) (amount : amount_like)
  (tokens : option (one_or_many Token)) : result Output :=
  amount' ← match amount with
             | AmountNum (PInt z) => a ← Lovelace_new (PInt z); Ok (AmountObj a)
             | other => Ok other
             end;
  let tokens' := match tokens with
                 | Some (One t) => Some (Many [t])
                 | other => other
                 end in
  address' ← match address with
              | AddrStr s => a ← address_from_primitive s; Ok (AddrObj a)
              | AddrWallet w =>
                  Ok (match w_address w with Some a => AddrObj a | None => AddrNone end)
              | other => Ok other
              end;
  Ok (mkOutput address' amount' tokens').

(** ** Arguments of [transact] *)

Inductive input_thing :=
| InputAddress (a : Address)
| InputStr (s : pystr)
| InputWallet (w : Wallet)
| InputUTxO (u : UTxO)
| InputOther.

(** A stake target: a string, a wallet or an address. *)
Inductive stake_target :=
| TargetStr (s : pystr)
| TargetWallet (w : Wallet)
| TargetAddress (a : Address).

Inductive registration_arg :=
| RegBool (b : bool)
| RegOne (t : stake_target)
| RegMany (l : list stake_target).

(** A pool given as a hexadecimal string or as a hash object. *)
Inductive pool_like :=
| PoolStr (s : pystr)
| PoolHash (h : PoolKeyHash).

(** A key of a dictionary argument: a string. [Wallet] is a dataclass that
    compares by value and is not frozen, so its instances have no hash and
    no dictionary holds one as a key. *)
Definition dict_key := pystr.

(** The key as the object that the loops over a dictionary test. *)
Definition key_target (k : dict_key) : stake_target := TargetStr k.

Inductive delegations_arg :=
| DelegStr (s : pystr)
| DelegPool (h : PoolKeyHash)
| DelegDict (d : list (dict_key * pool_like)).

(** A value of the withdrawals dictionary: an amount, a boolean, the
    string ["all"], or anything else. *)
Inductive withdrawal_value :=
| WdrAmount (a : Amount)
| WdrFlag (b : bool)
| WdrAll
| WdrOther.

Inductive withdrawals_arg :=
| WdrBool (b : bool)
| WdrDict (d : list (dict_key * withdrawal_value)).

(** An element of the signer list. [SignerNone] is the [None] that the
    composer itself appends for a wallet without stake signing key. *)
Inductive signer :=
| SignerWallet (w : Wallet)
| SignerKey (k : SigningKey)
| SignerNone
| SignerOther.

Record transact_args := mkArgs {
  inputs : one_or_many input_thing;
  outputs : option (one_or_many Output);
  mints : option (one_or_many Token);
  signers : option (one_or_many signer);
  stake_registration : option registration_arg;
  delegations : option delegations_arg;
  withdrawals : option withdrawals_arg;
  change_address : option address_like;
  merge_change : bool;
  message_arg : option message;
  other_metadata : option (list (pykey * pyval));
  build_only : bool;
  submit : bool;
  await_confirmation : bool;
  context : option ChainContext
}.

(** ** The builder *)

(** The state of the [TransactionBuilder] as the composer leaves it. *)
Record TransactionBuilder := mkBuilder {
  b_context : ChainContext;
  b_input_addresses : list (Address + pystr);
  b_inputs : list UTxO;
  b_outputs : list TransactionOutput;
  b_ttl : option Z;
  b_mint : option MultiAsset;
  b_native_scripts : option (list (option NativeScript));
  b_auxiliary_data : option AuxiliaryData;
  b_certificates : option (list Certificate);
  b_withdrawals : option Withdrawals
}.

(** [TransactionBuilder(tx_context)] *)
Definition new_builder (c : ChainContext) : TransactionBuilder :=
  mkBuilder c [] [] [] None None None None None None.

(** What the composer finally asks of the builder: [build], or
    [build_and_sign] followed by the submission steps chosen by the flags. *)
Inductive request :=
| Build (b : TransactionBuilder) (change : Address) (merge : bool)
| BuildAndSign (b : TransactionBuilder) (keys : list SigningKey)
    (change : Address) (merge : bool) (submit await_confirmation : bool).

Definition request_builder (r : request) : TransactionBuilder :=
  match r with
  | Build b _ _ => b
  | BuildAndSign b _ _ _ _ _ => b
  end.

(** A field of the builder in the request that a call ended with. *)
Definition handed {A} (field : TransactionBuilder -> A) (r : result request)
  : result A :=
  x ← r; Ok (field (request_builder x)).

(** The signing keys of the request; a build-only request has none. *)
Definition request_keys (r : request) : list SigningKey :=
  match r with
  | Build _ _ _ => []
  | BuildAndSign _ keys _ _ _ _ => keys
  end.

(** ** Normalisation of the arguments (wallet.py 1410-1462) *)

Definition as_list {A} (x : one_or_many A) : list A :=
  match x with
  | One a => [a]
  | Many l => l
  end.

(** [[x]] for an object, the list itself when it is a non-empty list, and
    [[]] for [None] and for the empty list. *)
Definition optional_list {A} (x : option (one_or_many A)) : list A :=
  match x with
  | Some y => as_list y
  | None => []
  end.

Definition target_truthy (t : stake_target) : bool :=
  match t with
  | TargetStr s => negb (len s =? 0)
  | _ => true
  end.

(** [stake_registration_info] (wallet.py 1432-1441): a boolean argument
    falls through to the last branch and leaves the list empty. *)
Definition stake_registration_info (arg : option registration_arg)
  : list stake_target :=
  match arg with
  | Some (RegOne t) => if target_truthy t then [t] else []
  | Some (RegMany l) => l
  | Some (RegBool _) => []
  | None => []
  end.

Definition address_like_truthy (a : address_like) : bool :=
  match a with
  | AddrStr s => negb (len s =? 0)
  | AddrNone => false
  | _ => true
  end.

(** [output_change_address] (wallet.py 1450-1457) *)
Definition resolve_change_address (self : Wallet) (arg : option address_like)
  : result Address :=
  match arg with
  | None => full_address self
  | Some a =>
      if negb (address_like_truthy a) then full_address self
      else match a with
           | AddrStr s => address_from_primitive s
           | AddrObj a => Ok a
           | AddrWallet w => full_address w
           | AddrNone => full_address self
           end
  end.

(** ** Sorting out the mints (wallet.py 1464-1509) *)

(** [mints_dict]: policy hash to name to token. *)
Definition mints_table := list (ScriptHash * list (pystr * Token)).

Record mint_state := mkMintState {
  mints_dict : mints_table;
  mint_metadata : list (pykey * pyval);
  native_scripts : list (option NativeScript)
}.

(** [policy_hash] of a token. *)
Definition token_policy_hash (t : Token) : result ScriptHash :=
  match tok_policy t with
  | PolicyScript s => Ok (native_script_hash s)
  | PolicyToken p =>
      match tp_policy_id p with
      | Some id => script_hash_from_primitive id
      | None => Raise ExternalError
      end
  end.

(** The script a token's policy contributes: the policy itself, or the
    [script] attribute of a [TokenPolicy]. *)
Definition token_script (t : Token) : option NativeScript :=
  match tok_policy t with
  | PolicyScript s => Some s
  | PolicyToken p => tp_script p
  end.

Definition script_eqb (a b : option NativeScript) : bool :=
  match a, b with
  | None, None => true
  | Some x, Some y => NativeScript_eqb x y
  | _, _ => false
  end.

(** [x in native_scripts] *)
Definition script_in (x : option NativeScript) (l : list (option NativeScript)) : bool :=
  existsb (script_eqb x) l.

(** A dictionary stored under a key is true when it is not empty. *)
Definition inner_truthy {K V} (d : option (list (K * V))) : bool :=
  match d with
  | Some (_ :: _) => true
  | _ => false
  end.

Definition inner_or_empty {K V} (d : option (list (K * V))) : list (K * V) :=
  match d with
  | Some l => l
  | None => []
  end.

(** [mint_metadata[policy_id][token.name] = token.metadata], creating the
    inner dictionary when [mint_metadata.get(policy_id)] is false. *)
Definition set_mint_metadata (mm : list (pykey * pyval)) (policy_id name : pystr)
  (metadata : pyval) : list (pykey * pyval) :=
  let inner :=
    match dict_get mm (KStr policy_id) with
    | Some (VDict (kv :: d)) => kv :: d
    | _ => []
    end in
  dict_set mm (KStr policy_id) (VDict (dict_set inner (KStr name) metadata)).

(** One iteration of [for token in mint_list]. *)
Definition sort_mint (st : mint_state) (token : Token) : result mint_state :=
  policy_hash ← token_policy_hash token;
  let policy_id := script_hash_str policy_hash in
  let known := dict_get (mints_dict st) policy_hash in
  let scripts :=
    if inner_truthy known then native_scripts st
    else if script_in (token_script token) (native_scripts st)
         then native_scripts st
         else native_scripts st ++ [token_script token] in
  let inner := if inner_truthy known then inner_or_empty known else [] in
  let mints_dict' :=
    dict_set (mints_dict st) policy_hash (dict_set inner (tok_name token) token) in
  let mint_metadata' :=
    if py_truthy (tok_metadata token) && (0 <? tok_amount token)
    then set_mint_metadata (mint_metadata st) policy_id (tok_name token)
                           (tok_metadata token)
    else mint_metadata st in
  Ok (mkMintState mints_dict' mint_metadata' scripts).

Definition sort_out_mints (mint_list : list Token) : result mint_state :=
  fold_result sort_mint mint_list (mkMintState [] [] []).

(** [AssetName(token.bytes_name)] *)
Definition token_asset_name (t : Token) : result AssetName :=
  b ← bytes_name t; asset_name b.

(** One iteration of [for token in tokens.values()] (wallet.py 1501-1505):
    the pair is ([assets], [mint_assets]). *)
Definition policy_asset (acc : Asset * Asset) (entry : pystr * Token)
  : result (Asset * Asset) :=
  let token := snd entry in
  an ← token_asset_name token;
  let assets := dict_set (fst acc) an (tok_amount token) in
  if 0 <? tok_amount token then
    an' ← token_asset_name token;
    Ok (assets, dict_set (snd acc) an' (tok_amount token))
  else Ok (assets, snd acc).

(** The inner loop, from the two empty [Asset()]. *)
Definition policy_assets (tokens : list (pystr * Token)) : result (Asset * Asset) :=
  fold_result policy_asset tokens ([], []).

(** One iteration of [for policy_hash, tokens in mints_dict.items()]
    (wallet.py 1497-1509): the pair is ([mint_multiasset], [all_assets]). *)
Definition policy_multiasset (acc : MultiAsset * MultiAsset)
  (entry : ScriptHash * list (pystr * Token)) : result (MultiAsset * MultiAsset) :=
  '(assets, mint_assets) ← policy_assets (snd entry);
  let mint_multiasset :=
    match mint_assets with
    | [] => fst acc
    | _ => dict_set (fst acc) (fst entry) mint_assets
    end in
  Ok (mint_multiasset, dict_set (snd acc) (fst entry) assets).

(** [mint_multiasset] and [all_assets] (wallet.py 1494-1509): the first
    holds the strictly positive quantities only, and no policy whose
    quantities are all non-positive. *)
Definition build_multiassets (table : mints_table) : result (MultiAsset * MultiAsset) :=
  fold_result policy_multiasset table ([], []).

(** ** Metadata (wallet.py 1511-1531) *)

Definition message_truthy (m : option message) : bool :=
  match m with
  | Some (MsgStr s) => negb (len s =? 0)
  | Some (MsgList l) => negb (len l =? 0)
  | None => false
  end.

(** [all_metadata]: the mint metadata under 721, the message under 674,
    then the caller's entries, each validated by [check_metadata]. *)
Definition assemble_metadata (mint_metadata : list (pykey * pyval))
  (msg : option message) (other : option (list (pykey * pyval)))
  : result (list (pykey * pyval)) :=
  let all0 : list (pykey * pyval) :=
    match mint_metadata with
    | [] => []
    | _ => [(KInt 721, VDict mint_metadata)]
    end in
  all1 ← (if message_truthy msg then
             match msg with
             | Some m => f ← format_message m; Ok (dict_set all0 (KInt 674) f)
             | None => Ok all0
             end
           else Ok all0);
  fold_result
    (fun (all_metadata : list (pykey * pyval)) (kv : pykey * pyval) =>
       check_metadata unicode_isprintable (snd kv) false ;;
       Ok (dict_set all_metadata (fst kv) (snd kv)))
    (inner_or_empty other) all1.

(** [auxiliary_data] *)
Definition build_auxiliary_data (all_metadata : list (pykey * pyval))
  : result AuxiliaryData :=
  match all_metadata with
  | [] => Ok (mkAuxiliaryData [])
  | _ => make_auxiliary_data all_metadata
  end.

(** ** Certificates (wallet.py 1533-1597) *)

(** [x in signers_list], by [==]: keys compare by content, [None] equals
    [None], and a wallet never equals a key. *)
Definition signer_eqb (a b : signer) : bool :=
  match a, b with
  | SignerKey k, SignerKey k' => bool_decide (k = k')
  | SignerNone, SignerNone => true
  | _, _ => false
  end.

Definition signer_in (x : signer) (l : list signer) : bool :=
  existsb (signer_eqb x) l.

Definition key_signer (k : option SigningKey) : signer :=
  match k with
  | Some k => SignerKey k
  | None => SignerNone
  end.

(** [if self.stake_signing_key not in signers_list:
       signers_list.append(self.stake_signing_key)] *)
Definition add_stake_signer (self : Wallet) (signers_list : list signer)
  : list signer :=
  let k := key_signer (stake_signing_key self) in
  if signer_in k signers_list then signers_list else signers_list ++ [k].

(** [self.stake_verification_key.hash()] *)
Definition own_stake_hash (self : Wallet) : result VerificationKeyHash :=
  match stake_verification_key self with
  | Some vk => Ok (verification_key_hash vk)
  | None => Raise AttributeError
  end.

(** The test [isinstance(stake_hash, PointerAddress) or stake_hash is None]
    guarding every credential built from an address. *)
Definition credential_of (stake_hash : option staking_part) : result StakeCredential :=
  match stake_hash with
  | Some (StakeHash h) => Ok h
  | Some (PointerAddress _) => Raise ValueError
  | None => Raise ValueError
  end.

(** The stake hash of a registration entry. A wallet entry stands for the
    caller's own stake key. *)
Definition registration_credential (self : Wallet) (stake : stake_target)
  : result StakeCredential :=
  match stake with
  | TargetStr s =>
      a ← address_from_primitive s; credential_of (staking_part_of a)
  | TargetWallet _ => own_stake_hash self
  | TargetAddress a => credential_of (staking_part_of a)
  end.

(** The registrations: [stake_registration_info] is a list here, so of
    the two branches of the source only the loop over its entries is ever
    entered; the branch for a boolean, which would register the caller's
    own credential, is not. *)
Definition registration_certificates (self : Wallet) (info : list stake_target)
  : result (list Certificate) :=
  fold_result
    (fun certificates stake =>
       c ← registration_credential self stake;
       Ok (certificates ++ [StakeRegistration c]))
    info [].

Definition pool_hash_of (p : pool_like) : result PoolKeyHash :=
  match p with
  | PoolStr s => pool_key_hash_fromhex s
  | PoolHash h => Ok h
  end.

(** [for key, value in delegations] iterates over the keys of the
    dictionary and unpacks each key into two names: a key that is an
    object cannot be unpacked ([TypeError]); a string key unpacks only when
    it has exactly two characters ([ValueError] otherwise), which then
    stand for the stake target and the pool. *)
Definition unpack_delegation_key (k : stake_target)
  : result (stake_target * pool_like) :=
  match k with
  | TargetStr [c1; c2] => Ok (TargetStr [c1], PoolStr [c2])
  | TargetStr _ => Raise ValueError
  | TargetWallet _ | TargetAddress _ => Raise TypeError
  end.

Definition delegations_truthy (d : option delegations_arg) : bool :=
  match d with
  | Some (DelegStr s) => negb (len s =? 0)
  | Some (DelegPool _) => true
  | Some (DelegDict d) => negb (len d =? 0)
  | None => false
  end.

(** The delegations, appended to the certificates and the signers. *)
Definition delegation_certificates (self : Wallet) (arg : option delegations_arg)
  (certificates : list Certificate) (signers_list : list signer)
  : result (list Certificate * list signer) :=
  if negb (delegations_truthy arg) then Ok (certificates, signers_list)
  else
    match arg with
    | Some (DelegStr s) =>
        pool_hash ← pool_key_hash_fromhex s;
        c ← own_stake_hash self;
        Ok (certificates ++ [StakeDelegation c pool_hash],
            add_stake_signer self signers_list)
    | Some (DelegPool h) =>
        c ← own_stake_hash self;
        Ok (certificates ++ [StakeDelegation c h], signers_list)
    | Some (DelegDict d) =>
        certs ← fold_result
          (fun certificates (entry : dict_key * pool_like) =>
             '(key, value) ← unpack_delegation_key (key_target (fst entry));
             c ← match key with
                  | TargetStr s =>
                      a ← address_from_primitive s; credential_of (staking_part_of a)
                  | TargetWallet _ => own_stake_hash self
                  | TargetAddress a => credential_of (staking_part_of a)
                  end;
             pool_hash ← pool_hash_of value;
             Ok (certificates ++ [StakeDelegation c pool_hash]))
          d certificates;
        Ok (certs, signers_list)
    | None => Ok (certificates, signers_list)
    end.

(** ** Withdrawals (wallet.py 1599-1655) *)

(** The stake address a key of the withdrawals dictionary stands for
    (wallet.py 1609-1614). The source tests for an address and for a wallet
    before it reads the key as a string. *)
Definition withdrawal_address (key : stake_target) : result (option Address) :=
  match key with
  | TargetAddress a => Ok (Some a)
  | TargetWallet w => stake_address w
  | TargetStr s => a ← address_from_primitive s; Ok (Some a)
  end.

(** The branch for [True] and ["all"]: the whole reward balance reported
    by a BlockFrost context. *)
Definition withdraw_all (stake_address : option Address) (tx_context : ChainContext)
  : result Amount :=
  if negb (is_blockfrost tx_context) then Raise ValueError
  else
    info ← get_stake_info stake_address (Some tx_context);
    match get_withdrawable info with
    | Some f =>
        if field_truthy (Some f) then
          match f with
          | FieldNum n => z ← py_int n; Lovelace_new (PInt z)
          | FieldStr s =>
              if str_isdigit s then z ← int_of_str s; Lovelace_new (PInt z)
              else Lovelace_new (PInt 0)
          end
        else Lovelace_new (PInt 0)
    | None => Lovelace_new (PInt 0)
    end.

Definition withdrawal_amount_of (value : withdrawal_value)
  (stake_address : option Address) (tx_context : ChainContext) : result Amount :=
  match value with
  | WdrAmount a => Ok a
  | WdrFlag _ | WdrAll => withdraw_all stake_address tx_context
  | WdrOther => Lovelace_new (PInt 0)
  end.

(** The quantity stored for an entry:
    [withdrawal_amount.as_lovelace().amount] for a [Lovelace], and
    [withdrawal_amount.lovelace] otherwise. *)
Definition withdrawal_quantity (a : Amount) : result pynum :=
  match klass a with
  | Lovelace => l ← as_lovelace a; Ok (amount l)
  | Ada => Ok (PInt (lovelace a))
  end.

Definition withdraw_table := list (bytes * pynum).

(** One iteration of [for key, value in withdrawals.items()]. *)
Definition withdraw_entry (tx_context : ChainContext) (withdraw : withdraw_table)
  (entry : dict_key * withdrawal_value) : result withdraw_table :=
  stake_address ← withdrawal_address (key_target (fst entry));
  withdrawal_amount ← withdrawal_amount_of (snd entry) stake_address tx_context;
  match stake_address with
  | None => Raise AttributeError
  | Some a =>
      match staking_part_of a with
      | None => Raise ValueError
      | Some sp =>
          q ← withdrawal_quantity withdrawal_amount;
          Ok (dict_set withdraw (staking_to_primitive sp) q)
      end
  end.

(** The withdrawals stage. The shorthand [True] keys the caller's own
    entry by the primitive form of the whole stake address; the entries
    of a dictionary are keyed by the primitive form of the staking part. *)
Definition resolve_withdrawals (self : Wallet) (tx_context : ChainContext)
  (arg : option withdrawals_arg) (signers_list : list signer)
  : result (withdraw_table * list signer) :=
  match arg with
  | Some (WdrBool true) =>
      w ← withdrawable_amount self;
      sa ← stake_address self;
      match sa with
      | None => Raise AttributeError
      | Some a =>
          Ok ([(address_to_primitive a, PInt (lovelace w))],
              add_stake_signer self signers_list)
      end
  | Some (WdrDict d) =>
      withdraw ← fold_result (withdraw_entry tx_context) d [];
      Ok (withdraw, signers_list)
  | Some (WdrBool false) | None => Ok ([], signers_list)
  end.

(** ** Inputs, mint fields, outputs (wallet.py 1657-1746) *)

Definition add_input_address (b : TransactionBuilder) (a : Address + pystr)
  : TransactionBuilder :=
  mkBuilder (b_context b) (b_input_addresses b ++ [a]) (b_inputs b) (b_outputs b)
    (b_ttl b) (b_mint b) (b_native_scripts b) (b_auxiliary_data b)
    (b_certificates b) (b_withdrawals b).

Definition add_input (b : TransactionBuilder) (u : UTxO) : TransactionBuilder :=
  mkBuilder (b_context b) (b_input_addresses b) (b_inputs b ++ [u]) (b_outputs b)
    (b_ttl b) (b_mint b) (b_native_scripts b) (b_auxiliary_data b)
    (b_certificates b) (b_withdrawals b).

Definition add_output (b : TransactionBuilder) (o : TransactionOutput)
  : TransactionBuilder :=
  mkBuilder (b_context b) (b_input_addresses b) (b_inputs b) (b_outputs b ++ [o])
    (b_ttl b) (b_mint b) (b_native_scripts b) (b_auxiliary_data b)
    (b_certificates b) (b_withdrawals b).

(** One iteration of [for input_thing in input_list]: the only failure is
    a wallet without address; an object of any other type is skipped. *)
Definition add_input_thing (b : TransactionBuilder) (input : input_thing)
  : result TransactionBuilder :=
  match input with
  | InputAddress a => Ok (add_input_address b (inl a))
  | InputStr s => Ok (add_input_address b (inr s))
  | InputWallet w =>
      match w_address w with
      | None => Raise ValueError
      | Some a => Ok (add_input_address b (inl a))
      end
  | InputUTxO u => Ok (add_input b u)
  | InputOther => Ok b
  end.

Definition add_inputs (b : TransactionBuilder) (input_list : list input_thing)
  : result TransactionBuilder :=
  fold_result add_input_thing input_list b.

(** [TokenPolicy(name, policy_id, script)] with its [__post_init__]
    (wallet.py 300-328): a script given as [script] fixes the policy
    identifier; without one, the script is loaded from the file of that
    name in the policy directory, if there is such a file. *)
Definition TokenPolicy_new (name : pystr) (policy_id : option pystr)
  (script : option NativeScript) : TokenPolicy :=
  match script with
  | Some s => mkTokenPolicy name (Some (script_hash_str (native_script_hash s))) (Some s)
  | None =>
      match policy_file name with
      | Some s =>
          mkTokenPolicy name (Some (script_hash_str (native_script_hash s))) (Some s)
      | None => mkTokenPolicy name policy_id None
      end
  end.

(** [TokenPolicy("", policy)] (wallet.py 1674). The fields of the class are
    [name], [policy_id], [script], in this order, so the script [policy]
    is received as [policy_id] and the [script] of the new policy is not
    given. [expiration_slot] reads [script] only; the model leaves out the
    object held by [policy_id]. *)
Definition policy_of_script (policy : option NativeScript) : TokenPolicy :=
  TokenPolicy_new [] None None.

(** [[TokenPolicy("", policy).expiration_slot for policy in native_scripts]] *)
Fixpoint expiration_slots (scripts : list (option NativeScript)) : result (list Z) :=
  match scripts with
  | [] => Ok []
  | policy :: rest =>
      e ← expiration_slot (policy_of_script policy);
      es ← expiration_slots rest;
      Ok (e :: es)
  end.

(** [min(l)]; the minimum of an empty list is a [ValueError]. *)
Definition py_min (l : list Z) : result Z :=
  match l with
  | [] => Raise ValueError
  | x :: rest => Ok (fold_left Z.min rest x)
  end.

(** The [if mint_list:] block setting [ttl], [mint] and [native_scripts]. *)
Definition set_mint (b : TransactionBuilder) (mint_list : list Token)
  (scripts : list (option NativeScript)) (all_assets : MultiAsset)
  : result TransactionBuilder :=
  match mint_list with
  | [] => Ok b
  | _ =>
      slots ← expiration_slots scripts;
      ttl ← py_min slots;
      Ok (mkBuilder (b_context b) (b_input_addresses b) (b_inputs b) (b_outputs b)
            (Some ttl) (Some all_assets) (Some scripts) (b_auxiliary_data b)
            (b_certificates b) (b_withdrawals b))
  end.

Definition set_auxiliary_data (b : TransactionBuilder)
  (all_metadata : list (pykey * pyval)) (aux : AuxiliaryData) : TransactionBuilder :=
  match all_metadata with
  | [] => b
  | _ =>
      mkBuilder (b_context b) (b_input_addresses b) (b_inputs b) (b_outputs b)
        (b_ttl b) (b_mint b) (b_native_scripts b) (Some aux)
        (b_certificates b) (b_withdrawals b)
  end.

(** [output_policies]: policy id to name to summed quantity. *)
Definition output_table := list (option pystr * list (pystr * Z)).

(** One iteration of [for token in output_tokens]: quantities of the same
    policy and name add up within the output. *)
Definition merge_output_token (table : output_table) (token : Token)
  : result output_table :=
  policy_id ← Token_policy_id token;
  let known := dict_get table policy_id in
  let inner := if inner_truthy known then inner_or_empty known else [] in
  let quantity :=
    match dict_get inner (tok_name token) with
    | Some q => if q =? 0 then tok_amount token else q + tok_amount token
    | None => tok_amount token
    end in
  Ok (dict_set table policy_id (dict_set inner (tok_name token) quantity)).

(** [for token_name, token_amount in token_info.items()] *)
Definition output_asset (token_info : list (pystr * Z)) : result Asset :=
  fold_result
    (fun (asset : Asset) (entry : pystr * Z) =>
       b ← utf8_encode (fst entry);
       an ← asset_name b;
       Ok (dict_set asset an (snd entry)))
    token_info [].

(** The [multi_asset] of one output, from its own tokens. *)
Definition output_multi_asset (tokens : option (one_or_many Token))
  : result MultiAsset :=
  if negb (many_truthy tokens) then Ok []
  else
    output_policies ← fold_result merge_output_token (optional_list tokens) [];
    fold_result
      (fun (multi_asset : MultiAsset) (entry : option pystr * list (pystr * Z)) =>
         asset ← output_asset (snd entry);
         h ← match fst entry with
              | Some id => script_hash_from_primitive id
              | None => Raise ExternalError
              end;
         Ok (dict_set multi_asset h asset))
      output_policies [].

Definition output_amount (a : amount_like) : result Amount :=
  match a with
  | AmountObj a => Ok a
  | AmountNum n => Lovelace_new n
  end.

Definition output_address (a : address_like) : result (option Address) :=
  match a with
  | AddrStr s => a ← address_from_primitive s; Ok (Some a)
  | AddrWallet w => a ← full_address w; Ok (Some a)
  | AddrObj a => Ok (Some a)
  | AddrNone => Ok None
  end.

(** The record whose minimum value is asked of [min_lovelace]: the
    output's address with one million lovelace and [mint_multiasset], the
    positive quantities minted by the transaction. *)
Definition min_lovelace_probe (address : option Address)
  (mint_multiasset : MultiAsset) : TransactionOutput :=
  mkTransactionOutput address (mkValue 1000000 mint_multiasset).

(** One iteration of [for output in output_list] (wallet.py 1685-1738). *)
Definition format_output (tx_context : ChainContext) (mint_multiasset : MultiAsset)
  (output : Output) : result TransactionOutput :=
  multi_asset ← output_multi_asset (out_tokens output);
  amount0 ← output_amount (out_amount output);
  address ← output_address (out_address output);
  amount1 ← (if lovelace amount0 =? 0
              then Lovelace_new
                     (PInt (min_lovelace tx_context
                              (min_lovelace_probe address mint_multiasset)))
              else Ok amount0);
  Ok (mkTransactionOutput address (mkValue (lovelace amount1) multi_asset)).

Definition add_outputs (b : TransactionBuilder) (mint_multiasset : MultiAsset)
  (output_list : list Output) : result TransactionBuilder :=
  fold_result
    (fun b output =>
       o ← format_output (b_context b) mint_multiasset output;
       Ok (add_output b o))
    output_list b.

Definition set_certificates (b : TransactionBuilder) (certificates : list Certificate)
  : TransactionBuilder :=
  match certificates with
  | [] => b
  | _ =>
      mkBuilder (b_context b) (b_input_addresses b) (b_inputs b) (b_outputs b)
        (b_ttl b) (b_mint b) (b_native_scripts b) (b_auxiliary_data b)
        (Some certificates) (b_withdrawals b)
  end.

Definition set_withdrawals (b : TransactionBuilder) (withdraw : withdraw_table)
  : TransactionBuilder :=
  match withdraw with
  | [] => b
  | _ =>
      mkBuilder (b_context b) (b_input_addresses b) (b_inputs b) (b_outputs b)
        (b_ttl b) (b_mint b) (b_native_scripts b) (b_auxiliary_data b)
        (b_certificates b) (Some withdraw)
  end.

(** ** Signing keys (wallet.py 1753-1779) *)

Definition signer_key (s : signer) : result SigningKey :=
  match s with
  | SignerWallet w =>
      match signing_key w with
      | Some k => Ok k
      | None => Raise ValueError
      end
  | SignerKey k => Ok k
  | SignerNone | SignerOther => Raise ValueError
  end.

Fixpoint signer_keys (l : list signer) : result (list SigningKey) :=
  match l with
  | [] => Ok []
  | s :: rest =>
      k ← signer_key s;
      ks ← signer_keys rest;
      Ok (k :: ks)
  end.

(** The caller's own key is put first when missing; an extended key is
    not a [SigningKey] and is left out with a warning. *)
Definition signing_keys (self : Wallet) (signers_list : list signer)
  : result (list SigningKey) :=
  match signers_list with
  | [] =>
      match signing_key self with
      | Some k => Ok [k]
      | None => Raise ValueError
      end
  | _ =>
      keys ← signer_keys signers_list;
      match signing_key self with
      | Some k =>
          if bool_decide (k ∈ keys) then Ok keys
          else if sk_extended k then Ok keys
          else Ok (k :: keys)
      | None => Ok keys
      end
  end.

(** ** [Wallet.transact] (wallet.py 1328-1796)

    The composer up to the call it makes on the builder. Whatever happens
    after that call (signing, submission, waiting for confirmation) is the
    builder's and the chain context's. *)
Definition transact (self : Wallet) (args : transact_args) : result request :=
  (* streamline inputs *)
  tx_context ← find_context self (context args);
  let input_list := as_list (inputs args) in
  let output_list := optional_list (outputs args) in
  let mint_list := optional_list (mints args) in
  let registration_info := stake_registration_info (stake_registration args) in
  let signers_list := optional_list (signers args) in
  output_change_address ← resolve_change_address self (change_address args);
  (* sort out mints *)
  minted ← sort_out_mints mint_list;
  '(mint_multiasset, all_assets) ← build_multiassets (mints_dict minted);
  (* metadata *)
  all_metadata ← assemble_metadata (mint_metadata minted) (message_arg args)
                    (other_metadata args);
  auxiliary_data ← build_auxiliary_data all_metadata;
  (* stake registrations, delegations *)
  certificates ← registration_certificates self registration_info;
  '(certificates, signers_list) ←
     delegation_certificates self (delegations args) certificates signers_list;
  (* withdrawals *)
  '(withdraw, signers_list) ←
     resolve_withdrawals self tx_context (withdrawals args) signers_list;
  (* build the transaction *)
  let builder := new_builder tx_context in
  builder ← add_inputs builder input_list;
  builder ← set_mint builder mint_list (native_scripts minted) all_assets;
  let builder := set_auxiliary_data builder all_metadata auxiliary_data in
  builder ← add_outputs builder mint_multiasset output_list;
  let builder := set_certificates builder certificates in
  let builder := set_withdrawals builder withdraw in
  if build_only args then
    Ok (Build builder output_change_address (merge_change args))
  else
    keys ← signing_keys self signers_list;
    Ok (BuildAndSign builder keys output_change_address (merge_change args)
          (submit args) (await_confirmation args)).

(** [inputs] of the convenience methods: the given UTxO(s), or the wallet
    itself. *)
Definition inputs_of_utxos (self : Wallet) (utxos : option (one_or_many UTxO))
  : one_or_many input_thing :=
  if many_truthy utxos then
    match utxos with
    | Some (One u) => Many [InputUTxO u]
    | Some (Many l) => Many (map InputUTxO l)
    | None => Many [InputWallet self]
    end
  else Many [InputWallet self].

Definition with_call (kwargs : transact_args)
  (inputs : one_or_many input_thing) (outputs : option (one_or_many Output))
  (mints : option (one_or_many Token))
  (stake_registration : option registration_arg)
  (delegations : option delegations_arg) : transact_args :=
  mkArgs inputs outputs mints (signers kwargs) stake_registration delegations
    (withdrawals kwargs) (change_address kwargs) (merge_change kwargs)
    (message_arg kwargs) (other_metadata kwargs) (build_only kwargs)
    (submit kwargs) (await_confirmation kwargs) (context kwargs).

(** [Wallet.delegate] (wallet.py 1129-1180). [kwargs] supplies the
    arguments of [transact] that [delegate] does not set itself. *)
Definition delegate (self : Wallet) (pool_hash : delegations_arg) (register : bool)
  (amount : Amount) (utxos : option (one_or_many UTxO)) (kwargs : transact_args)
  : result request :=
  sa ← stake_address self;
  match sa with
  | None => Raise ValueError
  | Some _ =>
      let inputs := inputs_of_utxos self utxos in
      active ← stake_info_active self;
      register' ← (if register then Ok (negb active)
                    else if negb active then Raise ValueError
                    else Ok register);
      output ← Output_new (AddrWallet self) (AmountObj amount) None;
      transact self
        (with_call kwargs inputs (Some (One output)) (mints kwargs)
           (Some (RegBool register')) (Some pool_hash))
  end.

(** [amount and not issubclass(amount.__class__, Amount)] *)
Definition amount_like_truthy (a : option amount_like) : bool :=
  match a with
  | None => false
  | Some (AmountObj a) => Amount_bool a
  | Some (AmountNum n) => py_bool n
  end.

Definition check_amount_argument (a : option amount_like) : result unit :=
  match a with
  | Some (AmountNum n) => if py_bool n then Raise TypeError else Ok tt
  | _ => Ok tt
  end.

(** [Wallet.mint_tokens] (wallet.py 1220-1268): the same tokens are the
    output's tokens and the mints. *)
Definition mint_tokens (self : Wallet) (to : address_like)
  (mints : one_or_many Token) (amount : option amount_like)
  (utxos : option (one_or_many UTxO)) (kwargs : transact_args) : result request :=
  check_amount_argument amount ;;
  amount' ← (if amount_like_truthy amount then
                Ok (match amount with Some a => a | None => AmountNum (PInt 0) end)
              else a ← Lovelace_new (PInt 0); Ok (AmountObj a));
  let inputs := inputs_of_utxos self utxos in
  output ← Output_new to amount' (Some mints);
  transact self
    (with_call kwargs inputs (Some (One output)) (Some mints)
       (stake_registration kwargs) (delegations kwargs)).

(** ** [Wallet.burn_tokens] (wallet.py 1270-1326)

    Tokens are mutable objects shared with the caller. The store maps
    the identity of an object to its current state; the method receives
    identities and assigns to their [amount] attribute. *)
Definition set_amount (t : Token) (a : Z) : Token :=
  mkToken (tok_policy t) a (tok_name t) (tok_hex_name t) (tok_metadata t).

(** [token.amount = -abs(token.amount)] *)
Definition negate_amount (st : store) (r : token_ref) : store :=
  <[ r := set_amount (st r) (- Z.abs (tok_amount (st r))) ]> st.

(** [for token in tokens: token.amount = -abs(token.amount)] *)
Definition negate_amounts (st : store) (refs : list token_ref) : store :=
  fold_left negate_amount refs st.

(** The objects behind a list of identities. *)
Definition deref (st : store) (refs : one_or_many token_ref) : one_or_many Token :=
  match refs with
  | One r => One (st r)
  | Many l => Many (map st l)
  end.

(** The arguments with which [burn_tokens] calls [transact], computed in
    the store left by the sign change. *)
Definition burn_call (self : Wallet) (st : store) (tokens : list token_ref)
  (change_address : address_like) (attach_amount : Amount)
  (utxos : option (one_or_many UTxO)) (kwargs : transact_args)
  : result transact_args :=
  output ← Output_new change_address (AmountObj attach_amount)
             (Some (Many (map st tokens)));
  Ok (with_call kwargs (inputs_of_utxos self utxos) (Some (One output))
        (Some (Many (map st tokens)))
        (stake_registration kwargs) (delegations kwargs)).

(** The method returns the store it leaves behind together with its
    result. *)
Definition burn_tokens (self : Wallet) (st : store) (tokens : one_or_many token_ref)
  (change_address : address_like) (amount : option amount_like)
  (utxos : option (one_or_many UTxO)) (kwargs : transact_args)
  : store * result request :=
  match check_amount_argument amount with
  | Raise e => (st, Raise e)
  | Ok _ =>
      match (if amount_like_truthy amount then
               match amount with
               | Some (AmountObj a) => Ok a
               | _ => Ada_new (PInt 1)
               end
             else Ada_new (PInt 1)) with
      | Raise e => (st, Raise e)
      | Ok attach_amount =>
          let tokens := as_list tokens in
          let st' := negate_amounts st tokens in
          (st', args ← burn_call self st' tokens change_address attach_amount
                          utxos kwargs;
                transact self args)
      end
  end.
End Composer.

End Wallet.

(* ================================================================== *)
(** * Comparison of amounts *)
(* ================================================================== *)

Module Comparisons.
Import PyBase PyNum Amounts.

(** The number a Python number denotes. Comparisons between an [int] and a
    [float] are exact: the [int] is not rounded to a [float] first. *)
Definition as_exact (x : pynum) : pyfloat :=
  match x with
  | PInt z => Fin (inject_Z z)
  | PFloat f => f
  end.

(** The order of two floats; [None] when one of them is NaN. *)
Definition fcompare (a b : pyfloat) : option comparison :=
  match a, b with
  | NaN, _ | _, NaN => None
  | Inf s, Inf s' =>
      Some (if s then (if s' then Eq else Lt) else (if s' then Gt else Eq))
  | Inf s, Fin _ => Some (if s then Lt else Gt)
  | Fin _, Inf s => Some (if s then Gt else Lt)
  | Fin x, Fin y => Some (x ?= y)%Q
  end.

Definition py_compare (x y : pynum) : option comparison :=
  fcompare (as_exact x) (as_exact y).

(** [x == y], [x != y], [x < y], [x > y], [x <= y], [x >= y] on numbers. *)
Definition py_eq (x y : pynum) : bool :=
  match py_compare x y with Some Eq => true | _ => false end.
Definition py_ne (x y : pynum) : bool := negb (py_eq x y).
Definition py_lt (x y : pynum) : bool :=
  match py_compare x y with Some Lt => true | _ => false end.
Definition py_gt (x y : pynum) : bool :=
  match py_compare x y with Some Gt => true | _ => false end.
Definition py_le (x y : pynum) : bool :=
  match py_compare x y with Some Lt | Some Eq => true | _ => false end.
Definition py_ge (x y : pynum) : bool :=
  match py_compare x y with Some Gt | Some Eq => true | _ => false end.

(** The shape shared by the six comparison methods (wallet.py 104-150): a
    bare number is compared with [self.amount], another amount through the
    two [lovelace] values, and anything else raises [TypeError]. *)
Definition comparison_method (on_numbers : pynum -> pynum -> bool)
  (on_lovelace : Z -> Z -> bool) (self : Amount) (other : operand) : result bool :=
  match other with
  | OpNum n => Ok (on_numbers (amount self) n)
  | OpAmount o => Ok (on_lovelace (lovelace self) (lovelace o))
  | OpOther => Raise TypeError
  end.

Definition Amount_eq := comparison_method py_eq Z.eqb.
Definition Amount_ne := comparison_method py_ne (fun a b => negb (a =? b)).
Definition Amount_gt := comparison_method py_gt Z.gtb.
Definition Amount_lt := comparison_method py_lt Z.ltb.
Definition Amount_ge := comparison_method py_ge Z.geb.
Definition Amount_le := comparison_method py_le Z.leb.

(** [int(self)] (wallet.py 152-153) *)
Definition Amount_int (self : Amount) : result Z := py_int (amount self).

(** A number that is neither NaN nor an infinity. *)
Definition finite (x : pynum) : bool :=
  match x with
  | PInt _ | PFloat (Fin _) => true
  | PFloat _ => false
  end.

End Comparisons.

(* ================================================================== *)
(** * Construction of tokens *)
(* ================================================================== *)

Module Tokens.
Import PyBase Metadata Wallet.

(** The functions of this part raise one exception more than the
    composer does: [UnicodeDecodeError], from [bytes.decode]. *)
Inductive failure :=
| Of (e : exn)
| UnicodeDecodeError.

Inductive outcome (A : Type) :=
| Returns (a : A)
| Fails (f : failure).
Arguments Returns {A} a.
Arguments Fails {A} f.

#[global] Instance outcome_ret : MRet outcome := fun A a => Returns a.
#[global] Instance outcome_bind : MBind outcome := fun A B k m =>
  match m with
  | Returns a => k a
  | Fails f => Fails f
  end.

Definition lift {A} (r : result A) : outcome A :=
  match r with
  | Ok a => Returns a
  | Raise e => Fails (Of e)
  end.

(** ** [bytes.hex] and [bytes.fromhex] *)

(** [b.hex()]: two lowercase digits for every byte. *)
Definition bytes_hex (b : bytes) : pystr := concat (map (hex_digits 2) b).

(** The value of a hexadecimal digit, in either case. *)
Definition hex_digit (c : codepoint) : option N :=
  (if (48 <=? c) && (c <=? 57) then Some (c - 48)
   else if (97 <=? c) && (c <=? 102) then Some (c - 87)
   else if (65 <=? c) && (c <=? 70) then Some (c - 55)
   else None)%N.

(** ASCII whitespace, which [bytes.fromhex] skips between bytes. *)
Definition is_space (c : codepoint) : bool :=
  ((c =? 32) || ((9 <=? c) && (c <=? 13)))%N.

(** [bytes.fromhex(s)]: [ValueError] on a character that is not a
    hexadecimal digit and on a digit without its pair. *)
Fixpoint bytes_fromhex (s : pystr) : result bytes :=
  match s with
  | [] => Ok []
  | c :: rest =>
      if is_space c then bytes_fromhex rest
      else
        match hex_digit c, rest with
        | Some top, c' :: rest' =>
            match hex_digit c' with
            | Some bot => b ← bytes_fromhex rest'; Ok ((top * 16 + bot)%N :: b)
            | None => Raise ValueError
            end
        | _, _ => Raise ValueError
        end
  end.

(** ** [bytes.decode("utf-8")] *)

(** The payload of a continuation byte [10xxxxxx]. *)
Definition continuation (b : N) : option N :=
  (if (128 <=? b) && (b <? 192) then Some (b - 128) else None)%N.

(** A code point decoded from [n] bytes is accepted when it needs that many
    bytes, is no surrogate and is at most U+10FFFF. *)
Definition well_formed (n : nat) (c : codepoint) : bool :=
  (match n with
   | 2%nat => 128 <=? c
   | 3%nat => (2048 <=? c) && negb ((55296 <=? c) && (c <=? 57343))
   | _ => (65536 <=? c) && (c <? 1114112)
   end)%N.

(** Strict decoding: any byte sequence that is not well-formed UTF-8
    raises [UnicodeDecodeError]. *)
Fixpoint utf8_decode (b : bytes) : outcome pystr :=
  match b with
  | [] => Returns []
  | b0 :: r0 =>
      if (b0 <? 128)%N then s ← utf8_decode r0; Returns (b0 :: s)
      else if ((192 <=? b0) && (b0 <? 224))%N then
        match r0 with
        | b1 :: r1 =>
            match continuation b1 with
            | Some x1 =>
                let c := ((b0 - 192) * 64 + x1)%N in
                if well_formed 2 c then s ← utf8_decode r1; Returns (c :: s)
                else Fails UnicodeDecodeError
            | None => Fails UnicodeDecodeError
            end
        | _ => Fails UnicodeDecodeError
        end
      else if ((224 <=? b0) && (b0 <? 240))%N then
        match r0 with
        | b1 :: b2 :: r2 =>
            match continuation b1, continuation b2 with
            | Some x1, Some x2 =>
                let c := ((b0 - 224) * 4096 + x1 * 64 + x2)%N in
                if well_formed 3 c then s ← utf8_decode r2; Returns (c :: s)
                else Fails UnicodeDecodeError
            | _, _ => Fails UnicodeDecodeError
            end
        | _ => Fails UnicodeDecodeError
        end
      else if ((240 <=? b0) && (b0 <? 248))%N then
        match r0 with
        | b1 :: b2 :: b3 :: r3 =>
            match continuation b1, continuation b2, continuation b3 with
            | Some x1, Some x2, Some x3 =>
                let c := ((b0 - 240) * 262144 + x1 * 4096 + x2 * 64 + x3)%N in
                if well_formed 4 c then s ← utf8_decode r3; Returns (c :: s)
                else Fails UnicodeDecodeError
            | _, _, _ => Fails UnicodeDecodeError
            end
        | _ => Fails UnicodeDecodeError
        end
      else Fails UnicodeDecodeError
  end.

(** ** [Token.__post_init__] (wallet.py 488-499) *)

Section TokenInit.
Variable unicode_isprintable : codepoint -> bool.

(** [Token(policy, amount, name, hex_name, metadata)]. The amount is an
    [int] here, so the type test on it passes. A [hex_name] that is not
    empty decides the name; otherwise the name decides the [hex_name]. *)
Definition Token_new (policy : policy) (amount : Z) (name hex_name : pystr)
  (metadata : pyval) : outcome Token :=
  '(name, hex_name) ←
     (if negb (len hex_name =? 0) then
        b ← lift (bytes_fromhex hex_name);
        decoded ← utf8_decode b;
        Returns (decoded, hex_name)
      else
        b ← lift (utf8_encode name);
        Returns (name, bytes_hex b));
  lift (Token_check_metadata unicode_isprintable metadata true) ;;
  Returns (mkToken policy amount name hex_name metadata).
End TokenInit.

(** The code points a [str] can hold. *)
Definition is_str (s : pystr) : Prop := Forall (fun c => (c < 1114112)%N) s.

End Tokens.

(* ================================================================== *)
(** * Shapes of values that the properties speak of *)
(* ================================================================== *)

Module MetadataShapes.
Import PyBase Metadata.

(** A dictionary key whose string form is longer than 64 characters,
    somewhere inside the value. *)
Fixpoint has_long_key (v : pyval) : bool :=
  match v with
  | VList l => existsb has_long_key l
  | VDict d =>
      existsb (fun kv => (64 <? len (str_key (fst kv))) || has_long_key (snd kv)) d
  | _ => false
  end.

End MetadataShapes.

Module ComposerShapes.
Import PyBase PyNum Amounts Metadata Wallet.

(** The quantity a two-level dictionary holds under a pair of keys. *)
Definition lookup2 {K1 K2 V} `{EqDecision K1} `{EqDecision K2}
  (table : list (K1 * list (K2 * V))) (k1 : K1) (k2 : K2) : option V :=
  inner ← dict_get table k1; dict_get inner k2.

(** The tokens of a list that carry a given policy identifier and name. *)
Definition carries (policy_id : option pystr) (name : pystr) (t : Token) : bool :=
  match Token_policy_id t with
  | Ok p => bool_decide (p = policy_id) && bool_decide (tok_name t = name)
  | Raise _ => false
  end.

(** The sum of the quantities of a list of tokens; nothing when the list is
    empty. *)
Definition tally (tokens : list Token) : option Z :=
  match tokens with
  | [] => None
  | _ => Some (fold_right Z.add 0 (map tok_amount tokens))
  end.

Definition is_registration (c : Certificate) : bool :=
  match c with StakeRegistration _ => true | _ => false end.

Definition is_delegation (c : Certificate) : bool :=
  match c with StakeDelegation _ _ => true | _ => false end.

(** An entry of the mint metadata made of the metadata of tokens of the
    list that are minted in a positive quantity. *)
Definition from_positive_mints (mint_list : list Token) (entry : pykey * pyval)
  : Prop :=
  exists inner,
    snd entry = VDict inner /\ inner <> []
    /\ forall name metadata,
         In (name, metadata) inner ->
         exists t, In t mint_list /\ 0 < tok_amount t
                   /\ name = KStr (tok_name t) /\ metadata = tok_metadata t
                   /\ py_truthy metadata = true.

End ComposerShapes.

(* ================================================================== *)
(** * The convenience methods and the helper functions *)
(* ================================================================== *)

Module Convenience.
Import PyBase PyNum Amounts Metadata Wallet Tokens.

Section Methods.
Context `{Collaborators}.

(** The keyword arguments passed on to [transact], with the arguments a
    method sets itself. *)
Definition call_with (kwargs : transact_args)
  (inputs : one_or_many input_thing) (outputs : option (one_or_many Output))
  (withdrawals : option withdrawals_arg) (change_address : option address_like)
  : transact_args :=
  mkArgs inputs outputs (mints kwargs) (signers kwargs)
    (stake_registration kwargs) (delegations kwargs) withdrawals change_address
    (merge_change kwargs) (message_arg kwargs) (other_metadata kwargs)
    (build_only kwargs) (submit kwargs) (await_confirmation kwargs)
    (context kwargs).

(** [Wallet.send_ada] (wallet.py 1062-1094): one output, in a list. *)
Definition send_ada (self : Wallet) (to : address_like) (amount : amount_like)
  (utxos : option (one_or_many UTxO)) (kwargs : transact_args) : result request :=
  let inputs := inputs_of_utxos self utxos in
  output ← Output_new to amount None;
  transact self
    (call_with kwargs inputs (Some (Many [output])) (withdrawals kwargs)
       (change_address kwargs)).




(** [{self: withdrawal_amount}]. [Wallet] is a dataclass that compares by
    value and is not frozen, so its instances have no hash: making one the
    key of a dictionary raises [TypeError]. *)
Definition dict_keyed_by_wallet (self : Wallet) (value : withdrawal_value)
  : result (list (dict_key * withdrawal_value)) :=
  Raise TypeError.

(** [Wallet.withdraw_rewards] (wallet.py 1182-1218). *)
Definition withdraw_rewards (self : Wallet) (withdrawal_amount : option Amount)
  (output_amount : Amount) (kwargs : transact_args) : result request :=
  sa ← stake_address self;
  match sa with
  | None => Raise ValueError
  | Some _ =>
      withdrawal_amount ←
        match withdrawal_amount with
        | Some a => if Amount_bool a then Ok a else withdrawable_amount self
        | None => withdrawable_amount self
        end;
      if negb (Amount_bool withdrawal_amount) then Raise ValueError
      else
        output ← Output_new (AddrWallet self) (AmountObj output_amount) None;
        withdrawals ← dict_keyed_by_wallet self (WdrAmount withdrawal_amount);
        transact self
          (call_with kwargs (Many [InputWallet self]) (Some (One output))
             (Some (WdrDict withdrawals)) (change_address kwargs))
  end.

(** ** Token policies (wallet.py 351-384) *)

(** [TokenPolicy.required_signatures]: the key hashes of the [ScriptPubkey]
    scripts directly under the policy script. *)
Definition required_signatures (p : TokenPolicy) : result (list bytes) :=
  match tp_script p with
  | None => Raise TypeError
  | Some s =>
      Ok (flat_map (fun sub => match sub with
                               | ScriptPubkey key_hash => [key_hash]
                               | _ => []
                               end) (get_native_scripts s))
  end.

(** [TokenPolicy.is_expired(context)], given [context.last_block_slot]. *)
Definition is_expired (p : TokenPolicy) (last_block_slot : Z) : result bool :=
  slot ← expiration_slot p;
  Ok (slot - last_block_slot <? 0).

(** The script [generate_minting_policy] builds (wallet.py 422-446) from
    the key hashes of the signers and the slot of the expiration, if one
    is given and is not zero. *)
Definition minting_policy_script (pub_keys : list bytes) (expiration : option Z)
  : NativeScript :=
  match expiration with
  | Some slot =>
      if slot =? 0 then ScriptAll (map ScriptPubkey pub_keys)
      else ScriptAll (map ScriptPubkey pub_keys ++ [InvalidHereAfter slot])
  | None => ScriptAll (map ScriptPubkey pub_keys)
  end.

(** ** [get_stake_address] (wallet.py 1860-1874) *)

Section StakeAddress.
(** [str()] of a staking part and [Address.from_primitive(bytes)], both of
    the address module. *)
Variable staking_part_str : staking_part -> pystr.
Variable address_from_bytes : bytes -> result Address.

(** [address.network.value] *)
Definition network_value (n : Network) : Z :=
  match n with MAINNET => 1 | TESTNET => 0 end.

(** [str(address.staking_part)] *)
Definition str_of_staking (sp : option staking_part) : pystr :=
  match sp with
  | Some sp => staking_part_str sp
  | None => py "None"
  end.

Definition get_stake_address (address : address_like) : result Address :=
  a ← match address with
       | AddrStr s => address_from_primitive s
       | AddrObj a => Ok a
       | AddrWallet _ | AddrNone => Raise AttributeError
       end;
  b ← bytes_fromhex (py "e" ++ str_int (network_value (network a))
                     ++ str_of_staking (staking_part_of a));
  address_from_bytes b.
End StakeAddress.
End Methods.

(** ** [confirm_tx] and [wait_for_confirmation] (wallet.py 1993-2037) *)

(** What one query [context.api.transaction(tx_id)] does. *)
Inductive query :=
| Found
| NotFound            (* [ApiError] *)
| Broken (e : exn).   (* any other exception *)

(** [confirm_tx] *)
Definition confirm_tx (q : query) : result bool :=
  match q with
  | Found => Ok true
  | NotFound => Ok false
  | Broken e => Raise e
  end.

(** [wait_for_confirmation]: the chain answers the [i]-th query with
    [chain i]. The loop runs until a query finds the transaction; [fuel]
    bounds the number of queries the model follows, and the result is
    [None] when it is used up. The result carries the number of times the
    loop slept. *)
Fixpoint wait_for_confirmation (chain : nat -> query) (fuel : nat) (asked : nat)
  : option (result (bool * nat)) :=
  match fuel with
  | O => None
  | S fuel' =>
      match confirm_tx (chain asked) with
      | Raise e => Some (Raise e)
      | Ok true => Some (Ok (true, asked))
      | Ok false => wait_for_confirmation chain fuel' (S asked)
      end
  end.

End Convenience.

(* ================================================================== *)
(** * A concrete setting *)
(* ================================================================== *)

(** Simple stand-ins for the collaborators, and a wallet, a policy and a
    chain context on which the composer can be run. *)
Module Fixture.
Import PyBase PyNum Amounts Metadata Wallet.

Definition hex_value (c : codepoint) : option N :=
  (if (48 <=? c) && (c <=? 57) then Some (c - 48)
   else if (97 <=? c) && (c <=? 102) then Some (c - 87)
   else if (65 <=? c) && (c <=? 70) then Some (c - 55)
   else None)%N.

(** [bytes.fromhex] *)
Fixpoint fromhex (s : pystr) : result bytes :=
  match s with
  | [] => Ok []
  | c1 :: c2 :: rest =>
      match hex_value c1, hex_value c2 with
      | Some h, Some l => bs ← fromhex rest; Ok ((16 * h + l)%N :: bs)
      | _, _ => Raise ExternalError
      end
  | _ => Raise ExternalError
  end.

Definition tohex (b : bytes) : pystr := concat (map (hex_digits 2) b).

(** Hashes are 28 bytes long. *)
Definition hash28 (s : pystr) : result bytes :=
  b ← fromhex s;
  if len b =? 28 then Ok b else Raise ExternalError.

Definition network_tag (n : Network) : N :=
  match n with MAINNET => 1%N | TESTNET => 0%N end.

(** The header byte of an address followed by its parts. *)
Definition address_bytes (a : Address) : bytes :=
  let header :=
    match payment_part a, staking_part_of a with
    | Some _, Some (StakeHash _) => 0%N
    | Some _, Some (PointerAddress _) => 64%N
    | Some _, None => 96%N
    | None, _ => 224%N
    end in
  (header + network_tag (network a))%N
  :: default [] (payment_part a)
  ++ match staking_part_of a with
     | Some (StakeHash h) => h
     | Some (PointerAddress p) => p
     | None => []
     end.

Definition digit_value (c : codepoint) : option Z :=
  (if (48 <=? c) && (c <=? 57) then Some (Z.of_N (c - 48)) else None)%N.

Definition parse_digits (s : pystr) : option Z :=
  fold_left (fun acc c =>
               match acc, digit_value c with
               | Some a, Some d => Some (10 * a + d)
               | _, _ => None
               end) s (Some 0).

Definition alice_payment : bytes := repeat 17%N 28.
Definition alice_stake : bytes := repeat 34%N 28.

Definition alice_address : Address :=
  mkAddress (Some alice_payment) (Some (StakeHash alice_stake)) MAINNET.

(** The minimum value grows with the number of assets carried. *)
Definition bundle_size (m : MultiAsset) : Z :=
  fold_left (fun n entry => n + len (snd entry)) m 0.

Definition bob_payment : bytes := repeat 51%N 28.
Definition bob_stake : bytes := repeat 68%N 28.

Definition bob_address : Address :=
  mkAddress (Some bob_payment) (Some (StakeHash bob_stake)) MAINNET.

(** Bob's stake address: no payment part. *)
Definition bob_stake_address : Address :=
  mkAddress None (Some (StakeHash bob_stake)) MAINNET.

(** A minting policy signed by Alice and expiring at slot 90000000. *)
Definition policy_script : NativeScript :=
  ScriptAll [ScriptPubkey alice_payment; InvalidHereAfter 90000000].

(** The collaborators, given the content of the policy directory. *)
Definition collaborators_with (files : pystr -> option NativeScript)
  : Collaborators := {|
  address_accepts payment staking :=
    match payment, staking with
    | None, None | None, Some (PointerAddress _) => false
    | _, _ => true
    end;
  address_from_primitive s :=
    if bool_decide (s = py "addr1_alice") then Ok alice_address
    else if bool_decide (s = py "stake1_bob") then Ok bob_stake_address
    else Raise ExternalError;
  address_to_primitive := address_bytes;
  staking_to_primitive sp :=
    match sp with StakeHash h => h | PointerAddress p => p end;
  script_hash_from_primitive := hash28;
  script_hash_str := tohex;
  native_script_hash s := repeat (Z.to_N (NativeScript_TYPE s + 160)) 28;
  asset_name b := if len b <=? 32 then Ok b else Raise ExternalError;
  pool_key_hash_fromhex := hash28;
  verification_key_hash vk := vk_payload vk;
  min_lovelace _ o := 1000000 + 150000 * bundle_size (multi_asset (to_amount o));
  make_auxiliary_data d := Ok (mkAuxiliaryData d);
  int_of_str s :=
    match s, parse_digits s with
    | _ :: _, Some z => Ok z
    | _, _ => Raise ValueError
    end;
  str_isdigit s :=
    match s with
    | [] => false
    | _ => forallb (fun c => bool_decide (is_Some (digit_value c))) s
    end;
  unicode_isprintable c := (160 <? c)%N;
  policy_file := files
|}.

(** The usual setting: the policy directory holds no file named [.script]. *)
#[global] Instance collaborators : Collaborators :=
  collaborators_with (fun _ => None).

(** A setting in which the policy directory holds a file named [.script],
    with the script of the policy above. *)
Definition with_script_file : Collaborators :=
  collaborators_with
    (fun name => if bool_decide (name = []) then Some policy_script else None).

(** A BlockFrost context: Alice's stake address is unknown to the chain
    (the account query fails), Bob's is registered with rewards of 7 ADA. *)
Definition chain : ChainContext :=
  mkChainContext true
    (Some (fun a =>
       if bool_decide (staking_part_of a = Some (StakeHash bob_stake))
       then Some (mkAccountInfo true (Some (FieldStr (py "7000000"))))
       else None)).

Definition alice_key : SigningKey := mkSigningKey (repeat 1%N 32) false.
Definition alice_stake_key : SigningKey := mkSigningKey (repeat 2%N 32) false.
Definition bob_key : SigningKey := mkSigningKey (repeat 3%N 32) false.
Definition bob_stake_key : SigningKey := mkSigningKey (repeat 4%N 32) false.

Definition alice : Wallet :=
  mkWallet (py "alice") (Some alice_address) MAINNET
    (Some alice_key) (Some alice_stake_key)
    (Some (mkVerificationKey alice_stake)) (Some chain).

Definition bob : Wallet :=
  mkWallet (py "bob") (Some bob_address) MAINNET
    (Some bob_key) (Some bob_stake_key)
    (Some (mkVerificationKey bob_stake)) (Some chain).

Definition policy_P : TokenPolicy :=
  mkTokenPolicy (py "P")
    (Some (tohex (native_script_hash policy_script))) (Some policy_script).

Definition token (amount : Z) : Token :=
  mkToken (PolicyToken policy_P) amount (py "abc") (py "616263") (VDict []).

(** A pool identifier: 56 hexadecimal digits. *)
Definition pool_id : pystr := concat (repeat (py "ab") 28).

(** [transact(inputs=[self], build_only=True)] and nothing else. *)
Definition plain_call : transact_args :=
  mkArgs (Many [InputWallet alice]) None None None None None None None true
    None None true true false None.

(** The policy identifier, the asset name ["abc"] and the pool hash as bytes. *)
Definition policy_hash : ScriptHash := native_script_hash policy_script.
Definition abc : AssetName := [97; 98; 99]%N.
Definition pool_hash : PoolKeyHash := repeat 171%N 28.

(** [transact(inputs=[self], mints=tokens, build_only=True)] *)
Definition mint_call (tokens : list Token) : transact_args :=
  mkArgs (Many [InputWallet alice]) None (Some (Many tokens)) None None None None
    None true None None true true false None.

(** [Output(alice_address, 0, tokens=[Token(P, 5, "abc")])]: five tokens
    that already exist are sent with no amount given. *)
Definition zero_output : Output :=
  mkOutput (AddrObj alice_address) (AmountObj
    (mkAmount Lovelace (PInt 0) lovelace_t 0 (PFloat (Fin 0))))
    (Some (Many [token 5])).

(** [transact(inputs=[self], outputs=zero_output, build_only=True)] *)
Definition send_call : transact_args :=
  mkArgs (Many [InputWallet alice]) (Some (One zero_output)) None None None None
    None None true None None true true false None.

(** [Lovelace(2000000)], the default amount of [delegate]. *)
Definition two_ada : Amount :=
  mkAmount Lovelace (PInt 2000000) lovelace_t 2000000 (PFloat (Fin 2)).

(** Keyword arguments that sign and submit, with the stake key already
    among the signers. *)
Definition signing_call : transact_args :=
  mkArgs (Many []) None None (Some (Many [SignerKey alice_stake_key])) None None
    None None true None None false true false None.

(** [transact(inputs=[], build_only=True)] *)
Definition no_input_call : transact_args :=
  mkArgs (Many []) None None None None None None None true None None true true
    false None.

(** [transact(inputs=[self], withdrawals=w, build_only=True)] by Bob. *)
Definition withdraw_call (w : withdrawals_arg) : transact_args :=
  mkArgs (Many [InputWallet bob]) None None None None None (Some w) None true
    None None true true false None.

(** A store in which the object 1 is [Token(P, 5, "abc")] and the object 2
    is [Token(P, -3, "abc")]. *)
Definition tokens_store : token_ref -> Token :=
  fun r => if bool_decide (r = 2%positive) then token (-3) else token 5.

End Fixture.

(* ================================================================== *)
(** * Properties of message formatting and metadata validation *)
(* ================================================================== *)

Module MetadataFacts.
Import PyBase Metadata.

(** ** Loops *)

Lemma for_each_cons {A} (body : A -> result unit) x l :
  for_each body (x :: l) = (body x ;; for_each body l).
Proof. reflexivity. Qed.

(** A loop whose iterations can only raise [e] raises [e] as soon as one of
    them does. *)
Lemma for_each_raises {A} (body : A -> result unit) e l :
  Forall (fun x => body x = Ok tt \/ body x = Raise e) l ->
  Exists (fun x => body x = Raise e) l ->
  for_each body l = Raise e.
Proof.
  induction 1 as [|x l Hx Hl IH]; intros Hex.
  - inversion Hex.
  - rewrite for_each_cons. destruct Hx as [Hx|Hx]; rewrite Hx; simpl.
    + apply IH. inversion Hex as [? ? Hr|]; subst; [congruence | assumption].
    + reflexivity.
Qed.

Lemma for_each_closed {A} (body : A -> result unit) e l :
  Forall (fun x => body x = Ok tt \/ body x = Raise e) l ->
  for_each body l = Ok tt \/ for_each body l = Raise e.
Proof.
  induction 1 as [|x l Hx Hl IH]; [left; reflexivity|].
  rewrite for_each_cons. destruct Hx as [Hx|Hx]; rewrite Hx; simpl; auto.
Qed.

(** A loop that completes has completed every iteration. *)
Lemma for_each_ok {A} (body : A -> result unit) l :
  for_each body l = Ok tt -> Forall (fun x => body x = Ok tt) l.
Proof.
  induction l as [|x l IH]; intros Hl; [constructor|].
  rewrite for_each_cons in Hl. destruct (body x) as [[]|e] eqn:Hx; simpl in Hl.
  - constructor; auto.
  - discriminate.
Qed.

Lemma for_each_all_ok {A} (body : A -> result unit) l :
  Forall (fun x => body x = Ok tt) l -> for_each body l = Ok tt.
Proof.
  induction 1 as [|x l Hx Hl IH]; [reflexivity|].
  rewrite for_each_cons, Hx. exact IH.
Qed.

(** ** Chunking *)

(** Facts about a quotient by 64, for [lia]. *)
Ltac quotient64 e :=
  pose proof (Nat.div_mod_eq e 64);
  pose proof (Nat.mod_upper_bound e 64).

Lemma range_from_length fuel : forall i n,
  (n - i <= fuel)%nat ->
  length (range_from fuel i n 64) = ((n - i + 63) / 64)%nat.
Proof.
  induction fuel as [|fuel IH]; intros i n Hfuel; cbn [range_from].
  - cbn [length]. quotient64 (n - i + 63)%nat. lia.
  - destruct (Nat.ltb_spec i n) as [Hlt|Hge]; cbn [length].
    + rewrite IH by lia.
      quotient64 (n - i + 63)%nat. quotient64 (n - (i + 64) + 63)%nat. lia.
    + quotient64 (n - i + 63)%nat. lia.
Qed.

Lemma chunks_concat {A} (s : list A) fuel : forall i,
  (length s - i <= fuel)%nat ->
  concat (map (fun j => slice s j (j + 64)) (range_from fuel i (length s) 64))
  = skipn i s.
Proof.
  induction fuel as [|fuel IH]; intros i Hfuel; simpl.
  - symmetry. apply skipn_all2. lia.
  - destruct (Nat.ltb_spec i (length s)) as [Hlt|Hge].
    + simpl. rewrite IH by lia. unfold slice.
      replace (i + 64 - i)%nat with 64%nat by lia.
      replace (i + 64)%nat with (64 + i)%nat by lia.
      rewrite <- skipn_skipn. apply firstn_skipn.
    + symmetry. apply skipn_all2. lia.
Qed.

Lemma chunk_message_length (s : pystr) :
  len (chunk_message s) = (len s + 63) / 64.
Proof.
  unfold chunk_message, py_range, len.
  rewrite length_map, range_from_length by lia.
  rewrite Nat.sub_0_r, Nat2Z.inj_div, Nat2Z.inj_add. reflexivity.
Qed.

Lemma chunk_message_concat (s : pystr) : concat (chunk_message s) = s.
Proof.
  unfold chunk_message, py_range. rewrite chunks_concat by lia. reflexivity.
Qed.

Lemma chunk_message_short (s : pystr) :
  Forall (fun c => len c <= 64) (chunk_message s).
Proof.
  unfold chunk_message. apply Forall_forall. intros c Hc.
  apply in_map_iff in Hc as (j & <- & _).
  unfold slice, len. rewrite length_firstn. lia.
Qed.

Lemma check_line_chunk (c : pystr) : len c <= 64 -> check_line (VStr c) = Ok tt.
Proof.
  intros Hc. unfold check_line. simpl.
  destruct (Z.ltb_spec 64 (len c)); [lia | reflexivity].
Qed.

(** C7 (as amended). A message string of [L] characters is formatted without
    error into [{"msg": segments}] with [ceil(L/64)] segments, each of at most
    64 characters, whose concatenation in order is the message. The bound on a
    segment is in characters (code points), as [len] counts them. *)
Theorem format_message_chunks (s : pystr) :
  format_message (MsgStr s)
  = Ok (VDict [(KStr (py "msg"), VList (map VStr (chunk_message s)))])
  /\ len (chunk_message s) = (len s + 63) / 64
  /\ Forall (fun c => len c <= 64) (chunk_message s)
  /\ concat (chunk_message s) = s.
Proof.
  split; [|split; [|split]].
  - unfold format_message. rewrite for_each_all_ok; [reflexivity|].
    apply Forall_forall. intros line Hline.
    apply in_map_iff in Hline as (c & <- & Hc).
    apply check_line_chunk.
    pose proof (chunk_message_short s) as Hshort.
    rewrite Forall_forall in Hshort. auto.
  - apply chunk_message_length.
  - apply chunk_message_short.
  - apply chunk_message_concat.
Qed.

(** C7 fails as stated: a message of 64 two-byte characters is formatted
    into a single segment, and that segment is 128 bytes long. *)
Lemma format_message_segment_over_64_bytes :
  let s := repeat 233%N 64 in
  format_message (MsgStr s) = Ok (VDict [(KStr (py "msg"), VList [VStr s])])
  /\ utf8_len s = Ok 128
  /\ ~ (forall m segments,
          format_message (MsgStr m)
          = Ok (VDict [(KStr (py "msg"), VList (map VStr segments))]) ->
          Forall (fun c => exists n, utf8_len c = Ok n /\ n <= 64) segments).
Proof.
  cbv zeta. split; [vm_compute; reflexivity|]. split; [vm_compute; reflexivity|].
  intros Hclaim.
  specialize (Hclaim (repeat 233%N 64) [repeat 233%N 64]).
  assert (Hrun : format_message (MsgStr (repeat 233%N 64))
                 = Ok (VDict [(KStr (py "msg"),
                               VList (map VStr [repeat 233%N 64]))]))
    by (vm_compute; reflexivity).
  specialize (Hclaim Hrun). inversion Hclaim as [|? ? (n & Hn & Hle) _]; subst.
  vm_compute in Hn. injection Hn as <-. lia.
Qed.

(** ** Lengths of printed values *)

Section ReprLength.
Variable isprintable : codepoint -> bool.

Lemma len_app {A} (a b : list A) : len (a ++ b) = len a + len b.
Proof. unfold len. rewrite length_app. lia. Qed.

Lemma len_nonneg {A} (a : list A) : 0 <= len a.
Proof. unfold len. lia. Qed.

Lemma repr_char_nonempty q c : 1 <= len (repr_char isprintable q c).
Proof.
  unfold repr_char.
  repeat match goal with
         | |- context [if ?b then _ else _] => destruct b
         end;
    rewrite ?len_app; unfold len; cbn [length];
    try match goal with
        | |- context [length (hex_digits ?w c)] =>
            pose proof (Nat.le_0_l (length (hex_digits w c)))
        end; lia.
Qed.

Lemma concat_repr_chars q (s : pystr) :
  len s <= len (concat (map (repr_char isprintable q) s)).
Proof.
  induction s as [|c s IH]; [reflexivity|].
  cbn [map concat]. rewrite len_app.
  pose proof (repr_char_nonempty q c). unfold len in *. cbn [length]. lia.
Qed.

(** [repr] of a string is at least as long as the string. *)
Lemma repr_str_length (s : pystr) : len s <= len (repr_str isprintable s).
Proof.
  unfold repr_str. rewrite !len_app.
  pose proof (concat_repr_chars (repr_quote s) s).
  pose proof (len_nonneg [repr_quote s]). lia.
Qed.

Lemma join_comma_cons a b (rest : list pystr) :
  join_comma (a :: b :: rest) = a ++ py ", " ++ join_comma (b :: rest).
Proof. reflexivity. Qed.

Lemma join_comma_length (parts : list pystr) p :
  In p parts -> len p <= len (join_comma parts).
Proof.
  induction parts as [|a parts IH]; [intros []|].
  destruct parts as [|b rest].
  - intros [->|[]]. cbn [join_comma]. lia.
  - rewrite join_comma_cons, !len_app.
    pose proof (len_nonneg a). pose proof (len_nonneg (py ", ")).
    pose proof (len_nonneg (join_comma (b :: rest))).
    intros [->|Hin]; [lia|]. specialize (IH Hin). lia.
Qed.

(** A printed value is longer than 64 characters when a string leaf of the
    value is. *)
Lemma py_repr_long (v : pyval) :
  has_long_leaf v = true -> 64 < len (py_repr isprintable v).
Proof.
  induction v as [s|z|b| |l IH|d IH] using pyval_nested_ind;
    cbn [has_long_leaf py_repr]; intros Hlong; try discriminate.
  - apply Z.ltb_lt in Hlong. pose proof (repr_str_length s). lia.
  - apply existsb_exists in Hlong as (x & Hx & Hlongx).
    rewrite Forall_forall in IH. specialize (IH x Hx Hlongx).
    rewrite !len_app.
    pose proof (join_comma_length (map (py_repr isprintable) l)
                  (py_repr isprintable x) (in_map _ _ _ Hx)).
    pose proof (len_nonneg (py "[")). pose proof (len_nonneg (py "]")). lia.
  - apply existsb_exists in Hlong as (kv & Hkv & Hlongkv).
    rewrite Forall_forall in IH. specialize (IH kv Hkv Hlongkv).
    rewrite !len_app.
    pose proof (join_comma_length _ _
      (in_map (fun kv => repr_key isprintable (fst kv) ++ py ": "
                         ++ py_repr isprintable (snd kv)) _ _ Hkv)) as Hjoin.
    rewrite !len_app in Hjoin.
    pose proof (len_nonneg (repr_key isprintable (fst kv))).
    pose proof (len_nonneg (py ": ")).
    pose proof (len_nonneg (py "{")). pose proof (len_nonneg (py "}")). lia.
Qed.

Lemma py_str_long (v : pyval) :
  has_long_leaf v = true -> 64 < len (py_str isprintable v).
Proof.
  destruct v; intros Hlong; try exact (py_repr_long _ Hlong).
  cbn in *. apply Z.ltb_lt in Hlong. exact Hlong.
Qed.

(** ** The validators *)

Lemma too_long_closed s :
  too_long s = Ok tt \/ too_long s = Raise MetadataFormattingException.
Proof. unfold too_long. destruct (64 <? len s); auto. Qed.

Lemma too_long_raises s :
  64 < len s -> too_long s = Raise MetadataFormattingException.
Proof. unfold too_long. intros Hs. apply Z.ltb_lt in Hs. rewrite Hs. reflexivity. Qed.

Lemma check_serializable_ok top_level v : check_serializable top_level v = Ok tt.
Proof. destruct top_level; reflexivity. Qed.

(** [check_metadata] raises nothing but [MetadataFormattingException]. *)
Lemma check_metadata_rec_closed (v : pyval) :
  check_metadata_rec isprintable v = Ok tt
  \/ check_metadata_rec isprintable v = Raise MetadataFormattingException.
Proof.
  induction v as [s|z|b| |l IH|d IH] using pyval_nested_ind;
    cbn [check_metadata_rec]; auto using too_long_closed.
  - apply for_each_closed, Forall_forall. intros x _. apply too_long_closed.
  - apply for_each_closed. rewrite Forall_forall in IH |- *.
    intros [k value] Hkv. specialize (IH _ Hkv). cbn [fst snd] in *.
    destruct (too_long_closed (str_key k)) as [-> | ->]; cbn; [|auto].
    destruct value; auto using too_long_closed.
Qed.

Lemma check_metadata_rec_long (v : pyval) :
  has_long_leaf v = true ->
  check_metadata_rec isprintable v = Raise MetadataFormattingException.
Proof.
  induction v as [s|z|b| |l IH|d IH] using pyval_nested_ind;
    cbn [has_long_leaf check_metadata_rec]; intros Hlong; try discriminate.
  - apply too_long_raises, Z.ltb_lt, Hlong.
  - apply existsb_exists in Hlong as (x & Hx & Hlongx).
    apply for_each_raises.
    + apply Forall_forall. intros y _. apply too_long_closed.
    + apply Exists_exists. exists x. split; [exact Hx|].
      apply too_long_raises, py_str_long, Hlongx.
  - apply existsb_exists in Hlong as (kv & Hkv & Hlongkv).
    apply for_each_raises.
    + apply Forall_forall. intros [k value] _. cbn [fst snd].
      destruct (too_long_closed (str_key k)) as [-> | ->]; cbn; [|auto].
      destruct value; auto using too_long_closed, check_metadata_rec_closed.
    + apply Exists_exists. exists kv. split; [exact Hkv|].
      rewrite Forall_forall in IH. specialize (IH kv Hkv Hlongkv).
      destruct kv as [k value]. cbn [fst snd] in *.
      destruct (too_long_closed (str_key k)) as [-> | ->]; cbn; [|reflexivity].
      destruct value; try exact IH; discriminate.
Qed.

(** [Token._check_metadata] does not complete on a long leaf. *)
Lemma Token_check_metadata_rec_long (v : pyval) :
  has_long_leaf v = true -> Token_check_metadata_rec isprintable v <> Ok tt.
Proof.
  induction v as [s|z|b| |l IH|d IH] using pyval_nested_ind;
    cbn [has_long_leaf Token_check_metadata_rec]; intros Hlong; try discriminate.
  - cbn. rewrite Hlong. discriminate.
  - apply existsb_exists in Hlong as (x & Hx & Hlongx).
    intros Hok. apply for_each_ok in Hok.
    rewrite Forall_forall in IH, Hok. exact (IH x Hx Hlongx (Hok x Hx)).
  - apply existsb_exists in Hlong as (kv & Hkv & Hlongkv).
    intros Hok. apply for_each_ok in Hok.
    rewrite Forall_forall in IH, Hok. specialize (IH kv Hkv Hlongkv).
    specialize (Hok kv Hkv). destruct kv as [k value]. cbn [fst snd] in *.
    destruct (too_long (str_key k)) as [[]|e]; cbn in Hok; [|discriminate].
    destruct value; try (exact (IH Hok)); discriminate.
Qed.

(** On values whose lists hold strings, lists and dictionaries only, it
    raises nothing but [MetadataFormattingException]. *)
Lemma Token_check_metadata_rec_closed (v : pyval) :
  lists_hold_strings v = true ->
  Token_check_metadata_rec isprintable v = Ok tt
  \/ Token_check_metadata_rec isprintable v = Raise MetadataFormattingException.
Proof.
  induction v as [s|z|b| |l IH|d IH] using pyval_nested_ind;
    cbn [lists_hold_strings Token_check_metadata_rec]; intros Hshape;
    try discriminate.
  - cbn. destruct (64 <? len s); auto.
  - apply for_each_closed. rewrite forallb_forall in Hshape.
    rewrite Forall_forall in IH |- *. intros x Hx. auto.
  - apply for_each_closed. rewrite forallb_forall in Hshape.
    rewrite Forall_forall in IH |- *. intros [k value] Hkv.
    specialize (IH _ Hkv). specialize (Hshape _ Hkv). cbn [fst snd] in *.
    destruct (too_long_closed (str_key k)) as [-> | ->]; cbn; [|auto].
    destruct value; auto using too_long_closed.
Qed.
End ReprLength.

(** C6 (as amended). A metadata value that contains, at any depth inside
    dictionaries and lists, a string leaf longer than 64 characters is
    rejected: [check_metadata] raises [MetadataFormattingException];
    [Token._check_metadata] does not complete, and raises
    [MetadataFormattingException] when the lists of the value hold only
    strings, lists and dictionaries. Length is counted in characters. *)
Theorem long_leaf_rejected (isprintable : codepoint -> bool) (v : pyval)
    (top_level : bool) :
  has_long_leaf v = true ->
  check_metadata isprintable v top_level = Raise MetadataFormattingException
  /\ Token_check_metadata isprintable v top_level <> Ok tt
  /\ (lists_hold_strings v = true ->
      Token_check_metadata isprintable v top_level
      = Raise MetadataFormattingException).
Proof.
  intros Hlong. unfold check_metadata, Token_check_metadata.
  split; [|split].
  - rewrite (check_metadata_rec_long isprintable v Hlong). reflexivity.
  - pose proof (Token_check_metadata_rec_long isprintable v Hlong) as Hne.
    destruct (Token_check_metadata_rec isprintable v) as [[]|e];
      [congruence | discriminate].
  - intros Hshape.
    pose proof (Token_check_metadata_rec_long isprintable v Hlong) as Hne.
    destruct (Token_check_metadata_rec_closed isprintable v Hshape) as [Hr|Hr];
      rewrite Hr in *; [congruence | reflexivity].
Qed.

(** A string of 65 characters, two lists and a dictionary deep. *)
Definition nested_long_leaf : pyval :=
  VDict [(KStr (py "files"), VList [VList [VStr (repeat 120%N 65)]])].

Lemma long_leaf_rejected_witness :
  has_long_leaf nested_long_leaf = true
  /\ check_metadata (fun _ => true) nested_long_leaf true
     = Raise MetadataFormattingException
  /\ Token_check_metadata (fun _ => true) nested_long_leaf true <> Ok tt
  /\ (lists_hold_strings nested_long_leaf = true ->
      Token_check_metadata (fun _ => true) nested_long_leaf true
      = Raise MetadataFormattingException).
Proof.
  split; [reflexivity|].
  apply (long_leaf_rejected (fun _ => true) nested_long_leaf true).
  reflexivity.
Defined.

(** C6 fails as stated. A string of 40 two-byte characters is 80 bytes
    long, and both validators accept it. And [Token._check_metadata] meets
    the number 1 in a list before the string of 65 characters that follows
    it, and raises [TypeError]. *)
Lemma long_leaf_not_rejected :
  let s := repeat 233%N 40 in
  utf8_len s = Ok 80
  /\ check_metadata (fun _ => true) (VDict [(KStr (py "k"), VStr s)]) true = Ok tt
  /\ Token_check_metadata (fun _ => true) (VDict [(KStr (py "k"), VStr s)]) true
     = Ok tt
  /\ Token_check_metadata (fun _ => true)
       (VDict [(KStr (py "k"), VList [VInt 1; VStr (repeat 120%N 65)])]) true
     = Raise TypeError.
Proof. cbv zeta. repeat split; vm_compute; reflexivity. Qed.

End MetadataFacts.

(* ================================================================== *)
(** * Properties of numbers and amounts *)
(* ================================================================== *)

Module NumFacts.
Import PyBase PyNum.

(** ** Rounding *)




Lemma ilog2_ratio_upper n d : 0 < d -> ilog2_ratio n d <= Z.log2 n.
Proof.
  intros Hd. unfold ilog2_ratio. pose proof (Z.log2_nonneg d).
  destruct (_ <? _); lia.
Qed.






Lemma Qred_num_le (x : Q) : Z.abs (Qnum (Qred x)) <= Z.abs (Qnum x).
Proof.
  destruct x as [n d]. unfold Qred.
  pose proof (Z.ggcd_correct_divisors n (Zpos d)) as Hdiv.
  pose proof (Z.ggcd_gcd n (Zpos d)) as Hg.
  pose proof (Z.gcd_nonneg n (Zpos d)) as Hpos.
  destruct (Z.ggcd n (Zpos d)) as [g [aa bb]]. cbn [fst snd] in *.
  destruct Hdiv as [Hn Hd]. cbn [Qnum]. subst n.
  assert (g <> 0) by (intros Hz; rewrite Hz in Hd; lia).
  clear Hg Hpos. rewrite Z.abs_mul. assert (1 <= Z.abs g) by lia.
  pose proof (Z.abs_nonneg aa). nia.
Qed.

(** Rounding a rational whose numerator is below [2^1023] does not
    overflow. *)
Lemma round64_finite (x : Q) :
  Z.abs (Qnum x) < 2 ^ 1023 -> exists q, round64 x = Fin q.
Proof.
  intros Hx. unfold round64.
  pose proof (Qred_num_le x) as Hle. set (y := Qred x) in *.
  destruct (Z.eqb_spec (Z.abs (Qnum y)) 0) as [|Hnz]; [eauto|].
  pose proof (ilog2_ratio_upper (Z.abs (Qnum y)) (Zpos (Qden y)) eq_refl) as He.
  assert (Hlog : Z.log2 (Z.abs (Qnum y)) < 1023) by (apply Z.log2_lt_pow2; lia).
  destruct (Z.leb_spec 971
              (Z.max (ilog2_ratio (Z.abs (Qnum y)) (Zpos (Qden y)) - 52) (-1074)));
    [lia|]. cbn [andb]. eauto.
Qed.

Lemma int_truediv_finite (a b : Z) :
  0 < b -> Z.abs a < 2 ^ 1023 -> exists q, int_truediv a b = Ok (Fin q).
Proof.
  intros Hb Ha. unfold int_truediv.
  destruct (Z.eqb_spec b 0); [lia|].
  destruct (round64_finite (inject_Z a / inject_Z b)) as [q Hq].
  - destruct b as [|p|p]; try lia. cbn. rewrite Z.mul_1_r. exact Ha.
  - rewrite Hq. eauto.
Qed.



End NumFacts.

Module AmountFacts.
Import PyBase PyNum Amounts NumFacts.

(** ** Construction *)

Lemma bind_ok {A B} (m : result A) (k : A -> result B) (b : B) :
  m ≫= k = Ok b -> exists a, m = Ok a /\ k a = Ok b.
Proof. destruct m as [a|e]; [eauto | discriminate]. Qed.

Lemma Amount_init_class cls x ty r :
  Amount_init cls x ty = Ok r -> klass r = cls /\ _amount_type r = ty.
Proof.
  unfold Amount_init. destruct ty; intros Hr.
  - apply bind_ok in Hr as (l & _ & Hr). apply bind_ok in Hr as (a & _ & Hr).
    injection Hr as <-. auto.
  - apply bind_ok in Hr as (p & _ & Hr). apply bind_ok in Hr as (l & _ & Hr).
    injection Hr as <-. auto.
Qed.

(** [self.__class__(x)] returns an instance of the class of [self]. *)
Lemma new_like_class self x r :
  new_like self x = Ok r -> klass r = klass self /\ constructed r.
Proof.
  intros Hr. assert (Hk : klass r = klass self).
  { unfold new_like, Lovelace_new, Ada_new in Hr.
    destruct (klass self); [destruct (is_int x); [|discriminate]|];
      apply Amount_init_class in Hr; tauto. }
  split; [exact Hk|]. exists x. unfold new_like in *. rewrite Hk. exact Hr.
Qed.

(** A [Lovelace] holds an [int]. *)
Lemma Lovelace_shape self :
  constructed self -> klass self = Lovelace ->
  _amount_type self = lovelace_t /\ amount self = PInt (lovelace self).
Proof.
  intros [x Hx] Hk. unfold new_like in Hx. rewrite Hk in Hx.
  unfold Lovelace_new in Hx. destruct (is_int x); [|discriminate].
  apply Amount_init_class in Hx as [_ Hty]. unfold amount. rewrite Hty. auto.
Qed.

(** An [Ada] shows the number it was given. *)
Lemma Ada_shape self :
  constructed self -> klass self = Ada -> amount self = _amount self.
Proof.
  intros [x Hx] Hk. unfold new_like in Hx. rewrite Hk in Hx.
  unfold Ada_new, Amount_init in Hx.
  apply bind_ok in Hx as (p & _ & Hx). apply bind_ok in Hx as (l & _ & Hx).
  injection Hx as <-. reflexivity.
Qed.

(** [Lovelace(z)] succeeds on every [int] whose major-unit value fits a
    float. *)
Lemma Lovelace_new_int (z : Z) :
  Z.abs z < 2 ^ 1023 ->
  exists f, Lovelace_new (PInt z)
            = Ok (mkAmount Lovelace (PInt z) lovelace_t z (PFloat (Fin f))).
Proof.
  intros Hz. destruct (int_truediv_finite z ratio eq_refl Hz) as [f Hf].
  exists f. unfold Lovelace_new, Amount_init, py_truediv.
  cbn [is_int py_int mbind result_bind]. rewrite Hf. reflexivity.
Qed.

(** [Lovelace] rejects every [float]. *)
Lemma Lovelace_new_float f : Lovelace_new (PFloat f) = Raise TypeError.
Proof. reflexivity. Qed.

(** [Ada(z)] succeeds on every [int]. *)
Lemma Ada_new_int (z : Z) :
  Ada_new (PInt z) = Ok (mkAmount Ada (PInt z) ada_t (z * ratio) (PInt z)).
Proof. reflexivity. Qed.

(** ** Results of the operators of numbers *)

Definition is_float (x : pynum) : Prop :=
  match x with PFloat _ => True | PInt _ => False end.

Lemma arith_float iop fop x y r :
  is_float x \/ is_float y -> arith iop fop x y = Ok r -> is_float r.
Proof.
  unfold arith. intros Hxy Hr. destruct x, y; cbn in Hxy; try tauto;
    apply bind_ok in Hr as (fx & _ & Hr); apply bind_ok in Hr as (fy & _ & Hr);
    injection Hr as <-; exact I.
Qed.

(** True division never returns an [int]. *)
Lemma py_truediv_float x y r : py_truediv x y = Ok r -> is_float r.
Proof.
  unfold py_truediv. intros Hr. destruct x, y;
    repeat (apply bind_ok in Hr as (? & _ & Hr));
    try (destruct (is_zero _); [discriminate|]);
    injection Hr as <-; exact I.
Qed.

Lemma py_floordiv_float x y r :
  is_float x \/ is_float y -> py_floordiv x y = Ok r -> is_float r.
Proof.
  unfold py_floordiv. intros Hxy Hr. destruct x, y; cbn in Hxy; try tauto;
    repeat (apply bind_ok in Hr as (? & _ & Hr));
    (destruct (is_zero _); [discriminate|]);
    injection Hr as <-; exact I.
Qed.

(** The exceptions of arithmetic on numbers: a zero divisor, or a result or
    operand out of the range of [float]; never a [TypeError]. *)
Definition numeric_error (e : exn) : Prop :=
  e = ZeroDivisionError \/ e = OverflowError \/ e = ValueError.

Lemma bind_raise {A B} (m : result A) (k : A -> result B) e :
  m ≫= k = Raise e -> m = Raise e \/ exists a, m = Ok a /\ k a = Raise e.
Proof. destruct m as [a|e']; [eauto | intros Heq; left; injection Heq as <-; reflexivity]. Qed.

Lemma to_float_raise x e : to_float x = Raise e -> numeric_error e.
Proof.
  unfold numeric_error. destruct x as [z|f]; [|discriminate]. unfold to_float, of_int.
  destruct (round64 (inject_Z z)); try discriminate. intros [= <-]. auto.
Qed.

Lemma arith_raise iop fop x y e : arith iop fop x y = Raise e -> numeric_error e.
Proof.
  unfold arith. intros Hr. destruct x as [a|fx], y as [b|fy]; try discriminate;
    apply bind_raise in Hr as [Hr|(? & _ & Hr)];
    try (exact (to_float_raise _ _ Hr));
    apply bind_raise in Hr as [Hr|(? & _ & Hr)];
    try (exact (to_float_raise _ _ Hr)); discriminate.
Qed.

Lemma int_truediv_raise a b e : int_truediv a b = Raise e -> numeric_error e.
Proof.
  unfold int_truediv, numeric_error. destruct (b =? 0); [intros [= <-]; auto|].
  destruct (round64 _); try discriminate. intros [= <-]. auto.
Qed.

Lemma py_truediv_raise x y e : py_truediv x y = Raise e -> numeric_error e.
Proof.
  unfold py_truediv. intros Hr. destruct x as [a|fx], y as [b|fy];
    apply bind_raise in Hr as [Hr|(? & _ & Hr)];
    try (exact (int_truediv_raise _ _ _ Hr));
    try (exact (to_float_raise _ _ Hr)); try discriminate;
    apply bind_raise in Hr as [Hr|(? & _ & Hr)];
    try (exact (to_float_raise _ _ Hr));
    (destruct (is_zero _); [|discriminate]); injection Hr as <-;
    unfold numeric_error; auto.
Qed.

Lemma py_floordiv_raise x y e : py_floordiv x y = Raise e -> numeric_error e.
Proof.
  unfold py_floordiv. intros Hr. destruct x as [a|fx], y as [b|fy];
    try (destruct (b =? 0); [|discriminate]; injection Hr as <-;
         unfold numeric_error; auto; fail);
    apply bind_raise in Hr as [Hr|(? & _ & Hr)];
    try (exact (to_float_raise _ _ Hr));
    apply bind_raise in Hr as [Hr|(? & _ & Hr)];
    try (exact (to_float_raise _ _ Hr));
    (destruct (is_zero _); [|discriminate]); injection Hr as <-;
    unfold numeric_error; auto.
Qed.

Lemma py_int_raise x e : py_int x = Raise e -> numeric_error e.
Proof.
  unfold numeric_error. destruct x as [z|[q|s|]]; cbn; try discriminate;
    intros [= <-]; auto.
Qed.

Lemma py_round_raise x e : py_round x = Raise e -> numeric_error e.
Proof.
  unfold numeric_error. destruct x as [z|[q|s|]]; cbn; try discriminate;
    intros [= <-]; auto.
Qed.

(** [Ada] accepts any number: its constructor fails only where the
    conversion to minor units does. *)
Lemma Ada_new_raise x e : Ada_new x = Raise e -> numeric_error e.
Proof.
  unfold Ada_new, Amount_init. intros Hr.
  apply bind_raise in Hr as [Hr|(p & _ & Hr)]; [exact (arith_raise _ _ _ _ _ Hr)|].
  apply bind_raise in Hr as [Hr|(l & _ & Hr)]; [exact (py_int_raise _ _ Hr)|].
  discriminate.
Qed.

(** A [Lovelace] cannot be made from a float result. *)
Lemma Lovelace_rejects_float self (m : result pynum) :
  klass self = Lovelace ->
  (forall r, m = Ok r -> is_float r) ->
  is_ok (m ≫= new_like self) = false.
Proof.
  intros Hk Hm. destruct m as [r|e]; [|reflexivity].
  specialize (Hm r eq_refl). destruct r; [destruct Hm|].
  cbn. unfold new_like. rewrite Hk. reflexivity.
Qed.

(** ** The arithmetic methods *)

(** The exact result of a binary method on two [int]s, when it has one:
    true division has none, and neither has a division by zero. *)
Definition int_result (m : binary_method) (a b : Z) : option Z :=
  match m with
  | m_add | m_radd => Some (a + b)
  | m_sub => Some (a - b)
  | m_rsub => Some (b - a)
  | m_mul | m_rmul => Some (a * b)
  | m_floordiv => if b =? 0 then None else Some (a / b)
  | m_rfloordiv => if a =? 0 then None else Some (b / a)
  | m_truediv | m_rtruediv => None
  end.

Definition unary_int (m : unary_method) (a : Z) : Z :=
  match m with
  | m_neg => - a
  | m_abs => Z.abs a
  | m_round => a
  end.

(** The number handed to the constructor by a binary method on an [int]
    operand. *)
Lemma call_binary_int m self a b z :
  amount self = PInt a -> int_result m a b = Some z ->
  call_binary m self (OpNum (PInt b)) = new_like self (PInt z).
Proof.
  intros Ha Hz.
  destruct m; cbn in Hz; try discriminate;
    unfold call_binary, Amount_add, Amount_radd, Amount_sub, Amount_rsub,
      Amount_mul, Amount_rmul, Amount_floordiv, Amount_rfloordiv, binop, rbinop;
    rewrite Ha; cbn [py_add py_sub py_mul py_floordiv arith];
    try (destruct (_ =? 0); [discriminate|]);
    injection Hz as <-; reflexivity.
Qed.

Lemma call_unary_int m self a :
  amount self = PInt a -> call_unary m self = new_like self (PInt (unary_int m a)).
Proof.
  intros Ha. destruct m; unfold call_unary, Amount_neg, Amount_abs, Amount_round;
    rewrite Ha; reflexivity.
Qed.

(** Every method ends in [self.__class__(...)]. *)
Lemma call_binary_new m self other r :
  call_binary m self other = Ok r -> exists x, new_like self x = Ok r.
Proof.
  destruct m; unfold call_binary, Amount_add, Amount_radd, Amount_sub,
    Amount_rsub, Amount_mul, Amount_rmul, Amount_truediv, Amount_floordiv,
    Amount_rtruediv, Amount_rfloordiv, binop, rbinop;
    destruct other; try discriminate; intros Hr;
    apply bind_ok in Hr as (x & _ & Hr); eauto.
Qed.

Lemma call_unary_new m self r :
  call_unary m self = Ok r -> exists x, new_like self x = Ok r.
Proof.
  destruct m; unfold call_unary, Amount_neg, Amount_abs, Amount_round;
    intros Hr; eauto. apply bind_ok in Hr as (x & _ & Hr). eauto.
Qed.

(** On a [Lovelace], a binary method given a float, and true division given
    anything, does not return. *)
Lemma Lovelace_float_operand m self f :
  klass self = Lovelace ->
  is_ok (call_binary m self (OpNum (PFloat f))) = false.
Proof.
  intros Hk.
  destruct m; unfold call_binary, Amount_add, Amount_radd, Amount_sub,
    Amount_rsub, Amount_mul, Amount_rmul, Amount_truediv, Amount_floordiv,
    Amount_rtruediv, Amount_rfloordiv, binop, rbinop;
    cbv iota; apply (Lovelace_rejects_float self _ Hk); intros r Hr;
    first [ exact (py_truediv_float _ _ _ Hr)
          | eapply arith_float; [|exact Hr]; cbn; tauto
          | eapply py_floordiv_float; [|exact Hr]; cbn; tauto ].
Qed.

Lemma Lovelace_truediv self other :
  klass self = Lovelace ->
  is_ok (Amount_truediv self other) = false
  /\ is_ok (Amount_rtruediv self other) = false.
Proof.
  intros Hk. unfold Amount_truediv, Amount_rtruediv, binop, rbinop.
  split; destruct other; try reflexivity;
    apply (Lovelace_rejects_float self _ Hk); intros r Hr;
    exact (py_truediv_float _ _ _ Hr).
Qed.

(** On an [Ada], a method given a number or an amount raises only what the
    arithmetic itself raises. *)
Lemma Ada_numeric_errors m self other e :
  klass self = Ada -> other <> OpOther ->
  (forall o, other = OpAmount o ->
             match m with
             | m_radd | m_rsub | m_rmul | m_rtruediv | m_rfloordiv => False
             | _ => True
             end) ->
  call_binary m self other = Raise e -> numeric_error e.
Proof.
  intros Hk Hother Hrefl Hr.
  assert (Hnew : forall x, new_like self x = Raise e -> numeric_error e).
  { intros x. unfold new_like. rewrite Hk. apply Ada_new_raise. }
  destruct m, other as [n|o|]; try contradiction;
    try (exfalso; exact (Hrefl o eq_refl));
    unfold call_binary, Amount_add, Amount_radd, Amount_sub, Amount_rsub,
      Amount_mul, Amount_rmul, Amount_truediv, Amount_floordiv,
      Amount_rtruediv, Amount_rfloordiv, binop, rbinop in Hr; cbv iota in Hr;
    (apply bind_raise in Hr as [Hr|(x & _ & Hr)]; [|exact (Hnew x Hr)]);
    first [ exact (arith_raise _ _ _ _ _ Hr)
          | exact (py_truediv_raise _ _ _ Hr)
          | exact (py_floordiv_raise _ _ _ Hr) ].
Qed.

(** C8 (as amended). Whenever an arithmetic method of an amount returns, it
    returns a new instance of the class of [self]. On a [Lovelace], the
    methods whose result on [int]s is an [int] (every one but true
    division, with a divisor that is not zero) return the [Lovelace] of that
    result, and so do negation, absolute value and rounding, as long as the
    result is below [2^1023] in magnitude; true division, and any method
    given a [float], does not return, since [Lovelace] accepts only an
    [int]. On an [Ada] holding an [int] the same integer operations return
    the [Ada] of the result, and an [Ada] given a number fails only where
    the arithmetic does (a zero divisor, or a float out of range), never
    for the type of the result. *)
Theorem arithmetic_keeps_class (self : Amount) :
  constructed self ->
  (forall m other r,
      call_binary m self other = Ok r -> klass r = klass self /\ constructed r)
  /\ (forall m r,
         call_unary m self = Ok r -> klass r = klass self /\ constructed r)
  /\ (klass self = Lovelace ->
      (forall m b z,
          int_result m (lovelace self) b = Some z -> Z.abs z < 2 ^ 1023 ->
          exists r, call_binary m self (OpNum (PInt b)) = Ok r
                    /\ klass r = Lovelace /\ lovelace r = z)
      /\ (forall m,
             Z.abs (lovelace self) < 2 ^ 1023 ->
             exists r, call_unary m self = Ok r
                       /\ klass r = Lovelace
                       /\ lovelace r = unary_int m (lovelace self))
      /\ (forall other,
             is_ok (Amount_truediv self other) = false
             /\ is_ok (Amount_rtruediv self other) = false)
      /\ (forall m f, is_ok (call_binary m self (OpNum (PFloat f))) = false))
  /\ (klass self = Ada ->
      (forall a, _amount self = PInt a ->
       forall m b z,
         int_result m a b = Some z ->
         exists r, call_binary m self (OpNum (PInt b)) = Ok r
                   /\ klass r = Ada /\ amount r = PInt z)
      /\ (forall m n e,
             call_binary m self (OpNum n) = Raise e -> numeric_error e)).
Proof.
  intros Hself. split; [|split; [|split]].
  - intros m other r Hr. apply call_binary_new in Hr as [x Hx].
    exact (new_like_class _ _ _ Hx).
  - intros m r Hr. apply call_unary_new in Hr as [x Hx].
    exact (new_like_class _ _ _ Hx).
  - intros Hk. destruct (Lovelace_shape self Hself Hk) as [_ Ha].
    split; [|split; [|split]].
    + intros m b z Hz Hbound.
      rewrite (call_binary_int m self _ b z Ha Hz). unfold new_like. rewrite Hk.
      destruct (Lovelace_new_int z Hbound) as [f ->]. eauto.
    + intros m Hbound. rewrite (call_unary_int m self _ Ha).
      unfold new_like. rewrite Hk.
      destruct (Lovelace_new_int (unary_int m (lovelace self))) as [f ->];
        [destruct m; cbn; lia | eauto].
    + intros other. exact (Lovelace_truediv self other Hk).
    + intros m f. exact (Lovelace_float_operand m self f Hk).
  - intros Hk. split.
    + intros a Ha m b z Hz.
      assert (Hamount : amount self = PInt a)
        by (rewrite (Ada_shape self Hself Hk); exact Ha).
      rewrite (call_binary_int m self a b z Hamount Hz).
      unfold new_like. rewrite Hk, Ada_new_int. eauto.
    + intros m n e. apply (Ada_numeric_errors m self (OpNum n) e Hk);
        [discriminate | intros o Ho; discriminate].
Qed.

(** [Lovelace(5)]; its major-unit view is the float nearest to 0.000005. *)
Definition five_lovelace : Amount :=
  mkAmount Lovelace (PInt 5) lovelace_t 5
    (PFloat (Fin (5902958103587057 # 1180591620717411303424))).

Lemma five_lovelace_constructed : constructed five_lovelace.
Proof. exists (PInt 5). vm_compute. reflexivity. Qed.

Lemma arithmetic_keeps_class_witness :
  constructed five_lovelace
  /\ (exists r, Amount_mul five_lovelace (OpNum (PInt 3)) = Ok r
                /\ klass r = Lovelace /\ lovelace r = 15)
  /\ is_ok (Amount_truediv five_lovelace (OpNum (PInt 5))) = false.
Proof.
  split; [exact five_lovelace_constructed|].
  destruct (arithmetic_keeps_class five_lovelace five_lovelace_constructed)
    as (_ & _ & Hlovelace & _).
  destruct (Hlovelace eq_refl) as (Hint & _ & Hdiv & _).
  split.
  - apply (Hint m_mul 3 15); [reflexivity | vm_compute; reflexivity].
  - apply Hdiv.
Defined.

(** C8 fails as stated: [Lovelace(4) / 2] raises [TypeError], because the
    quotient [2.0] is a float and [Lovelace] accepts only an [int]; the same
    division on [Ada(4)] returns [Ada(2.0)]. *)
Lemma Lovelace_true_division_raises :
  (Lovelace_new (PInt 4) ≫= fun a => Amount_truediv a (OpNum (PInt 2)))
  = Raise TypeError
  /\ (Ada_new (PInt 4) ≫= fun a => Amount_truediv a (OpNum (PInt 2)))
     = Ok (mkAmount Ada (PFloat (Fin 2)) ada_t 2000000 (PFloat (Fin 2))).
Proof. split; vm_compute; reflexivity. Qed.

(** ** Conversions between the units *)








End AmountFacts.

(* ================================================================== *)
(** * Properties of the composer *)
(* ================================================================== *)

Module WalletFacts.
Import PyBase PyNum Amounts Metadata Wallet NumFacts AmountFacts.

(** ** Dictionaries *)

Section DictFacts.
Context {K V : Type} `{EqDecision K}.

Lemma dict_get_set (d : list (K * V)) k v : dict_get (dict_set d k v) k = Some v.
Proof.
  induction d as [|[k' v'] d IH]; cbn.
  - destruct (decide (k = k)); [reflexivity | contradiction].
  - destruct (decide (k' = k)) as [->|Hne]; cbn.
    + destruct (decide (k = k)); [reflexivity | contradiction].
    + destruct (decide (k' = k)); [contradiction | exact IH].
Qed.

Lemma dict_get_set_ne (d : list (K * V)) k k' v :
  k <> k' -> dict_get (dict_set d k v) k' = dict_get d k'.
Proof.
  intros Hne. induction d as [|[k0 v0] d IH]; cbn.
  - destruct (decide (k = k')); [contradiction | reflexivity].
  - destruct (decide (k0 = k)) as [->|Hk0]; cbn.
    + destruct (decide (k = k')); [contradiction | reflexivity].
    + destruct (decide (k0 = k')); [reflexivity | exact IH].
Qed.

Lemma dict_set_key_in (d : list (K * V)) k v k' :
  In k' (map fst (dict_set d k v)) -> k' = k \/ In k' (map fst d).
Proof.
  induction d as [|[k0 v0] d IH]; cbn.
  - intros [<-|[]]. auto.
  - destruct (decide (k0 = k)) as [->|Hne]; cbn; intros [<-|Hin]; auto.
    destruct (IH Hin); auto.
Qed.

(** Assigning to a key keeps one entry per key. *)
Lemma dict_set_keys (d : list (K * V)) k v :
  List.NoDup (map fst d) -> List.NoDup (map fst (dict_set d k v)).
Proof.
  induction d as [|[k' v'] d IH]; cbn; intros Hnd.
  - constructor; [intros [] | constructor].
  - inversion Hnd as [|? ? Hk' Hnd']; subst.
    destruct (decide (k' = k)) as [->|Hne]; cbn.
    + constructor; assumption.
    + constructor; [|auto]. intros Hin.
      apply dict_set_key_in in Hin as [->|Hin]; contradiction.
Qed.
Lemma dict_set_in (d : list (K * V)) k v k' v' :
  In (k', v') (dict_set d k v) -> (k' = k /\ v' = v) \/ In (k', v') d.
Proof.
  induction d as [|[k0 v0] d IH]; cbn.
  - intros [Heq|[]]. injection Heq as <- <-. auto.
  - destruct (decide (k0 = k)) as [->|Hne]; cbn; intros [Heq|Hin]; auto.
    + injection Heq as <- <-. auto.
    + destruct (IH Hin); auto.
Qed.

Lemma dict_get_in (d : list (K * V)) k v : dict_get d k = Some v -> In (k, v) d.
Proof.
  induction d as [|[k0 v0] d IH]; cbn; [discriminate|].
  destruct (decide (k0 = k)) as [->|Hne]; intros Hv.
  - injection Hv as <-. auto.
  - auto.
Qed.
End DictFacts.

(** ** The stages of a call that returns *)

(** A call to [transact] that returns a request has completed every stage,
    and the builder of the request is the one the stages produced. *)
Lemma transact_ok `{Collaborators} self args r :
  transact self args = Ok r ->
  exists c change minted mm all meta aux certs0 certs sg wd sg' b1 b2 b3,
    find_context self (context args) = Ok c
    /\ resolve_change_address self (change_address args) = Ok change
    /\ sort_out_mints (optional_list (mints args)) = Ok minted
    /\ build_multiassets (mints_dict minted) = Ok (mm, all)
    /\ assemble_metadata (mint_metadata minted) (message_arg args)
         (other_metadata args) = Ok meta
    /\ build_auxiliary_data meta = Ok aux
    /\ registration_certificates self
         (stake_registration_info (stake_registration args)) = Ok certs0
    /\ delegation_certificates self (delegations args) certs0
         (optional_list (signers args)) = Ok (certs, sg)
    /\ resolve_withdrawals self c (withdrawals args) sg = Ok (wd, sg')
    /\ add_inputs (new_builder c) (as_list (inputs args)) = Ok b1
    /\ set_mint b1 (optional_list (mints args)) (native_scripts minted) all = Ok b2
    /\ add_outputs (set_auxiliary_data b2 meta aux) mm
         (optional_list (outputs args)) = Ok b3
    /\ request_builder r = set_withdrawals (set_certificates b3 certs) wd.
Proof.
  unfold transact. intros Hr.
  apply bind_ok in Hr as (c & Hc & Hr).
  apply bind_ok in Hr as (change & Hchange & Hr).
  apply bind_ok in Hr as (minted & Hminted & Hr).
  apply bind_ok in Hr as ([mm all] & Hassets & Hr).
  apply bind_ok in Hr as (meta & Hmeta & Hr).
  apply bind_ok in Hr as (aux & Haux & Hr).
  apply bind_ok in Hr as (certs0 & Hcerts0 & Hr).
  apply bind_ok in Hr as ([certs sg] & Hcerts & Hr).
  apply bind_ok in Hr as ([wd sg'] & Hwd & Hr).
  apply bind_ok in Hr as (b1 & Hb1 & Hr).
  apply bind_ok in Hr as (b2 & Hb2 & Hr).
  apply bind_ok in Hr as (b3 & Hb3 & Hr).
  exists c, change, minted, mm, all, meta, aux, certs0, certs, sg, wd, sg', b1, b2, b3.
  repeat (split; [assumption|]).
  destruct (build_only args).
  - injection Hr as <-. reflexivity.
  - apply bind_ok in Hr as (keys & _ & Hr). injection Hr as <-. reflexivity.
Qed.

(** ** Mints *)

Section MintFacts.
Context `{Collaborators}.

(** After a token is sorted into [mints_dict], the entry of its policy and
    name is that token, whatever was there before. *)
Lemma sort_mint_stores st token st' h :
  token_policy_hash token = Ok h ->
  sort_mint st token = Ok st' ->
  exists inner, dict_get (mints_dict st') h = Some inner
                /\ dict_get inner (tok_name token) = Some token.
Proof.
  intros Hh. unfold sort_mint. rewrite Hh. cbn [mbind result_bind].
  intros Hst. injection Hst as <-. cbn [mints_dict].
  rewrite dict_get_set. eexists. split; [reflexivity|]. apply dict_get_set.
Qed.

(** Two tokens of one policy and one name: the mint value has a single
    entry for them, and its quantity is that of the second token. *)
Lemma duplicate_mint_last_wins t1 t2 h an :
  token_policy_hash t1 = Ok h ->
  token_policy_hash t2 = Ok h ->
  tok_name t1 = tok_name t2 ->
  token_asset_name t2 = Ok an ->
  exists st mint_multiasset,
    sort_out_mints [t1; t2] = Ok st
    /\ mints_dict st = [(h, [(tok_name t2, t2)])]
    /\ build_multiassets (mints_dict st)
       = Ok (mint_multiasset, [(h, [(an, tok_amount t2)])]).
Proof.
  intros H1 H2 Hname Han. unfold sort_out_mints, fold_result, sort_mint.
  rewrite H1. cbn [mbind result_bind mints_dict mint_metadata native_scripts
                   dict_get inner_truthy inner_or_empty dict_set].
  rewrite H2. cbn [mbind result_bind mints_dict dict_get].
  destruct (decide (h = h)) as [_|]; [|contradiction].
  cbn [inner_truthy inner_or_empty dict_set]. rewrite Hname.
  destruct (decide (h = h)) as [_|]; [|contradiction].
  destruct (decide (tok_name t2 = tok_name t2)) as [_|]; [|contradiction].
  eexists.
  exists (if 0 <? tok_amount t2 then [(h, [(an, tok_amount t2)])] else []).
  split; [reflexivity|]. split; [reflexivity|].
  cbn [mints_dict]. unfold build_multiassets, policy_multiasset, policy_assets,
    policy_asset.
  cbn -[token_asset_name Z.ltb]. rewrite Han. cbn -[token_asset_name Z.ltb].
  destruct (0 <? tok_amount t2); reflexivity.
Qed.
End MintFacts.

(** ** The time to live of a minting transaction *)

Section TimeToLive.
Context `{Collaborators}.

(** Without a file [.script] in the policy directory, no policy made by
    [TokenPolicy("", policy)] has an expiration slot. *)
Lemma policy_of_script_expiration (policy : option NativeScript) :
  policy_file [] = None ->
  expiration_slot (policy_of_script policy) = Raise TypeError.
Proof.
  intros Hfile. unfold policy_of_script, TokenPolicy_new. rewrite Hfile.
  reflexivity.
Qed.

(** So the block that sets [ttl], [mint] and [native_scripts] never
    completes for a list of mints that is not empty. *)
Lemma set_mint_raises b mint_list scripts all_assets :
  policy_file [] = None -> mint_list <> [] ->
  is_ok (set_mint b mint_list scripts all_assets) = false.
Proof.
  intros Hfile Hmints. unfold set_mint.
  destruct mint_list as [|t l]; [contradiction|].
  destruct scripts as [|policy rest]; [reflexivity|].
  cbn [expiration_slots]. rewrite policy_of_script_expiration by exact Hfile.
  reflexivity.
Qed.
End TimeToLive.

(** A call with mints returns no request unless the policy directory holds
    a file [.script]. *)
Lemma mints_need_script_file `{Collaborators} self args :
  policy_file [] = None -> optional_list (mints args) <> [] ->
  is_ok (transact self args) = false.
Proof.
  intros Hfile Hmints.
  destruct (transact self args) as [r|e] eqn:Hr; [|reflexivity].
  apply transact_ok in Hr
    as (c & change & minted & mm & all & meta & aux & certs0 & certs & sg & wd
        & sg' & b1 & b2 & b3 & _ & _ & _ & _ & _ & _ & _ & _ & _ & _ & Hb2 & _).
  pose proof (set_mint_raises b1 _ (native_scripts minted) all Hfile Hmints) as Hno.
  rewrite Hb2 in Hno. discriminate.
Qed.

(** C1, on the code. Two tokens of the same policy and name with
    quantities 2 and 3 are minted in one call. The mint value that the
    composer computes has a single entry for the pair, and its quantity is
    3, that of the later token; the quantity 2 is lost. The call then stops
    with [TypeError] where it sets the time to live, before the builder
    receives the mint value: the script of each policy is passed to
    [TokenPolicy] in the place of the policy identifier. Only where the
    policy directory holds a file [.script] does the call go on, and the
    builder receives the entry with quantity 3, while [mint_tokens] on the
    same list sends 5 tokens to the output. *)
Theorem duplicate_mints_not_summed :
  (sort_out_mints [Fixture.token 2; Fixture.token 3]
     ≫= fun st => build_multiassets (mints_dict st))
  = Ok ([(Fixture.policy_hash, [(Fixture.abc, 3)])],
        [(Fixture.policy_hash, [(Fixture.abc, 3)])])
  /\ handed b_mint
       (transact Fixture.alice
          (Fixture.mint_call [Fixture.token 2; Fixture.token 3]))
     = Raise TypeError
  /\ handed b_mint
       (@transact Fixture.with_script_file Fixture.alice
          (Fixture.mint_call [Fixture.token 2; Fixture.token 3]))
     = Ok (Some [(Fixture.policy_hash, [(Fixture.abc, 3)])])
  /\ handed (fun b => map (fun o => multi_asset (to_amount o)) (b_outputs b))
       (@mint_tokens Fixture.with_script_file Fixture.alice
          (AddrObj Fixture.alice_address)
          (Many [Fixture.token 2; Fixture.token 3]) None None Fixture.plain_call)
     = Ok [[(Fixture.policy_hash, [(Fixture.abc, 5)])]].
Proof. repeat split; vm_compute; reflexivity. Qed.

(** ** Certificates and signers *)

Section CertificateFacts.
Context `{Collaborators}.

(** A boolean [stake_registration] registers nothing. *)
Lemma bool_registration_ignored (self : Wallet) (b : bool) :
  registration_certificates self (stake_registration_info (Some (RegBool b)))
  = Ok [].
Proof. reflexivity. Qed.

(** The stake key is among the signers after it was added, and adding it
    again changes nothing. *)
Lemma add_stake_signer_in (self : Wallet) (l : list signer) :
  signer_in (key_signer (stake_signing_key self)) (add_stake_signer self l) = true.
Proof.
  unfold add_stake_signer.
  destruct (signer_in _ l) eqn:Hin; [exact Hin|].
  unfold signer_in. rewrite existsb_app. cbn.
  destruct (stake_signing_key self); cbn; rewrite ?bool_decide_eq_true_2 by reflexivity;
    rewrite ?orb_true_r; reflexivity.
Qed.

Lemma add_stake_signer_once (self : Wallet) (l : list signer) :
  add_stake_signer self (add_stake_signer self l) = add_stake_signer self l.
Proof.
  unfold add_stake_signer at 1. rewrite add_stake_signer_in. reflexivity.
Qed.

(** A delegation to a pool given as a string yields one delegation
    certificate and adds the stake key to the signers. *)
Lemma delegate_string (self : Wallet) (pool : pystr) pool_hash credential
    (certificates : list Certificate) (signers_list : list signer) :
  pool <> [] ->
  pool_key_hash_fromhex pool = Ok pool_hash ->
  own_stake_hash self = Ok credential ->
  delegation_certificates self (Some (DelegStr pool)) certificates signers_list
  = Ok (certificates ++ [StakeDelegation credential pool_hash],
        add_stake_signer self signers_list).
Proof.
  intros Hpool Hhash Hcred. unfold delegation_certificates.
  destruct pool as [|c pool]; [contradiction|].
  cbn [delegations_truthy]. replace (len (c :: pool) =? 0) with false
    by (unfold len; cbn [length]; symmetry; apply Z.eqb_neq; lia).
  cbn [negb]. rewrite Hhash, Hcred. reflexivity.
Qed.
End CertificateFacts.

(** With a boolean [stake_registration] and a pool given as a string, the
    certificates of any request are a single delegation. *)
Lemma bool_registration_delegation `{Collaborators} self args r (b : bool) pool :
  stake_registration args = Some (RegBool b) ->
  delegations args = Some (DelegStr pool) -> pool <> [] ->
  transact self args = Ok r ->
  exists credential pool_hash,
    b_certificates (request_builder r)
    = Some [StakeDelegation credential pool_hash].
Proof.
  intros Hreg Hdeleg Hpool Hr. apply transact_ok in Hr
    as (c & change & minted & mm & all & meta & aux & certs0 & certs & sg & wd
        & sg' & b1 & b2 & b3 & _ & _ & _ & _ & _ & _ & Hcerts0 & Hcerts & _ & _
        & _ & _ & ->).
  rewrite Hreg in Hcerts0. cbn in Hcerts0. injection Hcerts0 as <-.
  rewrite Hdeleg in Hcerts.
  destruct (pool_key_hash_fromhex pool) as [ph|e] eqn:Hph.
  2:{ unfold delegation_certificates in Hcerts. destruct pool; [contradiction|].
      cbn in Hcerts. rewrite Hph in Hcerts. discriminate. }
  destruct (own_stake_hash self) as [cred|e] eqn:Hcred.
  2:{ unfold delegation_certificates in Hcerts. destruct pool; [contradiction|].
      cbn in Hcerts. rewrite Hph, Hcred in Hcerts. discriminate. }
  rewrite (delegate_string self pool ph cred [] _ Hpool Hph Hcred) in Hcerts.
  injection Hcerts as <- <-. exists cred, ph. destruct wd; reflexivity.
Qed.

(** C3, on the code. Alice's stake address is not registered; she delegates
    to a pool given as a string with [register=True]: the certificates
    handed to the builder are the delegation alone, without a registration.
    Her stake signing key, already among the signers, signs once. *)
Theorem delegate_registers_nothing :
  stake_info_active Fixture.alice = Ok false
  /\ handed b_certificates
       (delegate Fixture.alice (DelegStr Fixture.pool_id) true Fixture.two_ada
          None Fixture.plain_call)
     = Ok (Some [StakeDelegation Fixture.alice_stake Fixture.pool_hash])
  /\ (delegate Fixture.alice (DelegStr Fixture.pool_id) true Fixture.two_ada
        None Fixture.signing_call ≫= fun r => Ok (request_keys r))
     = Ok [Fixture.alice_key; Fixture.alice_stake_key].
Proof. repeat split; vm_compute; reflexivity. Qed.

(** ** Inputs *)

(** A wallet without address: the one input that input resolution rejects. *)
Definition lacks_address (i : input_thing) : bool :=
  match i with
  | InputWallet w => match w_address w with None => true | Some _ => false end
  | _ => false
  end.

(** The addresses and the UTxOs that an input contributes. *)
Definition input_address (i : input_thing) : list (Address + pystr) :=
  match i with
  | InputAddress a => [inl a]
  | InputStr s => [inr s]
  | InputWallet w => match w_address w with Some a => [inl a] | None => [] end
  | _ => []
  end.

Definition input_utxo (i : input_thing) : list UTxO :=
  match i with
  | InputUTxO u => [u]
  | _ => []
  end.

Section InputFacts.
Context `{Collaborators}.

Lemma add_inputs_cons b i l :
  add_inputs b (i :: l) = (add_input_thing b i ≫= fun b' => add_inputs b' l).
Proof. reflexivity. Qed.

Lemma add_inputs_rejects l : forall b,
  existsb lacks_address l = true -> add_inputs b l = Raise ValueError.
Proof.
  induction l as [|i l IH]; intros b Hl; [discriminate|].
  rewrite add_inputs_cons. cbn [existsb] in Hl.
  destruct i as [a|s|w|u|]; cbn in Hl |- *; try (apply IH; exact Hl).
  destruct (w_address w); cbn in Hl |- *; [apply IH; exact Hl | reflexivity].
Qed.

Lemma add_inputs_accepts l : forall b,
  existsb lacks_address l = false ->
  exists b', add_inputs b l = Ok b'
             /\ b_input_addresses b' = b_input_addresses b ++ flat_map input_address l
             /\ b_inputs b' = b_inputs b ++ flat_map input_utxo l
             /\ b_outputs b' = b_outputs b.
Proof.
  induction l as [|i l IH]; intros b Hl.
  - exists b. cbn. rewrite !app_nil_r. auto.
  - rewrite add_inputs_cons. cbn [existsb] in Hl.
    apply orb_false_iff in Hl as [Hi Hl].
    destruct i as [a|s|w|u|]; cbn in Hi |- *;
      try (destruct (w_address w); [|discriminate]; cbn);
      match goal with
      | |- context [add_inputs ?b0 l] =>
          destruct (IH b0 Hl) as (b' & -> & Ha & Hu & Ho)
      end;
      exists b'; cbn in Ha, Hu, Ho; rewrite Ha, Hu, Ho, <- ?app_assoc; auto.
Qed.
End InputFacts.

(** Whenever the call returns a request, input resolution has succeeded. *)
Lemma transact_ok_inputs `{Collaborators} self args r :
  transact self args = Ok r ->
  exists c b, find_context self (context args) = Ok c
              /\ add_inputs (new_builder c) (as_list (inputs args)) = Ok b.
Proof.
  intros Hr. apply transact_ok in Hr
    as (c & change & minted & mm & all & meta & aux & certs0 & certs & sg & wd
        & sg' & b1 & b2 & b3 & Hc & _ & _ & _ & _ & _ & _ & _ & _ & Hb1 & _).
  eauto.
Qed.

(** C4 (as amended). Input resolution fails in one case only: an input that
    is a wallet without address raises [ValueError], and the call then
    returns no request. Every other list of inputs is accepted, the empty
    list included: the builder receives the addresses and UTxOs of the
    list, possibly none, and no error is raised for lack of inputs. *)
Theorem input_resolution `{Collaborators} (self : Wallet) (args : transact_args)
    (b : TransactionBuilder) :
  (existsb lacks_address (as_list (inputs args)) = true ->
   add_inputs b (as_list (inputs args)) = Raise ValueError
   /\ is_ok (transact self args) = false)
  /\ (existsb lacks_address (as_list (inputs args)) = false ->
      exists b', add_inputs b (as_list (inputs args)) = Ok b'
                 /\ b_input_addresses b'
                    = b_input_addresses b
                      ++ flat_map input_address (as_list (inputs args))
                 /\ b_inputs b'
                    = b_inputs b ++ flat_map input_utxo (as_list (inputs args)))
  /\ add_inputs b [] = Ok b.
Proof.
  split; [|split; [|reflexivity]].
  - intros Hlacks. split; [exact (add_inputs_rejects _ b Hlacks)|].
    destruct (transact self args) as [r|e] eqn:Hr; [|reflexivity].
    apply transact_ok_inputs in Hr as (c & b0 & _ & Hb0).
    rewrite (add_inputs_rejects _ _ Hlacks) in Hb0. discriminate.
  - intros Hhas. destruct (add_inputs_accepts _ b Hhas) as (b' & Hb' & Ha & Hu & _).
    eauto.
Qed.

(** A wallet object whose address is absent. *)
Definition nobody : Wallet :=
  mkWallet (py "nobody") None MAINNET None None None (Some Fixture.chain).

Lemma input_resolution_witness :
  (existsb lacks_address [InputWallet nobody] = true
   /\ add_inputs (new_builder Fixture.chain) [InputWallet nobody] = Raise ValueError
   /\ is_ok (transact Fixture.alice
               (mkArgs (Many [InputWallet nobody]) None None None None None None
                  None true None None true true false None)) = false)
  /\ (existsb lacks_address [] = false
      /\ exists b', add_inputs (new_builder Fixture.chain) [] = Ok b'
                    /\ b_input_addresses b' = [] /\ b_inputs b' = []).
Proof.
  split.
  - split; [reflexivity|].
    exact (proj1 (input_resolution Fixture.alice
                    (mkArgs (Many [InputWallet nobody]) None None None None None
                       None None true None None true true false None)
                    (new_builder Fixture.chain)) eq_refl).
  - split; [reflexivity|].
    exact (proj1 (proj2 (input_resolution Fixture.alice Fixture.no_input_call
                           (new_builder Fixture.chain))) eq_refl).
Defined.

(** C4 fails as stated: a call whose input list is empty raises nothing and
    ends in a build request on a builder without inputs. *)
Lemma empty_input_list_accepted :
  handed (fun b => (b_input_addresses b, b_inputs b))
    (transact Fixture.alice Fixture.no_input_call)
  = Ok ([], []).
Proof. vm_compute. reflexivity. Qed.

(** ** Withdrawals *)

Section WithdrawalFacts.
Context `{Collaborators}.

(** The entry that the shorthand [True] makes: keyed by the primitive form
    of the caller's stake address as a whole. *)
Lemma withdraw_true_key (self : Wallet) tx_context signers_list withdraw signers' :
  resolve_withdrawals self tx_context (Some (WdrBool true)) signers_list
  = Ok (withdraw, signers') ->
  exists a w, stake_address self = Ok (Some a)
              /\ withdrawable_amount self = Ok w
              /\ withdraw = [(address_to_primitive a, PInt (lovelace w))]
              /\ signers' = add_stake_signer self signers_list.
Proof.
  unfold resolve_withdrawals. intros Hr.
  apply bind_ok in Hr as (w & Hw & Hr). apply bind_ok in Hr as (sa & Hsa & Hr).
  destruct sa as [a|]; [|discriminate]. injection Hr as <- <-.
  exists a, w. auto.
Qed.

(** An entry of a withdrawals dictionary: keyed by the primitive form of the
    staking part of its address. *)
Lemma withdraw_entry_key tx_context withdraw key value withdraw' :
  withdraw_entry tx_context withdraw (key, value) = Ok withdraw' ->
  exists a sp amount q,
    withdrawal_address (key_target key) = Ok (Some a)
    /\ staking_part_of a = Some sp
    /\ withdrawal_amount_of value (Some a) tx_context = Ok amount
    /\ withdrawal_quantity amount = Ok q
    /\ withdraw' = dict_set withdraw (staking_to_primitive sp) q.
Proof.
  unfold withdraw_entry. cbn [fst snd]. intros Hr.
  apply bind_ok in Hr as (sa & Hsa & Hr). apply bind_ok in Hr as (amount & Ham & Hr).
  destruct sa as [a|]; [|discriminate].
  destruct (staking_part_of a) as [sp|] eqn:Hsp; [|discriminate].
  apply bind_ok in Hr as (q & Hq & Hr). injection Hr as <-.
  exists a, sp, amount, q. auto.
Qed.

(** The quantity stored for an amount is its minor-unit value. *)
Lemma withdrawal_quantity_lovelace (a : Amount) q :
  withdrawal_quantity a = Ok q -> q = PInt (lovelace a).
Proof.
  unfold withdrawal_quantity. destruct (klass a); [|congruence].
  intros Hq. apply bind_ok in Hq as (l & Hl & Hq). injection Hq as <-.
  unfold as_lovelace, Lovelace_new in Hl. cbn [is_int] in Hl.
  unfold Amount_init in Hl. apply bind_ok in Hl as (z & Hz & Hl).
  apply bind_ok in Hl as (f & _ & Hl). injection Hl as <-.
  cbn in Hz. injection Hz as <-. reflexivity.
Qed.
End WithdrawalFacts.

(** C5, on the code. Bob withdraws his rewards of 7 ADA. With the
    shorthand [True] the withdrawal map is keyed by the 29 bytes of his
    stake address, header byte first; with the dictionary
    [{"stake1_bob": "all"}], whose key is his stake address as a string,
    it is keyed by the 28 bytes of his staking key hash. The quantity is
    7,000,000 minor units either way. *)
Theorem withdrawal_key_of_shorthand :
  handed b_withdrawals
    (transact Fixture.bob (Fixture.withdraw_call (WdrBool true)))
  = Ok (Some [(225%N :: Fixture.bob_stake, PInt 7000000)])
  /\ handed b_withdrawals
       (transact Fixture.bob
          (Fixture.withdraw_call
             (WdrDict [(py "stake1_bob", WdrAll)])))
     = Ok (Some [(Fixture.bob_stake, PInt 7000000)])
  /\ staking_to_primitive (StakeHash Fixture.bob_stake) = Fixture.bob_stake
  /\ 225%N :: Fixture.bob_stake <> Fixture.bob_stake.
Proof.
  split; [vm_compute; reflexivity|]. split; [vm_compute; reflexivity|].
  split; [reflexivity|]. intros Heq. apply (f_equal length) in Heq.
  vm_compute in Heq. discriminate.
Qed.

(** ** Quantities that are not positive *)

Section NonPositive.
Context `{Collaborators}.

Lemma fold_result_cons {A S} (body : S -> A -> result S) x l s :
  fold_result body (x :: l) s = (body s x ≫= fold_result body l).
Proof. reflexivity. Qed.

(** An invariant of a loop holds of its result. *)
Lemma fold_result_invariant {A S} (body : S -> A -> result S) (P : S -> Prop)
    (Q : A -> Prop) (l : list A) : forall s r,
  (forall s x s', Q x -> P s -> body s x = Ok s' -> P s') ->
  Forall Q l -> P s -> fold_result body l s = Ok r -> P r.
Proof.
  induction l as [|x l IH]; intros s r Hstep Hl Hs Hr.
  - injection Hr as <-. exact Hs.
  - rewrite fold_result_cons in Hr. apply bind_ok in Hr as (s' & Hs' & Hr).
    inversion Hl as [|? ? Hx Hl']; subst. eauto.
Qed.

Definition quantities_nonpositive (a : Asset) : Prop :=
  Forall (fun e => snd e <= 0) a.

Lemma dict_set_nonpositive (a : Asset) name q :
  quantities_nonpositive a -> q <= 0 -> quantities_nonpositive (dict_set a name q).
Proof.
  unfold quantities_nonpositive. rewrite !Forall_forall.
  intros Ha Hq [name' q'] Hin. apply dict_set_in in Hin as [[_ ->]|Hin]; [exact Hq|].
  exact (Ha _ Hin).
Qed.

(** Tokens without positive quantity contribute nothing to [mint_assets],
    and only quantities that are not positive to [assets]. *)
Lemma policy_assets_nonpositive (tokens : list (pystr * Token)) assets mint_assets :
  Forall (fun e => tok_amount (snd e) <= 0) tokens ->
  policy_assets tokens = Ok (assets, mint_assets) ->
  quantities_nonpositive assets /\ mint_assets = [].
Proof.
  intros Htokens Hr. unfold policy_assets in Hr.
  apply (fold_result_invariant policy_asset
           (fun acc => quantities_nonpositive (fst acc) /\ snd acc = [])
           (fun e => tok_amount (snd e) <= 0) tokens ([], []) (assets, mint_assets));
    [|exact Htokens|split; [constructor|reflexivity]|exact Hr].
  intros [a m] [name t] [a' m'] Ht [Ha Hm] Hstep. cbn [fst snd] in *.
  unfold policy_asset in Hstep. cbn [fst snd] in Hstep.
  apply bind_ok in Hstep as (an & _ & Hstep).
  destruct (Z.ltb_spec 0 (tok_amount t)); [lia|]. injection Hstep as <- <-.
  split; [apply dict_set_nonpositive; assumption | exact Hm].
Qed.

(** The tokens kept in [mints_dict] are tokens of the list of mints. *)
Lemma sort_out_mints_tokens (mint_list : list Token) st :
  sort_out_mints mint_list = Ok st ->
  forall h inner name t,
    In (h, inner) (mints_dict st) -> In (name, t) inner -> In t mint_list.
Proof.
  intros Hst. unfold sort_out_mints in Hst.
  apply (fold_result_invariant sort_mint
           (fun st => forall h inner name t,
                In (h, inner) (mints_dict st) -> In (name, t) inner -> In t mint_list)
           (fun t => In t mint_list) mint_list (mkMintState [] [] []) st);
    [|apply Forall_forall; auto|intros ? ? ? ? []|exact Hst].
  clear. intros st token st' Htoken Hinv Hstep h inner name t Hin Hname.
  unfold sort_mint in Hstep. apply bind_ok in Hstep as (ph & _ & Hstep).
  injection Hstep as <-. cbn [mints_dict] in Hin.
  apply dict_set_in in Hin as [[-> ->]|Hin]; [|eauto].
  apply dict_set_in in Hname as [[_ ->]|Hname]; [exact Htoken|].
  destruct (dict_get (mints_dict st) ph) as [[|kv known]|] eqn:Hknown;
    cbn in Hname; try contradiction.
  apply dict_get_in in Hknown. eauto.
Qed.

(** When no token of the list has a positive quantity, nothing is counted
    as minted and every quantity of the mint value is zero or negative. *)
Lemma nonpositive_mints (mint_list : list Token) st mint_multiasset all_assets :
  Forall (fun t => tok_amount t <= 0) mint_list ->
  sort_out_mints mint_list = Ok st ->
  build_multiassets (mints_dict st) = Ok (mint_multiasset, all_assets) ->
  mint_multiasset = []
  /\ Forall (fun e => quantities_nonpositive (snd e)) all_assets.
Proof.
  intros Hlist Hst Hbuild.
  pose proof (sort_out_mints_tokens _ _ Hst) as Hfrom.
  unfold build_multiassets in Hbuild.
  apply (fold_result_invariant policy_multiasset
           (fun acc => fst acc = []
                       /\ Forall (fun e => quantities_nonpositive (snd e)) (snd acc))
           (fun e => Forall (fun nt => tok_amount (snd nt) <= 0) (snd e))
           (mints_dict st) ([], []) (mint_multiasset, all_assets));
    [| |split; [reflexivity|constructor]|exact Hbuild].
  - intros [mm all] [h inner] [mm' all'] Hinner [Hmm Hall] Hstep.
    cbn [fst snd] in *. unfold policy_multiasset in Hstep. cbn [fst snd] in Hstep.
    apply bind_ok in Hstep as ([assets mint_assets] & Hassets & Hstep).
    destruct (policy_assets_nonpositive _ _ _ Hinner Hassets) as [Hneg ->].
    injection Hstep as <- <-. split; [exact Hmm|].
    rewrite Forall_forall in Hall |- *. intros [h' a'] Hin.
    apply dict_set_in in Hin as [[_ ->]|Hin]; [exact Hneg | exact (Hall _ Hin)].
  - apply Forall_forall. intros [h inner] Hin. apply Forall_forall.
    intros [name t] Hname. cbn [snd].
    rewrite Forall_forall in Hlist. apply Hlist. eauto.
Qed.
End NonPositive.

(** ** Outputs *)

(** The quantity a bundle holds for a policy and an asset name. *)
Definition quantity_of (m : MultiAsset) (h : ScriptHash) (an : AssetName)
  : option Z :=
  match dict_get m h with
  | Some assets => dict_get assets an
  | None => None
  end.

(** [mint_only mint_list all_assets m]: the bundle [m] has no empty policy
    and holds strictly positive quantities only, each the quantity of a
    token of the list of mints under the hash of its policy and its asset
    name; and every strictly positive quantity of the mint value
    [all_assets] is in [m]. *)
Definition mint_only `{Collaborators} (mint_list : list Token)
    (all_assets m : MultiAsset) : Prop :=
  (forall h assets, In (h, assets) m -> assets <> [])
  /\ (forall h assets an q,
        In (h, assets) m -> In (an, q) assets ->
        0 < q
        /\ exists t, In t mint_list /\ token_policy_hash t = Ok h
                     /\ token_asset_name t = Ok an /\ tok_amount t = q)
  /\ (forall h an q,
        quantity_of all_assets h an = Some q -> 0 < q ->
        quantity_of m h an = Some q).

(** [formatted tx_context mint_multiasset output o]: the record [o] is at
    the address of [output] and carries the output's own merged bundle; its
    amount is the requested amount when that is not zero, and otherwise the
    minimum reported for a record at that address with one million lovelace
    and the bundle [mint_multiasset]. *)
Definition formatted `{Collaborators} (tx_context : ChainContext)
    (mint_multiasset : MultiAsset) (output : Output) (o : TransactionOutput)
  : Prop :=
  exists own_bundle requested,
    output_multi_asset (out_tokens output) = Ok own_bundle
    /\ output_amount (out_amount output) = Ok requested
    /\ output_address (out_address output) = Ok (to_address o)
    /\ multi_asset (to_amount o) = own_bundle
    /\ coin (to_amount o)
       = if lovelace requested =? 0
         then min_lovelace tx_context
                (min_lovelace_probe (to_address o) mint_multiasset)
         else lovelace requested.

Section OutputFacts.
Context `{Collaborators}.

Lemma Lovelace_new_lovelace (z : Z) (a : Amount) :
  Lovelace_new (PInt z) = Ok a -> lovelace a = z.
Proof.
  unfold Lovelace_new. cbn [is_int]. unfold Amount_init. intros Ha.
  apply bind_ok in Ha as (l & Hl & Ha). apply bind_ok in Ha as (f & _ & Ha).
  injection Ha as <-. cbn in Hl. injection Hl as <-. reflexivity.
Qed.

(** One output, read back from the record the formatter returns. *)
Lemma format_output_formatted tx_context mint_multiasset output o :
  format_output tx_context mint_multiasset output = Ok o ->
  formatted tx_context mint_multiasset output o.
Proof.
  unfold format_output. intros Ho.
  apply bind_ok in Ho as (own & Hown & Ho).
  apply bind_ok in Ho as (requested & Hreq & Ho).
  apply bind_ok in Ho as (address & Haddr & Ho).
  apply bind_ok in Ho as (amount1 & Hamount & Ho). injection Ho as <-.
  exists own, requested. cbn [to_address to_amount multi_asset coin].
  repeat (split; [assumption || reflexivity|]).
  destruct (lovelace requested =? 0).
  - exact (Lovelace_new_lovelace _ _ Hamount).
  - injection Hamount as <-. reflexivity.
Qed.

(** The formatter when its steps succeed: a nonzero amount is kept; a zero
    amount is replaced by the minimum of the probe, which the constructor
    of [Lovelace] accepts when it is within the range of a float. *)
Lemma format_output_returns tx_context mint_multiasset output own_bundle
    requested address :
  output_multi_asset (out_tokens output) = Ok own_bundle ->
  output_amount (out_amount output) = Ok requested ->
  output_address (out_address output) = Ok address ->
  (lovelace requested <> 0 ->
   format_output tx_context mint_multiasset output
   = Ok (mkTransactionOutput address (mkValue (lovelace requested) own_bundle)))
  /\ (lovelace requested = 0 ->
      Z.abs (min_lovelace tx_context (min_lovelace_probe address mint_multiasset))
      < 2 ^ 1023 ->
      format_output tx_context mint_multiasset output
      = Ok (mkTransactionOutput address
              (mkValue (min_lovelace tx_context
                          (min_lovelace_probe address mint_multiasset))
                       own_bundle))).
Proof.
  intros Hbundle Hamount Haddress. unfold format_output.
  rewrite Hbundle, Hamount, Haddress. cbn [mbind result_bind].
  split.
  - intros Hnz. destruct (Z.eqb_spec (lovelace requested) 0); [contradiction|].
    reflexivity.
  - intros -> Hfits. cbn [Z.eqb].
    destruct (Lovelace_new_int _ Hfits) as [f ->]. reflexivity.
Qed.

(** The loop over the outputs appends one formatted record per output, in
    order, all with the same context and the same probe bundle. *)
Lemma add_outputs_formatted mint_multiasset (l : list Output) : forall b b',
  add_outputs b mint_multiasset l = Ok b' ->
  b_context b' = b_context b
  /\ exists records,
       b_outputs b' = b_outputs b ++ records
       /\ Forall2 (fun output o =>
                     format_output (b_context b) mint_multiasset output = Ok o
                     /\ formatted (b_context b) mint_multiasset output o)
            l records.
Proof.
  unfold add_outputs. induction l as [|output l IH]; intros b b' Hb.
  - injection Hb as <-. split; [reflexivity|]. exists [].
    rewrite app_nil_r. split; [reflexivity | constructor].
  - rewrite fold_result_cons in Hb. apply bind_ok in Hb as (b0 & Hstep & Hb).
    apply bind_ok in Hstep as (o & Ho & Hstep). injection Hstep as <-.
    apply IH in Hb as (Hc & records & Hrecords & Hall).
    cbn [add_output b_context b_outputs] in Hc, Hrecords, Hall.
    split; [exact Hc|]. exists (o :: records).
    rewrite Hrecords, <- app_assoc. split; [reflexivity|].
    constructor; [|exact Hall].
    split; [exact Ho | exact (format_output_formatted _ _ _ _ Ho)].
Qed.

(** The stages before the outputs leave the list of outputs empty and keep
    the context. *)
Lemma add_inputs_outputs (l : list input_thing) b b' :
  add_inputs b l = Ok b' ->
  b_context b' = b_context b /\ b_outputs b' = b_outputs b.
Proof.
  unfold add_inputs. intros Hb.
  apply (fold_result_invariant add_input_thing
           (fun b' => b_context b' = b_context b /\ b_outputs b' = b_outputs b)
           (fun _ => True) l b b'); [|apply Forall_forall; auto|auto|exact Hb].
  clear. intros b0 i b1 _ [Hc Ho] Hstep.
  destruct i as [a|s|w|u|]; cbn in Hstep;
    try (destruct (w_address w); [|discriminate]);
    injection Hstep as <-; cbn; auto.
Qed.

Lemma set_mint_outputs b mint_list scripts all_assets b' :
  set_mint b mint_list scripts all_assets = Ok b' ->
  b_context b' = b_context b /\ b_outputs b' = b_outputs b.
Proof.
  unfold set_mint. destruct mint_list.
  - intros [= <-]. auto.
  - intros Hb. apply bind_ok in Hb as (slots & _ & Hb).
    apply bind_ok in Hb as (ttl & _ & Hb). injection Hb as <-. auto.
Qed.

Lemma set_auxiliary_data_outputs b meta aux :
  b_context (set_auxiliary_data b meta aux) = b_context b
  /\ b_outputs (set_auxiliary_data b meta aux) = b_outputs b.
Proof. destruct meta; auto. Qed.

(** ** The bundle of the probe *)

(** The tokens kept in [mints_dict] are kept under the hash of their
    policy. *)
Lemma sort_out_mints_policy (mint_list : list Token) st :
  sort_out_mints mint_list = Ok st ->
  forall h inner name t,
    In (h, inner) (mints_dict st) -> In (name, t) inner ->
    token_policy_hash t = Ok h.
Proof.
  intros Hst. unfold sort_out_mints in Hst.
  apply (fold_result_invariant sort_mint
           (fun st => forall h inner name t,
                In (h, inner) (mints_dict st) -> In (name, t) inner ->
                token_policy_hash t = Ok h)
           (fun _ => True) mint_list (mkMintState [] [] []) st);
    [|apply Forall_forall; auto|intros ? ? ? ? []|exact Hst].
  clear. intros st token st' _ Hinv Hstep h inner name t Hin Hname.
  unfold sort_mint in Hstep. apply bind_ok in Hstep as (ph & Hph & Hstep).
  injection Hstep as <-. cbn [mints_dict] in Hin.
  apply dict_set_in in Hin as [[-> ->]|Hin]; [|eauto].
  apply dict_set_in in Hname as [[_ ->]|Hname]; [exact Hph|].
  destruct (dict_get (mints_dict st) ph) as [[|kv known]|] eqn:Hknown;
    cbn in Hname; try contradiction.
  apply dict_get_in in Hknown. eauto.
Qed.

(** The inner loop: [mint_assets] holds strictly positive quantities of the
    tokens only, and every strictly positive quantity of [assets]. *)
Lemma policy_assets_positive (tokens : list (pystr * Token)) assets mint_assets :
  policy_assets tokens = Ok (assets, mint_assets) ->
  (forall an q, In (an, q) mint_assets ->
     0 < q /\ exists name t, In (name, t) tokens
                             /\ token_asset_name t = Ok an /\ tok_amount t = q)
  /\ (forall an q, dict_get assets an = Some q -> 0 < q ->
                   dict_get mint_assets an = Some q).
Proof.
  intros Hr. unfold policy_assets in Hr.
  apply (fold_result_invariant policy_asset
           (fun acc =>
              (forall an q, In (an, q) (snd acc) ->
                 0 < q /\ exists name t, In (name, t) tokens
                                         /\ token_asset_name t = Ok an
                                         /\ tok_amount t = q)
              /\ (forall an q, dict_get (fst acc) an = Some q -> 0 < q ->
                               dict_get (snd acc) an = Some q))
           (fun e => In e tokens) tokens ([], []) (assets, mint_assets));
    [|apply Forall_forall; auto|split; [intros ? ? []|discriminate]|exact Hr].
  clear. intros [a m] [name t] [a' m'] Hin [Hsound Hcomplete] Hstep.
  cbn [fst snd] in *. unfold policy_asset in Hstep. cbn [fst snd] in Hstep.
  apply bind_ok in Hstep as (an0 & Han0 & Hstep).
  destruct (Z.ltb_spec 0 (tok_amount t)) as [Hpos|Hneg].
  - rewrite Han0 in Hstep. cbn [mbind result_bind] in Hstep.
    injection Hstep as <- <-. split.
    + intros an q Hq. apply dict_set_in in Hq as [[-> ->]|Hq]; [|auto].
      split; [exact Hpos|]. exists name, t. auto.
    + intros an q Hq Hq0. destruct (decide (an0 = an)) as [->|Hne].
      * rewrite dict_get_set in Hq |- *. exact Hq.
      * rewrite dict_get_set_ne in Hq |- * by exact Hne. auto.
  - injection Hstep as <- <-. split; [exact Hsound|].
    intros an q Hq Hq0. destruct (decide (an0 = an)) as [->|Hne].
    + rewrite dict_get_set in Hq. injection Hq as <-. lia.
    + rewrite dict_get_set_ne in Hq by exact Hne. auto.
Qed.

(** The outer loop: [mint_multiasset] is the mint-only bundle of the list. *)
Lemma build_multiassets_mint_only (mint_list : list Token) st
    mint_multiasset all_assets :
  sort_out_mints mint_list = Ok st ->
  build_multiassets (mints_dict st) = Ok (mint_multiasset, all_assets) ->
  mint_only mint_list all_assets mint_multiasset.
Proof.
  intros Hst Hbuild.
  pose proof (sort_out_mints_tokens _ _ Hst) as Hfrom.
  pose proof (sort_out_mints_policy _ _ Hst) as Hpolicy.
  unfold build_multiassets in Hbuild.
  apply (fold_result_invariant policy_multiasset
           (fun acc => mint_only mint_list (snd acc) (fst acc))
           (fun e => In e (mints_dict st))
           (mints_dict st) ([], []) (mint_multiasset, all_assets));
    [|apply Forall_forall; auto| |exact Hbuild].
  - intros [mm all] [h0 inner] [mm' all'] Hin (Hne & Hsound & Hcomplete) Hstep.
    cbn [fst snd] in *. unfold policy_multiasset in Hstep. cbn [fst snd] in Hstep.
    apply bind_ok in Hstep as ([assets mint_assets] & Hassets & Hstep).
    apply policy_assets_positive in Hassets as [Hms Hmc].
    injection Hstep as <- <-. split; [|split].
    + intros h a Ha. destruct mint_assets as [|e rest]; [eauto|].
      apply dict_set_in in Ha as [[_ ->]|Ha]; [discriminate | eauto].
    + intros h a an q Ha Hq.
      assert (Hnew : In (an, q) mint_assets -> h = h0 ->
                0 < q /\ exists t, In t mint_list /\ token_policy_hash t = Ok h
                                   /\ token_asset_name t = Ok an
                                   /\ tok_amount t = q).
      { intros Hq' ->. destruct (Hms _ _ Hq') as (Hpos & name & t & Ht & Han & Hamt).
        split; [exact Hpos|]. exists t. eauto 6. }
      destruct mint_assets as [|e rest]; [eauto|].
      apply dict_set_in in Ha as [[-> ->]|Ha]; [auto | eauto].
    + intros h an q Hq Hq0. unfold quantity_of in Hq |- *.
      destruct (decide (h0 = h)) as [->|Hother].
      * rewrite dict_get_set in Hq. pose proof (Hmc _ _ Hq Hq0) as Hm.
        destruct mint_assets as [|e rest]; [discriminate|].
        rewrite dict_get_set. exact Hm.
      * rewrite dict_get_set_ne in Hq by exact Hother.
        pose proof (Hcomplete _ _ _ Hq Hq0) as Hm. unfold quantity_of in Hm.
        destruct mint_assets as [|e rest]; [exact Hm|].
        rewrite dict_get_set_ne by exact Hother. exact Hm.
  - split; [intros ? ? []|]. split; [intros ? ? ? ? []|]. discriminate.
Qed.
End OutputFacts.

(** C2 (as amended). In every call that returns, the builder receives one
    record per output, in order, and each is what the formatter returns
    with the same probe bundle: [mint_multiasset], which the composer builds
    from the mints of the call and which holds their strictly positive
    quantities only. For an output whose requested minor-unit amount is
    zero the amount becomes the minimum that [min_lovelace] reports for a
    record at the output's address carrying one million lovelace and that
    bundle; the output's own token bundle does not enter the probe. An
    output with a nonzero amount keeps it unmodified. In both cases the
    record carries the output's own merged bundle. With this context and
    this bundle the formatter returns for every output whose tokens, amount
    and address it can read, provided the minimum fits a float when the
    amount is zero. *)
Theorem output_amount_rule `{Collaborators} (self : Wallet) (args : transact_args)
    (r : request) :
  transact self args = Ok r ->
  exists tx_context minted mint_multiasset all_assets,
    find_context self (context args) = Ok tx_context
    /\ sort_out_mints (optional_list (mints args)) = Ok minted
    /\ build_multiassets (mints_dict minted) = Ok (mint_multiasset, all_assets)
    /\ mint_only (optional_list (mints args)) all_assets mint_multiasset
    /\ Forall2 (fun output o =>
                  format_output tx_context mint_multiasset output = Ok o
                  /\ formatted tx_context mint_multiasset output o)
         (optional_list (outputs args)) (b_outputs (request_builder r))
    /\ forall output own_bundle requested address,
         output_multi_asset (out_tokens output) = Ok own_bundle ->
         output_amount (out_amount output) = Ok requested ->
         output_address (out_address output) = Ok address ->
         (lovelace requested <> 0 ->
          format_output tx_context mint_multiasset output
          = Ok (mkTransactionOutput address
                  (mkValue (lovelace requested) own_bundle)))
         /\ (lovelace requested = 0 ->
             Z.abs (min_lovelace tx_context
                      (min_lovelace_probe address mint_multiasset)) < 2 ^ 1023 ->
             format_output tx_context mint_multiasset output
             = Ok (mkTransactionOutput address
                     (mkValue (min_lovelace tx_context
                                 (min_lovelace_probe address mint_multiasset))
                              own_bundle))).
Proof.
  intros Hr. apply transact_ok in Hr
    as (c & change & minted & mm & all & meta & aux & certs0 & certs & sg & wd
        & sg' & b1 & b2 & b3 & Hc & _ & Hminted & Hbuild & _ & _ & _ & _ & _
        & Hb1 & Hb2 & Hb3 & Hbuilder).
  exists c, minted, mm, all. repeat (split; [assumption|]).
  split; [exact (build_multiassets_mint_only _ _ _ _ Hminted Hbuild)|].
  split; [|apply format_output_returns].
  apply add_inputs_outputs in Hb1 as [Hc1 Ho1].
  apply set_mint_outputs in Hb2 as [Hc2 Ho2].
  destruct (set_auxiliary_data_outputs b2 meta aux) as [Hc3 Ho3].
  apply add_outputs_formatted in Hb3 as (_ & records & Hrecords & Hall).
  rewrite Hc3, Hc2, Hc1 in Hall. rewrite Ho3, Ho2, Ho1 in Hrecords.
  cbn [new_builder b_context b_outputs app] in Hall, Hrecords.
  rewrite Hbuilder.
  replace (b_outputs (set_withdrawals (set_certificates b3 certs) wd))
    with (b_outputs b3) by (destruct certs, wd; reflexivity).
  rewrite Hrecords. exact Hall.
Qed.

(** [Output(alice_address, Lovelace(0))]: no amount and no tokens. *)
Definition bare_output : Output :=
  mkOutput (AddrObj Fixture.alice_address)
    (AmountObj (mkAmount Lovelace (PInt 0) lovelace_t 0 (PFloat (Fin 0)))) None.

(** [Output(alice_address, Lovelace(5), tokens=[Token(P, 5, "abc")])] *)
Definition small_output : Output :=
  mkOutput (AddrObj Fixture.alice_address) (AmountObj five_lovelace)
    (Some (Many [Fixture.token 5])).

(** [Token(P, -3, "xyz")]: three tokens to burn. *)
Definition burnt_token : Token :=
  mkToken (PolicyToken Fixture.policy_P) (-3) (py "xyz") (py "78797a") (VDict []).

(** [transact(inputs=[self], outputs=[bare_output, small_output],
              mints=[Token(P, 5, "abc"), Token(P, -3, "xyz")],
              build_only=True)] *)
Definition mint_and_send_call : transact_args :=
  mkArgs (Many [InputWallet Fixture.alice])
    (Some (Many [bare_output; small_output]))
    (Some (Many [Fixture.token 5; burnt_token])) None None None None None true
    None None true true false None.

(** Five tokens are minted and three of another name burned, where the
    policy directory holds a file [.script]. The probe bundle holds the five
    minted tokens alone. The output without amount and without tokens gets
    1,150,000, the minimum of a record carrying one asset; the output with
    5 lovelace keeps them. *)
Lemma output_amount_rule_witness :
  exists r,
    @transact Fixture.with_script_file Fixture.alice mint_and_send_call = Ok r
    /\ map to_amount (b_outputs (request_builder r))
       = [mkValue 1150000 [];
          mkValue 5 [(Fixture.policy_hash, [(Fixture.abc, 5)])]]
    /\ exists tx_context minted mint_multiasset all_assets,
         find_context Fixture.alice (context mint_and_send_call) = Ok tx_context
         /\ @sort_out_mints Fixture.with_script_file
              (optional_list (mints mint_and_send_call)) = Ok minted
         /\ @build_multiassets Fixture.with_script_file (mints_dict minted)
            = Ok (mint_multiasset, all_assets)
         /\ @mint_only Fixture.with_script_file
              (optional_list (mints mint_and_send_call)) all_assets
              mint_multiasset
         /\ Forall2 (fun output o =>
                       @format_output Fixture.with_script_file tx_context
                         mint_multiasset output = Ok o
                       /\ @formatted Fixture.with_script_file tx_context
                            mint_multiasset output o)
              (optional_list (outputs mint_and_send_call))
              (b_outputs (request_builder r))
         /\ mint_multiasset = [(Fixture.policy_hash, [(Fixture.abc, 5)])]
         /\ all_assets
            = [(Fixture.policy_hash, [(Fixture.abc, 5); ([120; 121; 122]%N, -3)])].
Proof.
  eexists. split; [vm_compute; reflexivity|]. split; [vm_compute; reflexivity|].
  destruct (@output_amount_rule Fixture.with_script_file Fixture.alice
              mint_and_send_call _ ltac:(vm_compute; reflexivity))
    as (c & minted & mm & all & Hc & Hminted & Hbuild & Honly & Hall & _).
  exists c, minted, mm, all. repeat (split; [assumption|]).
  vm_compute in Hminted. injection Hminted as <-.
  vm_compute in Hbuild. injection Hbuild as <- <-.
  split; vm_compute; reflexivity.
Defined.

(** C2 fails as stated. Five tokens that already exist are sent with no
    amount and nothing is minted: the amount becomes 1,000,000, the minimum
    reported for a record without tokens, while the minimum reported for a
    record carrying the output's own bundle is 1,150,000. And in a call
    that mints, an output without tokens and without amount gets 1,150,000,
    the minimum of a record carrying the minted tokens, while the minimum
    of a record carrying its own, empty bundle is 1,000,000. *)
Lemma zero_amount_ignores_own_bundle :
  handed (fun b => map to_amount (b_outputs b))
    (transact Fixture.alice Fixture.send_call)
  = Ok [mkValue 1000000 [(Fixture.policy_hash, [(Fixture.abc, 5)])]]
  /\ min_lovelace Fixture.chain
       (mkTransactionOutput (Some Fixture.alice_address)
          (mkValue 1000000 [(Fixture.policy_hash, [(Fixture.abc, 5)])]))
     = 1150000
  /\ handed (fun b => map to_amount (b_outputs b))
       (@transact Fixture.with_script_file Fixture.alice mint_and_send_call)
     = Ok [mkValue 1150000 [];
           mkValue 5 [(Fixture.policy_hash, [(Fixture.abc, 5)])]]
  /\ min_lovelace Fixture.chain
       (mkTransactionOutput (Some Fixture.alice_address) (mkValue 1000000 []))
     = 1000000.
Proof. repeat split; vm_compute; reflexivity. Qed.

(** ** Burning *)

Section BurnFacts.
Context `{Collaborators}.

Lemma negate_amount_self (st : store) r :
  negate_amount st r r = set_amount (st r) (- Z.abs (tok_amount (st r))).
Proof. unfold negate_amount. apply fn_lookup_insert. Qed.

Lemma negate_amount_other (st : store) r r' :
  r <> r' -> negate_amount st r r' = st r'.
Proof. intros Hne. unfold negate_amount. apply fn_lookup_insert_ne. exact Hne. Qed.

(** The loop changes the sign of every listed object, once even if it is
    listed twice, keeps its other attributes, and touches no other object. *)
Lemma negate_amounts_spec (refs : list token_ref) : forall (st : store) r,
  negate_amounts st refs r
  = if bool_decide (r ∈ refs)
    then set_amount (st r) (- Z.abs (tok_amount (st r)))
    else st r.
Proof.
  induction refs as [|r0 refs IH]; intros st r.
  - reflexivity.
  - unfold negate_amounts in *. cbn [fold_left]. rewrite IH.
    destruct (decide (r0 = r)) as [->|Hne].
    + rewrite negate_amount_self.
      rewrite (bool_decide_eq_true_2 (r ∈ r :: refs)) by (left).
      destruct (bool_decide (r ∈ refs)); [|reflexivity].
      unfold set_amount. cbn. f_equal. lia.
    + rewrite negate_amount_other by exact Hne.
      destruct (decide (r ∈ refs)) as [Hin|Hout].
      * rewrite !bool_decide_eq_true_2; [reflexivity| right; exact Hin | exact Hin].
      * rewrite !bool_decide_eq_false_2; [reflexivity| |exact Hout].
        intros Hin. apply elem_of_cons in Hin as [->|Hin]; contradiction.
Qed.
End BurnFacts.

(** C10. [burn_tokens], given an amount that is absent or an [Amount],
    assigns [-abs(amount)] to the [amount] of every token object passed to
    it and to no other object, before composing: the store it leaves has the
    changed sign whatever the outcome of the call, and the tokens that
    [transact] receives, as the output's tokens and as the mints, are these
    objects in their new state. None of them has a positive quantity, so
    the composer counts nothing as minted and every quantity of its mint
    value is negative or zero: a token passed with a positive amount is
    burned. *)
Theorem burn_tokens_negates `{Collaborators} (self : Wallet) (st : store)
    (tokens : one_or_many token_ref) (change_address : address_like)
    (amount : option amount_like) (utxos : option (one_or_many UTxO))
    (kwargs : transact_args) :
  check_amount_argument amount = Ok tt ->
  let st' := fst (burn_tokens self st tokens change_address amount utxos kwargs) in
  let outcome := snd (burn_tokens self st tokens change_address amount utxos kwargs) in
  (forall r, r ∈ as_list tokens ->
             st' r = set_amount (st r) (- Z.abs (tok_amount (st r)))
             /\ tok_amount (st' r) <= 0)
  /\ (forall r, r ∉ as_list tokens -> st' r = st r)
  /\ exists attach_amount,
       outcome
       = (burn_call self st' (as_list tokens) change_address attach_amount
            utxos kwargs ≫= transact self)
       /\ forall args,
            burn_call self st' (as_list tokens) change_address attach_amount
              utxos kwargs = Ok args ->
            mints args = Some (Many (map st' (as_list tokens)))
            /\ Forall (fun t => tok_amount t <= 0) (map st' (as_list tokens))
            /\ forall minted mint_multiasset all_assets,
                 sort_out_mints (optional_list (mints args)) = Ok minted ->
                 build_multiassets (mints_dict minted)
                 = Ok (mint_multiasset, all_assets) ->
                 mint_multiasset = []
                 /\ Forall (fun e => quantities_nonpositive (snd e)) all_assets.
Proof.
  intros Hcheck. unfold burn_tokens. rewrite Hcheck.
  assert (Hattach : exists a,
             (if amount_like_truthy amount then
                match amount with
                | Some (AmountObj a) => Ok a
                | _ => Ada_new (PInt 1)
                end
              else Ada_new (PInt 1)) = Ok a).
  { rewrite Ada_new_int.
    destruct (amount_like_truthy amount); [|eauto].
    destruct amount as [[a|n]|]; eauto. }
  destruct Hattach as [attach ->]. cbn [fst snd].
  assert (Hneg : forall r, r ∈ as_list tokens ->
             negate_amounts st (as_list tokens) r
             = set_amount (st r) (- Z.abs (tok_amount (st r)))).
  { intros r Hr. rewrite negate_amounts_spec, bool_decide_eq_true_2 by exact Hr.
    reflexivity. }
  assert (Hall : Forall (fun t => tok_amount t <= 0)
                   (map (negate_amounts st (as_list tokens)) (as_list tokens))).
  { apply Forall_forall. intros t Ht. apply in_map_iff in Ht as (r & <- & Hr).
    apply list_elem_of_In in Hr. rewrite (Hneg r Hr). cbn. lia. }
  split; [|split].
  - intros r Hr. rewrite (Hneg r Hr). split; [reflexivity|]. cbn. lia.
  - intros r Hr. rewrite negate_amounts_spec, bool_decide_eq_false_2 by exact Hr.
    reflexivity.
  - exists attach. split; [reflexivity|]. intros args Hargs.
    unfold burn_call in Hargs. apply bind_ok in Hargs as (output & _ & Hargs).
    injection Hargs as <-. split; [reflexivity|]. split; [exact Hall|].
    intros minted mm all Hminted Hbuild.
    exact (nonpositive_mints _ _ _ _ Hall Hminted Hbuild).
Qed.

(** Object 1 is [Token(P, 5, "abc")]. After [burn_tokens] it holds -5,
    although the call itself stopped with [TypeError] at the time to live;
    where the policy directory holds a file [.script], the call goes on and
    the builder receives -5 to mint. *)
Lemma burn_tokens_negates_witness :
  check_amount_argument None = Ok tt
  /\ tok_amount
       (fst (burn_tokens Fixture.alice Fixture.tokens_store (One 1%positive)
               (AddrObj Fixture.alice_address) None None Fixture.plain_call)
          1%positive) = -5
  /\ handed b_mint
       (snd (burn_tokens Fixture.alice Fixture.tokens_store (One 1%positive)
               (AddrObj Fixture.alice_address) None None Fixture.plain_call))
     = Raise TypeError
  /\ handed b_mint
       (snd (@burn_tokens Fixture.with_script_file Fixture.alice
               Fixture.tokens_store (One 1%positive)
               (AddrObj Fixture.alice_address) None None Fixture.plain_call))
     = Ok (Some [(Fixture.policy_hash, [(Fixture.abc, -5)])]).
Proof.
  split; [reflexivity|].
  destruct (burn_tokens_negates Fixture.alice Fixture.tokens_store
              (One 1%positive) (AddrObj Fixture.alice_address) None None
              Fixture.plain_call eq_refl) as (Hin & _ & _).
  split; [|split].
  - destruct (Hin 1%positive) as [-> _]; [left|]. reflexivity.
  - vm_compute. reflexivity.
  - vm_compute. reflexivity.
Defined.

End WalletFacts.

(* ================================================================== *)
(** * Properties of the comparison and conversion of amounts *)
(* ================================================================== *)

Module ComparisonFacts.
Import PyBase PyNum Amounts Comparisons NumFacts AmountFacts.

(** ** What an instance can hold *)

Lemma ftrunc_finite f z : ftrunc f = Ok z -> exists q, f = Fin q.
Proof. destruct f as [q|s|]; [eauto | discriminate | discriminate]. Qed.

Lemma fmul_finite_l a b q : fmul a b = Fin q -> exists x, a = Fin x.
Proof.
  destruct a as [x|s|]; [eauto | |]; intros Hq; exfalso.
  - destruct b as [y|s'|]; cbn in Hq; try discriminate.
    destruct (Qnum y =? 0); discriminate.
  - destruct b; discriminate.
Qed.

Lemma round64_not_NaN x : round64 x <> NaN.
Proof.
  unfold round64. destruct (_ =? 0); [discriminate|].
  destruct (_ && _); discriminate.
Qed.

Lemma int_truediv_Fin a b f : int_truediv a b = Ok f -> exists q, f = Fin q.
Proof.
  unfold int_truediv. destruct (b =? 0); [discriminate|].
  pose proof (round64_not_NaN (inject_Z a / inject_Z b)) as Hnan.
  destruct (round64 _) as [q|s|]; intros Hf; inversion Hf; [eauto | contradiction].
Qed.

(** The numbers an instance holds after construction. *)
Lemma Amount_init_finite cls x ty r :
  Amount_init cls x ty = Ok r ->
  (ty = lovelace_t -> is_int x = true) ->
  _amount r = x /\ finite x = true /\ finite (_ada r) = true
  /\ (ty = lovelace_t -> _lovelace r = match x with PInt z => z | _ => 0 end).
Proof.
  unfold Amount_init. destruct ty; intros Hr Hint.
  - specialize (Hint eq_refl). destruct x as [z|f]; [|discriminate].
    apply bind_ok in Hr as (l & Hl & Hr). apply bind_ok in Hr as (a & Ha & Hr).
    unfold py_truediv in Ha. apply bind_ok in Ha as (f & Hf & Ha).
    injection Ha as <-. injection Hr as <-. injection Hl as <-.
    apply int_truediv_Fin in Hf as [q ->]. cbn. auto.
  - apply bind_ok in Hr as (p & Hp & Hr). apply bind_ok in Hr as (l & Hl & Hr).
    injection Hr as <-. cbn [_amount _ada]. split; [reflexivity|].
    assert (Hx : finite x = true); [|split; [exact Hx|split; [exact Hx|discriminate]]].
    destruct x as [z|f]; [reflexivity|].
    unfold py_mul, arith in Hp. cbn [to_float mbind result_bind] in Hp.
    apply bind_ok in Hp as (fy & _ & Hp). injection Hp as <-.
    cbn [py_int] in Hl. apply ftrunc_finite in Hl as [q Hq].
    apply fmul_finite_l in Hq as [y ->]. reflexivity.
Qed.

Lemma amounts_finite (self : Amount) :
  constructed self ->
  finite (_amount self) = true /\ finite (_ada self) = true
  /\ finite (amount self) = true.
Proof.
  intros [x Hx]. unfold new_like, Lovelace_new, Ada_new in Hx.
  assert (Hfin : finite (_amount self) = true /\ finite (_ada self) = true).
  { destruct (klass self).
    - destruct (is_int x) eqn:Hint; [|discriminate].
      apply Amount_init_finite in Hx as (<- & Hf & Ha & _); auto.
    - apply Amount_init_finite in Hx as (<- & Hf & Ha & _); [auto|discriminate]. }
  destruct Hfin as (Ha & Hada).
  split; [exact Ha|]. split; [exact Hada|].
  unfold amount, ada. destruct (_amount_type self); [reflexivity | exact Hada].
Qed.

(** X1. No instance holds NaN or an infinity: the constructors raise on
    them. *)
Theorem no_amount_is_NaN_or_infinite (self : Amount) :
  constructed self ->
  finite (_amount self) = true /\ finite (_ada self) = true
  /\ finite (amount self) = true
  /\ Ada_new (PFloat NaN) = Raise ValueError
  /\ (forall s, Ada_new (PFloat (Inf s)) = Raise OverflowError)
  /\ (forall f, Lovelace_new (PFloat f) = Raise TypeError).
Proof.
  intros Hself. destruct (amounts_finite self Hself) as (Ha & Hada & Hamount).
  repeat (split; [assumption|]).
  split; [reflexivity|]. split; [intros []; reflexivity | reflexivity].
Qed.

Lemma no_amount_is_NaN_or_infinite_witness :
  constructed five_lovelace
  /\ finite (_amount five_lovelace) = true /\ finite (_ada five_lovelace) = true
  /\ finite (amount five_lovelace) = true.
Proof.
  split; [exact five_lovelace_constructed|].
  destruct (no_amount_is_NaN_or_infinite five_lovelace five_lovelace_constructed)
    as (Ha & Hada & Hamount & _).
  auto.
Defined.

(** ** Copies *)

Lemma Qcompare_same (q : Q) : (q ?= q)%Q = Eq.
Proof. unfold Qcompare. apply Z.compare_refl. Qed.

Lemma py_eq_same (z : Z) : py_eq (PInt z) (PInt z) = true.
Proof. unfold py_eq, py_compare. cbn. rewrite Qcompare_same. reflexivity. Qed.

(** What [Lovelace(x)] returns, when it returns. *)
Lemma Lovelace_new_inv x r :
  Lovelace_new x = Ok r ->
  exists z, x = PInt z /\ _lovelace r = z /\ klass r = Lovelace.
Proof.
  unfold Lovelace_new. destruct x as [z|f]; [|discriminate]. cbn [is_int].
  unfold Amount_init. intros Hr.
  apply bind_ok in Hr as (l & Hl & Hr). apply bind_ok in Hr as (a & _ & Hr).
  injection Hr as <-. injection Hl as <-. eauto.
Qed.

(** X2. [as_lovelace] on a [Lovelace] and [as_ada] on an [Ada] return an
    identical copy; [as_lovelace] on any instance returns a [Lovelace] of the
    same minor units, which compares equal to the instance. *)
Theorem conversions_keep_minor_units (self : Amount) :
  constructed self ->
  (klass self = Lovelace -> as_lovelace self = Ok self)
  /\ (klass self = Ada -> as_ada self = Ok self)
  /\ (Z.abs (lovelace self) < 2 ^ 1023 ->
      exists r, as_lovelace self = Ok r
                /\ klass r = Lovelace /\ lovelace r = lovelace self
                /\ Amount_eq self (OpAmount r) = Ok true
                /\ Amount_ne self (OpAmount r) = Ok false).
Proof.
  intros [x Hx]. unfold new_like in Hx. split; [|split].
  - intros Hk. rewrite Hk in Hx. unfold as_lovelace, lovelace.
    destruct (Lovelace_new_inv _ _ Hx) as (z & -> & -> & _). exact Hx.
  - intros Hk. rewrite Hk in Hx. unfold as_ada, ada.
    pose proof Hx as Hshape. unfold Ada_new, Amount_init in Hshape.
    apply bind_ok in Hshape as (p & _ & Hshape).
    apply bind_ok in Hshape as (l & _ & Hshape).
    injection Hshape as Hshape. rewrite <- Hshape at 1. cbn [_ada]. exact Hx.
  - intros Hbound. unfold as_lovelace.
    destruct (Lovelace_new_int _ Hbound) as [f ->]. eexists. split; [reflexivity|].
    cbn. unfold lovelace. rewrite Z.eqb_refl. auto.
Qed.

(** [Ada(2)] *)
Definition two_whole_ada : Amount :=
  mkAmount Ada (PInt 2) ada_t 2000000 (PInt 2).

Lemma two_whole_ada_constructed : constructed two_whole_ada.
Proof. exists (PInt 2). vm_compute. reflexivity. Qed.

Lemma conversions_keep_minor_units_witness :
  as_lovelace five_lovelace = Ok five_lovelace
  /\ as_ada two_whole_ada = Ok two_whole_ada
  /\ exists r, as_lovelace two_whole_ada = Ok r
               /\ klass r = Lovelace /\ lovelace r = 2000000
               /\ Amount_eq two_whole_ada (OpAmount r) = Ok true
               /\ Amount_ne two_whole_ada (OpAmount r) = Ok false.
Proof.
  split; [|split].
  - exact (proj1 (conversions_keep_minor_units five_lovelace
                    five_lovelace_constructed) eq_refl).
  - exact (proj1 (proj2 (conversions_keep_minor_units two_whole_ada
                           two_whole_ada_constructed)) eq_refl).
  - exact (proj2 (proj2 (conversions_keep_minor_units two_whole_ada
                           two_whole_ada_constructed)) eq_refl).
Defined.

(** X3. An amount equals the bare number it shows, in its own unit, so two
    amounts can both equal one number without equalling each other. For
    an [int] [n] that is not zero, [Lovelace(n) == n] and [Ada(n) == n]
    hold and [Lovelace(n) == Ada(n)] does not. *)
Theorem equality_is_relative_to_unit (n : Z) :
  n <> 0 -> Z.abs n < 2 ^ 1023 ->
  exists l a,
    Lovelace_new (PInt n) = Ok l /\ Ada_new (PInt n) = Ok a
    /\ Amount_eq l (OpNum (PInt n)) = Ok true
    /\ Amount_eq a (OpNum (PInt n)) = Ok true
    /\ Amount_eq l (OpAmount a) = Ok false
    /\ Amount_eq a (OpAmount l) = Ok false
    /\ lovelace a = 1000000 * lovelace l.
Proof.
  intros Hn Hbound. destruct (Lovelace_new_int n Hbound) as [f Hl].
  eexists. eexists. split; [exact Hl|]. split; [apply Ada_new_int|].
  unfold Amount_eq, comparison_method, amount, lovelace, ada.
  cbn -[py_eq Z.eqb Z.mul]. rewrite py_eq_same. unfold ratio.
  repeat split; try (f_equal; apply Z.eqb_neq; lia). lia.
Qed.

Lemma equality_is_relative_to_unit_witness :
  exists l a,
    Lovelace_new (PInt 5) = Ok l /\ Ada_new (PInt 5) = Ok a
    /\ Amount_eq l (OpNum (PInt 5)) = Ok true
    /\ Amount_eq a (OpNum (PInt 5)) = Ok true
    /\ Amount_eq l (OpAmount a) = Ok false
    /\ Amount_eq a (OpAmount l) = Ok false
    /\ lovelace a = 1000000 * lovelace l.
Proof.
  apply (equality_is_relative_to_unit 5); [discriminate | reflexivity].
Defined.

(** ** Arithmetic between amounts *)

(** X4. Adding an amount of either class to a [Lovelace], or subtracting
    it, is exact in minor units and gives a [Lovelace]. *)
Theorem Lovelace_arithmetic_in_minor_units (self other : Amount) :
  constructed self -> klass self = Lovelace ->
  (Z.abs (lovelace self + lovelace other) < 2 ^ 1023 ->
   exists r, Amount_add self (OpAmount other) = Ok r
             /\ klass r = Lovelace
             /\ lovelace r = lovelace self + lovelace other)
  /\ (Z.abs (lovelace self - lovelace other) < 2 ^ 1023 ->
      exists r, Amount_sub self (OpAmount other) = Ok r
                /\ klass r = Lovelace
                /\ lovelace r = lovelace self - lovelace other).
Proof.
  intros Hself Hk. destruct (Lovelace_shape self Hself Hk) as [Hty Ha].
  unfold Amount_add, Amount_sub, binop. rewrite Ha, Hty. cbn [getitem].
  cbn [py_add py_sub arith mbind result_bind]. unfold new_like. rewrite Hk.
  fold (lovelace other).
  split; intros Hbound; destruct (Lovelace_new_int _ Hbound) as [f ->]; eauto.
Qed.

Lemma Lovelace_arithmetic_in_minor_units_witness :
  (exists r, Amount_add five_lovelace (OpAmount two_whole_ada) = Ok r
             /\ klass r = Lovelace /\ lovelace r = 5 + 2000000)
  /\ (exists r, Amount_sub five_lovelace (OpAmount two_whole_ada) = Ok r
                /\ klass r = Lovelace /\ lovelace r = 5 - 2000000).
Proof.
  destruct (Lovelace_arithmetic_in_minor_units five_lovelace two_whole_ada
              five_lovelace_constructed eq_refl) as [Hadd Hsub].
  split; [apply Hadd | apply Hsub]; reflexivity.
Defined.

(** ** The order *)

Lemma Qcompare_antisym_Gt (x y : Q) : (x ?= y)%Q = Gt <-> (y ?= x)%Q = Lt.
Proof. unfold Qcompare. apply Z.gt_lt_iff. Qed.

(** The three outcomes of a comparison that is not unordered. *)
Definition one_of_three (lt eq gt : bool) : Prop :=
  (lt = true /\ eq = false /\ gt = false)
  \/ (lt = false /\ eq = true /\ gt = false)
  \/ (lt = false /\ eq = false /\ gt = true).

(** An operand that can be ordered: an amount, or a number other than NaN. *)
Definition ordered_operand (other : operand) : Prop :=
  match other with
  | OpNum n => n <> PFloat NaN
  | OpAmount _ => True
  | OpOther => False
  end.

(** X5. Against an amount or a number that is not NaN, exactly one of
    [<], [==], [>] holds of an instance, and [<=], [>=], [!=] are the
    negations of [>], [<], [==]. *)
Theorem comparisons_are_consistent (self : Amount) (other : operand) :
  constructed self -> ordered_operand other ->
  exists lt eq gt,
    Amount_lt self other = Ok lt /\ Amount_eq self other = Ok eq
    /\ Amount_gt self other = Ok gt
    /\ Amount_le self other = Ok (negb gt)
    /\ Amount_ge self other = Ok (negb lt)
    /\ Amount_ne self other = Ok (negb eq)
    /\ one_of_three lt eq gt.
Proof.
  intros Hself Hother.
  destruct other as [n|o|]; [| |destruct Hother];
    unfold Amount_lt, Amount_eq, Amount_gt, Amount_le, Amount_ge, Amount_ne,
      comparison_method; do 3 eexists; repeat (split; [reflexivity|]).
  - destruct (amounts_finite self Hself) as (_ & _ & Hfin).
    unfold py_lt, py_eq, py_gt, py_le, py_ge, py_ne, py_eq, py_compare, one_of_three.
    destruct (amount self) as [a|[q| |]]; try discriminate;
      destruct n as [b|[r|s|]]; try (exfalso; apply Hother; reflexivity); cbn;
      try (destruct (_ ?= _)%Q; cbn; tauto); destruct s; cbn; tauto.
  - unfold one_of_three.
    destruct (Z.ltb_spec (lovelace self) (lovelace o)),
      (Z.eqb_spec (lovelace self) (lovelace o)),
      (Z.gtb_spec (lovelace self) (lovelace o)),
      (Z.leb_spec (lovelace self) (lovelace o)),
      (Z.geb_spec (lovelace self) (lovelace o)); try lia; cbn; tauto.
Qed.

(** [Lovelace(5)] against the float [5.5]: only [<] holds. *)
Lemma comparisons_are_consistent_witness :
  exists lt eq gt,
    Amount_lt five_lovelace (OpNum (PFloat (Fin (11 # 2)))) = Ok lt
    /\ Amount_eq five_lovelace (OpNum (PFloat (Fin (11 # 2)))) = Ok eq
    /\ Amount_gt five_lovelace (OpNum (PFloat (Fin (11 # 2)))) = Ok gt
    /\ Amount_le five_lovelace (OpNum (PFloat (Fin (11 # 2)))) = Ok (negb gt)
    /\ Amount_ge five_lovelace (OpNum (PFloat (Fin (11 # 2)))) = Ok (negb lt)
    /\ Amount_ne five_lovelace (OpNum (PFloat (Fin (11 # 2)))) = Ok (negb eq)
    /\ one_of_three lt eq gt.
Proof.
  apply (comparisons_are_consistent five_lovelace
           (OpNum (PFloat (Fin (11 # 2)))) five_lovelace_constructed).
  discriminate.
Defined.

End ComparisonFacts.

(* ================================================================== *)
(** * Properties of token names *)
(* ================================================================== *)

Module TokenFacts.
Import PyBase Metadata Wallet Tokens.

(** ** Hexadecimal digits *)

Definition is_byte (b : N) : Prop := (b < 256)%N.

Lemma hex_byte_roundtrip (b : N) :
  (b < 256)%N ->
  exists c1 c2, hex_digits 2 b = [c1; c2]
                /\ is_space c1 = false
                /\ hex_digit c1 = Some (b / 16)%N
                /\ hex_digit c2 = Some (b mod 16)%N.
Proof.
  intros Hb.
  assert (Hall : forallb (fun b =>
             match hex_digits 2 b with
             | [c1; c2] =>
                 negb (is_space c1)
                 && bool_decide (hex_digit c1 = Some (b / 16)%N)
                 && bool_decide (hex_digit c2 = Some (b mod 16)%N)
             | _ => false
             end) (map N.of_nat (seq 0 256)) = true) by (vm_compute; reflexivity).
  rewrite forallb_forall in Hall. specialize (Hall b).
  assert (Hin : In b (map N.of_nat (seq 0 256))).
  { apply in_map_iff. exists (N.to_nat b). split; [apply N2Nat.id|].
    apply in_seq. lia. }
  specialize (Hall Hin).
  destruct (hex_digits 2 b) as [|c1 [|c2 [|]]]; try discriminate.
  apply andb_prop in Hall as [Hall H2]. apply andb_prop in Hall as [H0 H1].
  exists c1, c2. apply bool_decide_eq_true in H1, H2.
  apply negb_true_iff in H0. auto.
Qed.

(** [bytes.fromhex(b.hex()) == b] *)
Lemma fromhex_hex (b : bytes) :
  Forall is_byte b -> bytes_fromhex (bytes_hex b) = Ok b.
Proof.
  induction 1 as [|x b Hx Hb IH]; [reflexivity|].
  unfold bytes_hex in *. cbn [map concat].
  destruct (hex_byte_roundtrip x Hx) as (c1 & c2 & -> & Hs & H1 & H2).
  cbn [app bytes_fromhex]. rewrite Hs, H1, H2, IH. cbn.
  f_equal. f_equal. pose proof (N.div_mod' x 16). lia.
Qed.

Lemma hex_nonempty (b : bytes) : b <> [] -> Forall is_byte b -> bytes_hex b <> [].
Proof.
  intros Hne Hb. destruct b as [|x b]; [contradiction|].
  inversion Hb as [|? ? Hx _]; subst.
  unfold bytes_hex. cbn [map concat].
  destruct (hex_byte_roundtrip x Hx) as (c1 & c2 & -> & _). discriminate.
Qed.

(** ** UTF-8 *)

Ltac decide_tests :=
  repeat match goal with
         | |- context [(?a <? ?b)%N] => destruct (N.ltb_spec a b); try lia
         | |- context [(?a <=? ?b)%N] => destruct (N.leb_spec a b); try lia
         end.

(** The digits of a code point in base 64. *)
Lemma base64_digits (c : N) :
  exists d0 d1 d2 d3 : N,
    (c mod 64 = d0 /\ (c / 64) mod 64 = d1 /\ (c / 4096) mod 64 = d2
     /\ c / 64 = d1 + 64 * (c / 4096) /\ c / 4096 = d2 + 64 * d3
     /\ c / 262144 = d3
     /\ c = d0 + 64 * (c / 64)
     /\ d0 < 64 /\ d1 < 64 /\ d2 < 64)%N.
Proof.
  exists (c mod 64)%N, ((c / 64) mod 64)%N, ((c / 4096) mod 64)%N, (c / 262144)%N.
  pose proof (N.div_mod' c 64). pose proof (N.div_mod' (c / 64) 64).
  pose proof (N.div_mod' (c / 4096) 64).
  pose proof (N.mod_lt c 64 ltac:(discriminate)).
  pose proof (N.mod_lt (c / 64) 64 ltac:(discriminate)).
  pose proof (N.mod_lt (c / 4096) 64 ltac:(discriminate)).
  assert (c / 64 / 64 = c / 4096)%N as E1 by (rewrite N.Div0.div_div; reflexivity).
  assert (c / 4096 / 64 = c / 262144)%N as E2
    by (rewrite N.Div0.div_div; reflexivity).
  rewrite E1 in *. rewrite E2 in *. repeat split; lia.
Qed.

(** Decoding undoes the encoding of one code point, whatever follows. *)
Lemma decode_encode_char (c : codepoint) (bs rest : bytes) :
  utf8_encode_char c = Ok bs -> (c < 1114112)%N ->
  Forall is_byte bs
  /\ utf8_decode (bs ++ rest) = (s ← utf8_decode rest; Returns (c :: s)).
Proof.
  unfold utf8_encode_char, is_byte. intros Henc Hc.
  destruct (base64_digits c)
    as (d0 & d1 & d2 & d3 & H0 & H1 & H2 & Hq1 & Hq2 & Hq3 & Hc0 & Hd0 & Hd1 & Hd2).
  destruct (N.ltb_spec c 128).
  { injection Henc as <-. split; [repeat constructor; lia|].
    cbn [app utf8_decode]. decide_tests. reflexivity. }
  destruct (N.ltb_spec c 2048).
  { injection Henc as <-. rewrite H0.
    split; [repeat constructor; lia|].
    cbn [app utf8_decode]. unfold continuation, well_formed.
    decide_tests; cbn [andb negb]; decide_tests; cbn [andb negb].
    replace ((192 + c / 64 - 192) * 64 + (128 + d0 - 128))%N with c by lia.
    decide_tests. reflexivity. }
  destruct (N.leb_spec 55296 c), (N.leb_spec c 57343); cbn [andb] in Henc;
    try discriminate.
  all: destruct (N.ltb_spec c 65536).
  all: injection Henc as <-; rewrite ?H0, ?H1, ?H2.
  all: (split; [repeat constructor; lia|]).
  all: cbn [app utf8_decode]; unfold continuation, well_formed.
  all: decide_tests; cbn [andb negb]; decide_tests; cbn [andb negb].
  all: decide_tests; cbn [andb negb].
  all: match goal with
       | |- _ ≫= (fun s => Returns (?x :: s)) = _ => replace x with c by lia
       end; reflexivity.
Qed.

Lemma outcome_bind_returns {A B} (m : outcome A) (k : A -> outcome B) (b : B) :
  m ≫= k = Returns b -> exists a, m = Returns a /\ k a = Returns b.
Proof. destruct m as [a|f]; [eauto | discriminate]. Qed.

Lemma lift_returns {A} (r : result A) (a : A) : lift r = Returns a -> r = Ok a.
Proof. destruct r; [intros [= ->]; reflexivity | discriminate]. Qed.

(** [s.encode("utf-8").decode("utf-8") == s] *)
Lemma decode_encode (s : pystr) : forall b,
  is_str s -> utf8_encode s = Ok b ->
  Forall is_byte b /\ utf8_decode b = Returns s.
Proof.
  induction s as [|c s IH]; intros b Hs Hb.
  - injection Hb as <-. split; [constructor | reflexivity].
  - inversion Hs as [|? ? Hc Hs']; subst. cbn [utf8_encode] in Hb.
    destruct (utf8_encode_char c) as [bc|e] eqn:Hbc; [|discriminate].
    destruct (utf8_encode s) as [bs|e] eqn:Hbs; [|discriminate].
    injection Hb as <-. destruct (IH bs Hs' eq_refl) as [Hbytes Hdec].
    destruct (decode_encode_char c bc bs Hbc Hc) as [Hbc' ->].
    split; [apply Forall_app; auto|]. rewrite Hdec. reflexivity.
Qed.

(** The base-64 digits of a number given by its digits. *)
Lemma digits_2 (a x1 : N) :
  (x1 < 64)%N ->
  ((a * 64 + x1) / 64 = a /\ (a * 64 + x1) mod 64 = x1)%N.
Proof.
  intros H1. split; symmetry.
  - apply (N.div_unique _ 64 a x1); lia.
  - apply (N.mod_unique _ 64 a x1); lia.
Qed.

Lemma digits_3 (a x1 x2 : N) :
  (x1 < 64)%N -> (x2 < 64)%N ->
  let c := (a * 4096 + x1 * 64 + x2)%N in
  (c / 4096 = a /\ (c / 64) mod 64 = x1 /\ c mod 64 = x2)%N.
Proof.
  intros H1 H2 c. subst c.
  assert (E : ((a * 4096 + x1 * 64 + x2) / 64 = a * 64 + x1)%N)
    by (symmetry; apply (N.div_unique _ 64 _ x2); lia).
  rewrite E. split; [|split]; symmetry.
  - apply (N.div_unique _ 4096 a (x1 * 64 + x2)); lia.
  - apply (N.mod_unique _ 64 a x1); lia.
  - apply (N.mod_unique _ 64 (a * 64 + x1) x2); lia.
Qed.

Lemma digits_4 (a x1 x2 x3 : N) :
  (x1 < 64)%N -> (x2 < 64)%N -> (x3 < 64)%N ->
  let c := (a * 262144 + x1 * 4096 + x2 * 64 + x3)%N in
  (c / 262144 = a /\ (c / 4096) mod 64 = x1 /\ (c / 64) mod 64 = x2
   /\ c mod 64 = x3)%N.
Proof.
  intros H1 H2 H3 c. subst c.
  assert (E : ((a * 262144 + x1 * 4096 + x2 * 64 + x3) / 64
               = a * 4096 + x1 * 64 + x2)%N)
    by (symmetry; apply (N.div_unique _ 64 _ x3); lia).
  assert (E' : ((a * 262144 + x1 * 4096 + x2 * 64 + x3) / 4096 = a * 64 + x1)%N)
    by (symmetry; apply (N.div_unique _ 4096 _ (x2 * 64 + x3)); lia).
  rewrite E, E'. split; [|split; [|split]]; symmetry.
  - apply (N.div_unique _ 262144 a (x1 * 4096 + x2 * 64 + x3)); lia.
  - apply (N.mod_unique _ 64 a x1); lia.
  - apply (N.mod_unique _ 64 (a * 64 + x1) x2); lia.
  - apply (N.mod_unique _ 64 (a * 4096 + x1 * 64 + x2) x3); lia.
Qed.

Ltac step_found c bc rest s' Hs' :=
  exists c, bc, rest, s';
  split; [reflexivity|]; split; [reflexivity|]; split; [discriminate|];
  split; [exact Hs'|].

(** One decoding step and what it consumed. *)
Lemma decode_step (b : bytes) (s : pystr) :
  b <> [] -> utf8_decode b = Returns s ->
  exists c bc rest s',
    b = bc ++ rest /\ s = c :: s' /\ bc <> []
    /\ utf8_decode rest = Returns s'
    /\ utf8_encode_char c = Ok bc /\ (c < 1114112)%N.
Proof.
  destruct b as [|b0 r0]; [contradiction|]. intros _. cbn [utf8_decode].
  unfold continuation, well_formed, utf8_encode_char.
  destruct (N.ltb_spec b0 128).
  { intros Hd. apply outcome_bind_returns in Hd as (s' & Hs' & [= <-]).
    step_found b0 [b0] r0 s' Hs'. split; [|lia]. decide_tests. reflexivity. }
  destruct (N.leb_spec 192 b0), (N.ltb_spec b0 224); cbn [andb].
  { destruct r0 as [|b1 r1]; [discriminate|].
    destruct (N.leb_spec 128 b1), (N.ltb_spec b1 192); cbn [andb]; try discriminate.
    destruct (digits_2 (b0 - 192) (b1 - 128)) as (E1 & E0); [lia|].
    set (c := ((b0 - 192) * 64 + (b1 - 128))%N) in *.
    destruct (N.leb_spec 128 c); [|discriminate].
    intros Hd. apply outcome_bind_returns in Hd as (s' & Hs' & [= <-]).
    step_found c [b0; b1] r1 s' Hs'. split; [|subst c; lia].
    rewrite E1, E0. clear E1 E0. decide_tests; try (subst c; lia).
    repeat (f_equal; try lia). }
  all: try discriminate.
  all: destruct (N.leb_spec 224 b0), (N.ltb_spec b0 240); cbn [andb];
    try discriminate; try lia.
  { destruct r0 as [|b1 [|b2 r2]]; try discriminate.
    destruct (N.leb_spec 128 b1), (N.ltb_spec b1 192); cbn [andb]; try discriminate.
    all: destruct (N.leb_spec 128 b2), (N.ltb_spec b2 192); cbn [andb];
      try discriminate.
    destruct (digits_3 (b0 - 224) (b1 - 128) (b2 - 128)) as (E2 & E1 & E0);
      [lia|lia|].
    set (c := ((b0 - 224) * 4096 + (b1 - 128) * 64 + (b2 - 128))%N) in *.
    destruct (N.leb_spec 2048 c); cbn [andb]; [|discriminate].
    destruct (N.leb_spec 55296 c), (N.leb_spec c 57343); cbn [andb negb];
      try discriminate.
    all: intros Hd; apply outcome_bind_returns in Hd as (s' & Hs' & [= <-]).
    all: step_found c [b0; b1; b2] r2 s' Hs'.
    all: (split; [|subst c; lia]).
    all: rewrite E2, E1, E0; clear E2 E1 E0.
    all: decide_tests; cbn [andb]; try (subst c; lia).
    all: repeat (f_equal; try lia). }
  all: destruct (N.leb_spec 240 b0), (N.ltb_spec b0 248); cbn [andb];
    try discriminate; try lia.
  destruct r0 as [|b1 [|b2 [|b3 r3]]]; try discriminate.
  destruct (N.leb_spec 128 b1), (N.ltb_spec b1 192); cbn [andb]; try discriminate.
  all: destruct (N.leb_spec 128 b2), (N.ltb_spec b2 192); cbn [andb];
    try discriminate.
  all: destruct (N.leb_spec 128 b3), (N.ltb_spec b3 192); cbn [andb];
    try discriminate.
  destruct (digits_4 (b0 - 240) (b1 - 128) (b2 - 128) (b3 - 128))
    as (E3 & E2 & E1 & E0); [lia|lia|lia|].
  set (c := ((b0 - 240) * 262144 + (b1 - 128) * 4096 + (b2 - 128) * 64
             + (b3 - 128))%N) in *.
  destruct (N.leb_spec 65536 c), (N.ltb_spec c 1114112); cbn [andb];
    try discriminate.
  intros Hd; apply outcome_bind_returns in Hd as (s' & Hs' & [= <-]).
  step_found c [b0; b1; b2; b3] r3 s' Hs'. split; [|assumption].
  rewrite E3, E2, E1, E0; clear E3 E2 E1 E0.
  decide_tests; cbn [andb]; try (subst c; lia).
  repeat (f_equal; try lia).
Qed.

(** [b.decode("utf-8").encode("utf-8") == b], and the decoded string holds
    code points only. *)
Lemma encode_decode (b : bytes) : forall s,
  utf8_decode b = Returns s -> utf8_encode s = Ok b /\ is_str s.
Proof.
  remember (length b) as n eqn:Hn. revert b Hn.
  induction n as [n IH] using lt_wf_ind. intros b Hn s Hd.
  destruct b as [|b0 r0].
  { injection Hd as <-. split; [reflexivity | constructor]. }
  destruct (decode_step (b0 :: r0) s) as (c & bc & rest & s' & Hb & -> & Hbc & Hrest & Henc & Hc);
    [discriminate | exact Hd |].
  assert (Hlen : (length rest < n)%nat).
  { subst n. rewrite Hb, length_app. destruct bc; [contradiction|]. cbn. lia. }
  destruct (IH _ Hlen rest eq_refl s' Hrest) as [Hs' Hstr].
  rewrite Hb. cbn [utf8_encode]. rewrite Henc, Hs'.
  split; [reflexivity | constructor; assumption].
Qed.

(** ** Tokens *)

Section TokenNames.
Variable isprintable : codepoint -> bool.

Lemma len_zero_nil {A} (l : list A) : (len l =? 0) = true <-> l = [].
Proof.
  unfold len. destruct l; cbn; split; intros H; try reflexivity; discriminate.
Qed.

(** What construction decides about the two names. *)
Lemma Token_new_names policy amount name hex_name metadata t :
  Token_new isprintable policy amount name hex_name metadata = Returns t ->
  tok_policy t = policy /\ tok_amount t = amount /\ tok_metadata t = metadata
  /\ Token_check_metadata isprintable metadata true = Ok tt
  /\ ((hex_name = [] /\ tok_name t = name
       /\ exists b, utf8_encode name = Ok b /\ tok_hex_name t = bytes_hex b)
      \/ (hex_name <> [] /\ tok_hex_name t = hex_name
          /\ exists b, bytes_fromhex hex_name = Ok b
                       /\ utf8_decode b = Returns (tok_name t))).
Proof.
  unfold Token_new. intros Ht.
  apply outcome_bind_returns in Ht as ([n h] & Hnames & Ht).
  apply outcome_bind_returns in Ht as ([] & Hmeta & Ht).
  injection Ht as <-. cbn. apply lift_returns in Hmeta.
  repeat (split; [reflexivity || assumption|]).
  destruct (len hex_name =? 0) eqn:Hhex; cbn [negb] in Hnames.
  - left. apply len_zero_nil in Hhex.
    apply outcome_bind_returns in Hnames as (b & Hb & [= <- <-]).
    apply lift_returns in Hb. eauto.
  - right. apply outcome_bind_returns in Hnames as (b & Hb & Hnames).
    apply outcome_bind_returns in Hnames as (d & Hd & [= <- <-]).
    apply lift_returns in Hb. split; [|eauto].
    intros ->. discriminate.
Qed.

(** X6. The two names of a token denote the same bytes. Whichever of
    [name] and [hex_name] the token was built from, the UTF-8 encoding of its
    name, which is its asset name on chain, is what its [hex_name] spells. *)
Theorem token_names_agree policy amount name hex_name metadata t :
  is_str name ->
  Token_new isprintable policy amount name hex_name metadata = Returns t ->
  is_str (tok_name t)
  /\ exists b, bytes_name t = Ok b /\ bytes_fromhex (tok_hex_name t) = Ok b.
Proof.
  intros Hname Ht.
  destruct (Token_new_names _ _ _ _ _ _ Ht)
    as (_ & _ & _ & _ & [(-> & Hn & b & Hb & Hh) | (Hne & Hh & b & Hb & Hd)]);
    unfold bytes_name.
  - rewrite Hn, Hh. split; [exact Hname|]. exists b. split; [exact Hb|].
    apply fromhex_hex. exact (proj1 (decode_encode name b Hname Hb)).
  - rewrite Hh. destruct (encode_decode b _ Hd) as [Henc Hstr].
    split; [exact Hstr|]. eauto.
Qed.

(** X7. A token built from a name can be rebuilt from its [hex_name]
    alone: the same token results, whatever [name] is passed along, since
    a [hex_name] that is not empty overrides the name. *)
Theorem token_from_hex_name policy amount name metadata t :
  is_str name -> name <> [] ->
  Token_new isprintable policy amount name [] metadata = Returns t ->
  forall other,
    Token_new isprintable policy amount other (tok_hex_name t) metadata = Returns t.
Proof.
  intros Hname Hne Ht other.
  destruct (Token_new_names _ _ _ _ _ _ Ht)
    as (Hp & Ha & Hm & Hmeta & [(_ & Hn & b & Hb & Hh) | (Hcontra & _)]);
    [|contradiction].
  destruct (decode_encode name b Hname Hb) as [Hbytes Hdec].
  assert (Hb' : b <> []).
  { intros ->. destruct name as [|c name]; [contradiction|].
    cbn [utf8_encode] in Hb.
    destruct (utf8_encode_char c) as [bc|] eqn:Hc; [|discriminate].
    destruct (utf8_encode name); [|discriminate]. injection Hb as Hb.
    apply app_eq_nil in Hb as [-> _].
    unfold utf8_encode_char in Hc.
    repeat (destruct (_ <? _)%N || destruct (_ && _)); discriminate. }
  pose proof (hex_nonempty b Hb' Hbytes) as Hhex.
  unfold Token_new. rewrite Hh.
  replace (len (bytes_hex b) =? 0) with false
    by (symmetry; apply not_true_iff_false; rewrite len_zero_nil; exact Hhex).
  cbn [negb]. rewrite (fromhex_hex b Hbytes). cbn [lift mbind outcome_bind].
  rewrite Hdec. cbn [mbind outcome_bind]. rewrite Hmeta. cbn.
  destruct t; cbn in *; subst; reflexivity.
Qed.
End TokenNames.

(** [Token(P, 5, "abc")] is the token of the concrete setting: its
    [hex_name] becomes ["616263"]. *)
Lemma token_names_agree_witness :
  is_str (py "abc")
  /\ Token_new (@unicode_isprintable Fixture.collaborators)
       (PolicyToken Fixture.policy_P) 5 (py "abc") [] (VDict [])
     = Returns (Fixture.token 5)
  /\ is_str (tok_name (Fixture.token 5))
  /\ exists b, bytes_name (Fixture.token 5) = Ok b
               /\ bytes_fromhex (tok_hex_name (Fixture.token 5)) = Ok b.
Proof.
  assert (Hname : is_str (py "abc")) by (repeat constructor).
  split; [exact Hname|]. split; [vm_compute; reflexivity|].
  apply (token_names_agree (@unicode_isprintable Fixture.collaborators)
           (PolicyToken Fixture.policy_P) 5 (py "abc") [] (VDict [])
           (Fixture.token 5) Hname).
  vm_compute. reflexivity.
Defined.

(** [Token(P, 5, name="zzz", hex_name="616263")] is [Token(P, 5, "abc")]. *)
Lemma token_from_hex_name_witness :
  Token_new (@unicode_isprintable Fixture.collaborators)
    (PolicyToken Fixture.policy_P) 5 (py "zzz") (py "616263") (VDict [])
  = Returns (Fixture.token 5).
Proof.
  apply (token_from_hex_name (@unicode_isprintable Fixture.collaborators)
           (PolicyToken Fixture.policy_P) 5 (py "abc") (VDict [])
           (Fixture.token 5)).
  - repeat constructor.
  - discriminate.
  - vm_compute. reflexivity.
Defined.

End TokenFacts.

(* ================================================================== *)
(** * Properties of the validators *)
(* ================================================================== *)

Module ValidatorFacts.
Import PyBase Metadata MetadataShapes MetadataFacts.

Section Validators.
Variable isprintable : codepoint -> bool.

(** ** Printed forms *)

Lemma str_key_length (k : pykey) : len (str_key k) <= len (repr_key isprintable k).
Proof. destruct k as [s|z]; cbn; [apply repr_str_length | lia]. Qed.

Lemma py_str_length (v : pyval) :
  len (py_str isprintable v) <= len (py_repr isprintable v).
Proof. destruct v; cbn [py_str py_repr]; try lia. apply repr_str_length. Qed.

(** The printed form of a list or dictionary is longer than that of any of
    its members. *)
Lemma item_repr_length (l : list pyval) (x : pyval) :
  In x l -> len (py_repr isprintable x) <= len (py_repr isprintable (VList l)).
Proof.
  intros Hx. cbn [py_repr]. rewrite !len_app.
  pose proof (join_comma_length (map (py_repr isprintable) l)
                (py_repr isprintable x) (in_map _ _ _ Hx)).
  pose proof (len_nonneg (py "[")). pose proof (len_nonneg (py "]")). lia.
Qed.

Lemma entry_repr_length (d : list (pykey * pyval)) (kv : pykey * pyval) :
  In kv d ->
  len (repr_key isprintable (fst kv)) + len (py_repr isprintable (snd kv))
  <= len (py_repr isprintable (VDict d)).
Proof.
  intros Hkv. cbn [py_repr]. rewrite !len_app.
  pose proof (join_comma_length _ _
    (in_map (fun kv => repr_key isprintable (fst kv) ++ py ": "
                       ++ py_repr isprintable (snd kv)) _ _ Hkv)) as Hjoin.
  rewrite !len_app in Hjoin.
  pose proof (len_nonneg (py ": ")).
  pose proof (len_nonneg (py "{")). pose proof (len_nonneg (py "}")). lia.
Qed.

Lemma py_repr_long_key (v : pyval) :
  has_long_key v = true -> 64 < len (py_repr isprintable v).
Proof.
  induction v as [s|z|b| |l IH|d IH] using pyval_nested_ind;
    cbn [has_long_key]; intros Hlong; try discriminate.
  - apply existsb_exists in Hlong as (x & Hx & Hlongx).
    rewrite Forall_forall in IH. specialize (IH x Hx Hlongx).
    pose proof (item_repr_length l x Hx). lia.
  - apply existsb_exists in Hlong as (kv & Hkv & Hlongkv).
    rewrite Forall_forall in IH. specialize (IH kv Hkv).
    pose proof (entry_repr_length d kv Hkv).
    pose proof (str_key_length (fst kv)).
    pose proof (len_nonneg (repr_key isprintable (fst kv))).
    pose proof (len_nonneg (py_repr isprintable (snd kv))).
    apply orb_true_iff in Hlongkv as [Hk|Hv]; [apply Z.ltb_lt in Hk; lia|].
    specialize (IH Hv). lia.
Qed.

Lemma py_str_long_key (v : pyval) :
  has_long_key v = true -> 64 < len (py_str isprintable v).
Proof.
  destruct v; intros Hlong; try exact (py_repr_long_key _ Hlong); discriminate.
Qed.

(** ** Long keys *)

Lemma check_metadata_rec_long_key (v : pyval) :
  has_long_key v = true ->
  check_metadata_rec isprintable v = Raise MetadataFormattingException.
Proof.
  induction v as [s|z|b| |l IH|d IH] using pyval_nested_ind;
    cbn [has_long_key check_metadata_rec]; intros Hlong; try discriminate.
  - apply existsb_exists in Hlong as (x & Hx & Hlongx).
    apply for_each_raises.
    + apply Forall_forall. intros y _. apply too_long_closed.
    + apply Exists_exists. exists x. split; [exact Hx|].
      apply too_long_raises, py_str_long_key, Hlongx.
  - apply existsb_exists in Hlong as (kv & Hkv & Hlongkv).
    apply for_each_raises.
    + apply Forall_forall. intros [k value] _. cbn [fst snd].
      destruct (too_long_closed (str_key k)) as [-> | ->]; cbn; [|auto].
      destruct value; auto using too_long_closed, check_metadata_rec_closed.
    + apply Exists_exists. exists kv. split; [exact Hkv|].
      rewrite Forall_forall in IH. specialize (IH kv Hkv).
      destruct kv as [k value]. cbn [fst snd] in *.
      apply orb_true_iff in Hlongkv as [Hk|Hv].
      * apply Z.ltb_lt in Hk. rewrite (too_long_raises _ Hk). reflexivity.
      * specialize (IH Hv).
        destruct (too_long_closed (str_key k)) as [-> | ->]; cbn; [|reflexivity].
        destruct value; try exact IH; discriminate.
Qed.

Lemma Token_check_metadata_rec_long_key (v : pyval) :
  has_long_key v = true -> Token_check_metadata_rec isprintable v <> Ok tt.
Proof.
  induction v as [s|z|b| |l IH|d IH] using pyval_nested_ind;
    cbn [has_long_key Token_check_metadata_rec]; intros Hlong; try discriminate.
  - apply existsb_exists in Hlong as (x & Hx & Hlongx).
    intros Hok. apply for_each_ok in Hok.
    rewrite Forall_forall in IH, Hok. exact (IH x Hx Hlongx (Hok x Hx)).
  - apply existsb_exists in Hlong as (kv & Hkv & Hlongkv).
    intros Hok. apply for_each_ok in Hok.
    rewrite Forall_forall in IH, Hok. specialize (IH kv Hkv).
    specialize (Hok kv Hkv). destruct kv as [k value]. cbn [fst snd] in *.
    apply orb_true_iff in Hlongkv as [Hk|Hv].
    + apply Z.ltb_lt in Hk. rewrite (too_long_raises _ Hk) in Hok. discriminate.
    + destruct (too_long (str_key k)) as [[]|e]; cbn in Hok; [|discriminate].
      destruct value; try (exact (IH Hv Hok)); discriminate.
Qed.

(** ** The two validators compared *)

(** Whatever prints in at most 64 characters passes [Token._check_metadata],
    if its lists hold strings, lists and dictionaries only. *)
Lemma short_repr_accepted (v : pyval) :
  lists_hold_strings v = true -> len (py_repr isprintable v) <= 64 ->
  Token_check_metadata_rec isprintable v = Ok tt.
Proof.
  induction v as [s|z|b| |l IH|d IH] using pyval_nested_ind;
    cbn [lists_hold_strings Token_check_metadata_rec]; intros Hshape Hshort;
    try discriminate.
  - pose proof (repr_str_length isprintable s). cbn [py_repr] in Hshort.
    cbn. destruct (Z.ltb_spec 64 (len s)); [lia | reflexivity].
  - apply for_each_all_ok. rewrite forallb_forall in Hshape.
    rewrite Forall_forall in IH |- *. intros x Hx.
    pose proof (item_repr_length l x Hx). apply IH; auto. lia.
  - apply for_each_all_ok. rewrite forallb_forall in Hshape.
    rewrite Forall_forall in IH |- *. intros [k value] Hkv.
    specialize (IH _ Hkv). specialize (Hshape _ Hkv).
    pose proof (entry_repr_length d _ Hkv) as Hentry.
    pose proof (str_key_length k). pose proof (py_str_length value).
    pose proof (len_nonneg (repr_key isprintable k)).
    pose proof (len_nonneg (py_repr isprintable value)).
    cbn [fst snd] in *. unfold too_long.
    destruct (Z.ltb_spec 64 (len (str_key k))); [lia|]. cbn [mbind result_bind].
    destruct value; try (apply IH; [exact Hshape | lia]);
      match goal with
      | |- context [64 <? ?n] => destruct (Z.ltb_spec 64 n)
      end; try reflexivity; cbn [py_str py_repr] in *; lia.
Qed.

Lemma check_accepts_then_Token_accepts (v : pyval) :
  lists_hold_strings v = true ->
  check_metadata_rec isprintable v = Ok tt ->
  Token_check_metadata_rec isprintable v = Ok tt.
Proof.
  induction v as [s|z|b| |l IH|d IH] using pyval_nested_ind;
    cbn [lists_hold_strings check_metadata_rec Token_check_metadata_rec];
    intros Hshape Hok; try discriminate.
  - exact Hok.
  - apply for_each_ok in Hok. apply for_each_all_ok.
    rewrite forallb_forall in Hshape. rewrite Forall_forall in Hok |- *.
    intros x Hx. specialize (Hok x Hx). specialize (Hshape x Hx).
    unfold too_long in Hok.
    destruct (Z.ltb_spec 64 (len (py_str isprintable x))); [discriminate|].
    destruct x; try discriminate; cbn [py_str] in *.
    + cbn. destruct (Z.ltb_spec 64 (len s)); [lia | reflexivity].
    + apply short_repr_accepted; assumption.
    + apply short_repr_accepted; assumption.
  - apply for_each_ok in Hok. apply for_each_all_ok.
    rewrite forallb_forall in Hshape. rewrite Forall_forall in IH, Hok |- *.
    intros [k value] Hkv. specialize (IH _ Hkv). specialize (Hok _ Hkv).
    specialize (Hshape _ Hkv). cbn [fst snd] in *.
    destruct (too_long (str_key k)) as [[]|e]; cbn in Hok |- *; [|discriminate].
    destruct value; auto.
Qed.
End Validators.

(** X8. A dictionary key whose string form is longer than 64 characters
    is rejected by both validators, at any depth, also inside lists. *)
Theorem long_key_rejected (isprintable : codepoint -> bool) (v : pyval)
    (top_level : bool) :
  has_long_key v = true ->
  check_metadata isprintable v top_level = Raise MetadataFormattingException
  /\ Token_check_metadata isprintable v top_level <> Ok tt
  /\ (lists_hold_strings v = true ->
      Token_check_metadata isprintable v top_level
      = Raise MetadataFormattingException).
Proof.
  intros Hlong. unfold check_metadata, Token_check_metadata.
  split; [|split].
  - rewrite (check_metadata_rec_long_key isprintable v Hlong). reflexivity.
  - pose proof (Token_check_metadata_rec_long_key isprintable v Hlong) as Hne.
    destruct (Token_check_metadata_rec isprintable v) as [[]|e];
      [congruence | discriminate].
  - intros Hshape.
    pose proof (Token_check_metadata_rec_long_key isprintable v Hlong) as Hne.
    destruct (Token_check_metadata_rec_closed isprintable v Hshape) as [Hr|Hr];
      rewrite Hr in *; [congruence | reflexivity].
Qed.

(** A key of 65 characters in a dictionary inside a list. *)
Definition long_key_metadata : pyval :=
  VList [VDict [(KStr (repeat 97%N 65), VInt 1)]].

Lemma long_key_rejected_witness :
  has_long_key long_key_metadata = true
  /\ check_metadata (@Wallet.unicode_isprintable Fixture.collaborators)
       long_key_metadata true
     = Raise MetadataFormattingException
  /\ Token_check_metadata (@Wallet.unicode_isprintable Fixture.collaborators)
       long_key_metadata true
     = Raise MetadataFormattingException.
Proof.
  split; [reflexivity|].
  destruct (long_key_rejected (@Wallet.unicode_isprintable Fixture.collaborators)
              long_key_metadata true eq_refl) as (Hcheck & _ & Htoken).
  split; [exact Hcheck | exact (Htoken eq_refl)].
Defined.

(** X9. [check_metadata] is the stricter validator. On metadata whose
    lists hold strings, lists and dictionaries, whatever it accepts
    [Token._check_metadata] accepts too. *)
Theorem check_metadata_is_stricter (isprintable : codepoint -> bool) (v : pyval)
    (top_level : bool) :
  lists_hold_strings v = true ->
  check_metadata isprintable v top_level = Ok tt ->
  Token_check_metadata isprintable v top_level = Ok tt.
Proof.
  unfold check_metadata, Token_check_metadata. intros Hshape Hok.
  destruct (check_metadata_rec isprintable v) as [[]|e] eqn:Hrec; [|discriminate].
  rewrite (check_accepts_then_Token_accepts isprintable v Hshape Hrec). exact Hok.
Qed.

(** Two strings of 40 characters in a list inside a list: the printed form
    of the inner list is longer than 64 characters, which [check_metadata]
    rejects, while [Token._check_metadata] looks at the strings alone. *)
Definition nested_lines : pyval :=
  VList [VList [VStr (repeat 97%N 40); VStr (repeat 98%N 40)]].

Lemma check_metadata_is_stricter_witness :
  (lists_hold_strings (VDict [(KStr (py "k"), VList [VStr (py "a")])]) = true
   /\ check_metadata (@Wallet.unicode_isprintable Fixture.collaborators)
        (VDict [(KStr (py "k"), VList [VStr (py "a")])]) true = Ok tt
   /\ Token_check_metadata (@Wallet.unicode_isprintable Fixture.collaborators)
        (VDict [(KStr (py "k"), VList [VStr (py "a")])]) true = Ok tt)
  /\ (lists_hold_strings nested_lines = true
      /\ Token_check_metadata (@Wallet.unicode_isprintable Fixture.collaborators)
           nested_lines true = Ok tt
      /\ check_metadata (@Wallet.unicode_isprintable Fixture.collaborators)
           nested_lines true = Raise MetadataFormattingException).
Proof.
  split.
  - split; [reflexivity|]. split; [vm_compute; reflexivity|].
    apply check_metadata_is_stricter; [reflexivity | vm_compute; reflexivity].
  - repeat split; vm_compute; reflexivity.
Defined.

(** ** Messages given as a list *)

Lemma check_line_ok (line : pyval) :
  check_line line = Ok tt <-> exists s, line = VStr s /\ len s <= 64.
Proof.
  unfold check_line. split.
  - destruct line as [s|z|b| |l|d]; cbn; try discriminate.
    + destruct (Z.ltb_spec 64 (len s)); [discriminate|]. eauto.
    + destruct (64 <? len l); discriminate.
    + destruct (64 <? len d); discriminate.
  - intros (s & -> & Hs). cbn. destruct (Z.ltb_spec 64 (len s)); [lia|reflexivity].
Qed.

(** X10. A message given as a list of lines is accepted exactly when every
    line is a string of at most 64 characters, and is then passed on
    unchanged under the key ["msg"]; longer lines are not split. *)
Theorem format_message_lines (lines : list pyval) (r : pyval) :
  format_message (MsgList lines) = Ok r
  <-> (Forall (fun line => exists s, line = VStr s /\ len s <= 64) lines
       /\ r = VDict [(KStr (py "msg"), VList lines)]).
Proof.
  unfold format_message. split.
  - intros Hr. destruct (for_each check_line lines) as [[]|e] eqn:Hloop;
      [|discriminate].
    injection Hr as <-. split; [|reflexivity].
    apply for_each_ok in Hloop. rewrite Forall_forall in Hloop |- *.
    intros line Hline. apply check_line_ok. auto.
  - intros [Hlines ->]. rewrite for_each_all_ok; [reflexivity|].
    rewrite Forall_forall in Hlines |- *. intros line Hline.
    apply check_line_ok. auto.
Qed.

Lemma format_message_lines_witness :
  format_message (MsgList [VStr (py "one"); VStr (py "two")])
  = Ok (VDict [(KStr (py "msg"), VList [VStr (py "one"); VStr (py "two")])])
  /\ is_ok (format_message (MsgList [VStr (repeat 97%N 65)])) = false.
Proof.
  split.
  - apply format_message_lines. split; [|reflexivity].
    repeat constructor; eexists; (split; [reflexivity | vm_compute; discriminate]).
  - vm_compute. reflexivity.
Defined.

End ValidatorFacts.

(* ================================================================== *)
(** * Properties of the stages of the composer *)
(* ================================================================== *)

Module ComposerFacts.
Import PyBase PyNum Amounts Metadata Wallet ComposerShapes.
Import NumFacts AmountFacts WalletFacts.

Section Stages.
Context `{Collaborators}.

(** ** Signing keys *)



(** ** What each stage leaves alone on the builder *)

Lemma add_inputs_frame (l : list input_thing) : forall b b',
  add_inputs b l = Ok b' ->
  b_context b' = b_context b /\ b_outputs b' = b_outputs b
  /\ b_ttl b' = b_ttl b /\ b_mint b' = b_mint b
  /\ b_native_scripts b' = b_native_scripts b
  /\ b_auxiliary_data b' = b_auxiliary_data b
  /\ b_certificates b' = b_certificates b /\ b_withdrawals b' = b_withdrawals b.
Proof.
  induction l as [|i l IH]; intros b b' Hb.
  - injection Hb as <-. repeat split.
  - rewrite add_inputs_cons in Hb. apply bind_ok in Hb as (b0 & Hi & Hb).
    apply IH in Hb as (-> & -> & -> & -> & -> & -> & -> & ->).
    destruct i as [a|s|w|u|]; cbn in Hi; try (destruct (w_address w); [|discriminate]);
      injection Hi as <-; repeat split.
Qed.

Lemma set_mint_frame b mint_list scripts all_assets b' :
  set_mint b mint_list scripts all_assets = Ok b' ->
  b_context b' = b_context b /\ b_input_addresses b' = b_input_addresses b
  /\ b_inputs b' = b_inputs b /\ b_outputs b' = b_outputs b
  /\ b_auxiliary_data b' = b_auxiliary_data b
  /\ b_certificates b' = b_certificates b /\ b_withdrawals b' = b_withdrawals b
  /\ (mint_list = [] -> b' = b).
Proof.
  unfold set_mint. destruct mint_list.
  - intros [= <-]. repeat split.
  - intros Hb. apply bind_ok in Hb as (slots & _ & Hb).
    apply bind_ok in Hb as (ttl & _ & Hb). injection Hb as <-.
    repeat split. discriminate.
Qed.

Lemma set_auxiliary_data_frame b meta aux :
  let b' := set_auxiliary_data b meta aux in
  b_context b' = b_context b /\ b_input_addresses b' = b_input_addresses b
  /\ b_inputs b' = b_inputs b /\ b_outputs b' = b_outputs b
  /\ b_certificates b' = b_certificates b /\ b_withdrawals b' = b_withdrawals b.
Proof. destruct meta; repeat split. Qed.

Lemma add_outputs_frame mint_multiasset (l : list Output) : forall b b',
  add_outputs b mint_multiasset l = Ok b' ->
  b_context b' = b_context b /\ b_input_addresses b' = b_input_addresses b
  /\ b_inputs b' = b_inputs b
  /\ b_certificates b' = b_certificates b /\ b_withdrawals b' = b_withdrawals b
  /\ length (b_outputs b') = (length (b_outputs b) + length l)%nat.
Proof.
  unfold add_outputs.
  induction l as [|o l IH]; intros b b' Hb.
  - injection Hb as <-. repeat split. cbn. lia.
  - rewrite fold_result_cons in Hb. apply bind_ok in Hb as (b0 & Ho & Hb).
    apply bind_ok in Ho as (out & _ & Ho). injection Ho as <-.
    apply IH in Hb as (-> & -> & -> & -> & -> & ->).
    repeat split. cbn. rewrite length_app. cbn. lia.
Qed.

(** The builder of a request holds what the final two stages put there. *)
Lemma transact_certificates_withdrawals self args r :
  transact self args = Ok r ->
  exists c certs0 certs sg wd sg',
    find_context self (context args) = Ok c
    /\ registration_certificates self
         (stake_registration_info (stake_registration args)) = Ok certs0
    /\ delegation_certificates self (delegations args) certs0
         (optional_list (signers args)) = Ok (certs, sg)
    /\ resolve_withdrawals self c (withdrawals args) sg = Ok (wd, sg')
    /\ b_certificates (request_builder r)
       = match certs with [] => None | _ => Some certs end
    /\ b_withdrawals (request_builder r)
       = match wd with [] => None | _ => Some wd end.
Proof.
  intros Hr. apply transact_ok in Hr
    as (c & change & minted & mm & all & meta & aux & certs0 & certs & sg & wd
        & sg' & b1 & b2 & b3 & Hc & _ & _ & _ & _ & _ & Hcerts0 & Hcerts & Hwd
        & Hb1 & Hb2 & Hb3 & ->).
  exists c, certs0, certs, sg, wd, sg'. repeat (split; [assumption|]).
  apply add_inputs_frame in Hb1 as (_ & _ & _ & _ & _ & _ & Hc1 & Hw1).
  apply set_mint_frame in Hb2 as (_ & _ & _ & _ & _ & Hc2 & Hw2 & _).
  apply add_outputs_frame in Hb3 as (_ & _ & _ & Hc3 & Hw3 & _).
  destruct (set_auxiliary_data_frame b2 meta aux) as (_ & _ & _ & _ & Hc4 & Hw4).
  cbv zeta in Hc4, Hw4. cbn [new_builder b_certificates b_withdrawals] in Hc1, Hw1.
  assert (Hcn : b_certificates b3 = None) by congruence.
  assert (Hwn : b_withdrawals b3 = None) by congruence.
  split; destruct certs, wd; cbn; try reflexivity; assumption.
Qed.

(** ** Certificates *)

Lemma registration_certificates_shape (self : Wallet) (info : list stake_target) :
  forall acc certs,
    fold_result
      (fun certificates stake =>
         c ← registration_credential self stake;
         Ok (certificates ++ [StakeRegistration c]))
      info acc = Ok certs ->
    exists regs, certs = acc ++ regs /\ length regs = length info
                 /\ forallb is_registration regs = true.
Proof.
  induction info as [|stake info IH]; intros acc certs Hc.
  - injection Hc as <-. exists []. rewrite app_nil_r. auto.
  - rewrite fold_result_cons in Hc. apply bind_ok in Hc as (acc' & Hstep & Hc).
    apply bind_ok in Hstep as (c & _ & Hstep). injection Hstep as <-.
    destruct (IH _ _ Hc) as (regs & -> & Hlen & Hall).
    exists (StakeRegistration c :: regs). rewrite <- app_assoc. cbn.
    rewrite Hlen, Hall. auto.
Qed.

Lemma delegation_dict_shape (self : Wallet) (d : list (dict_key * pool_like)) :
  forall acc certs,
    fold_result
      (fun certificates (entry : dict_key * pool_like) =>
         '(key, value) ← unpack_delegation_key (key_target (fst entry));
         c ← match key with
              | TargetStr s =>
                  a ← address_from_primitive s; credential_of (staking_part_of a)
              | TargetWallet _ => own_stake_hash self
              | TargetAddress a => credential_of (staking_part_of a)
              end;
         pool_hash ← pool_hash_of value;
         Ok (certificates ++ [StakeDelegation c pool_hash]))
      d acc = Ok certs ->
    exists delegs, certs = acc ++ delegs /\ forallb is_delegation delegs = true.
Proof.
  induction d as [|entry d IH]; intros acc certs Hc.
  - injection Hc as <-. exists []. rewrite app_nil_r. auto.
  - rewrite fold_result_cons in Hc. apply bind_ok in Hc as (acc' & Hstep & Hc).
    apply bind_ok in Hstep as ([key value] & _ & Hstep).
    apply bind_ok in Hstep as (c & _ & Hstep).
    apply bind_ok in Hstep as (ph & _ & Hstep). injection Hstep as <-.
    destruct (IH _ _ Hc) as (delegs & -> & Hall).
    exists (StakeDelegation c ph :: delegs). rewrite <- app_assoc. cbn.
    rewrite Hall. auto.
Qed.

Lemma delegation_certificates_shape (self : Wallet) arg certificates sg certs sg' :
  delegation_certificates self arg certificates sg = Ok (certs, sg') ->
  exists delegs, certs = certificates ++ delegs
                 /\ forallb is_delegation delegs = true.
Proof.
  unfold delegation_certificates.
  destruct (negb (delegations_truthy arg)).
  { intros [= <- <-]. exists []. rewrite app_nil_r. auto. }
  destruct arg as [[s|h|d]|].
  - intros Hc. apply bind_ok in Hc as (ph & _ & Hc).
    apply bind_ok in Hc as (c & _ & Hc). injection Hc as <- <-. eexists. eauto.
  - intros Hc. apply bind_ok in Hc as (c & _ & Hc). injection Hc as <- <-.
    eexists. eauto.
  - intros Hc. apply bind_ok in Hc as (cs & Hcs & Hc). injection Hc as <- <-.
    exact (delegation_dict_shape self d _ _ Hcs).
  - intros [= <- <-]. exists []. rewrite app_nil_r. auto.
Qed.
(** ** The tokens of an output *)

Lemma merge_output_token_lookup table token table' policy_id name :
  merge_output_token table token = Ok table' ->
  lookup2 table' policy_id name
  = if carries policy_id name token
    then Some (default 0 (lookup2 table policy_id name) + tok_amount token)
    else lookup2 table policy_id name.
Proof.
  unfold merge_output_token, carries, lookup2. intros Ht.
  apply bind_ok in Ht as (pid & Hpid & Ht). rewrite Hpid. injection Ht as <-.
  assert (Hinner : (if inner_truthy (dict_get table pid)
                    then inner_or_empty (dict_get table pid) else [])
                   = inner_or_empty (dict_get table pid))
    by (destruct (dict_get table pid) as [[|]|]; reflexivity).
  rewrite Hinner. clear Hinner.
  destruct (decide (pid = policy_id)) as [->|Hp].
  - rewrite dict_get_set. cbn [mbind option_bind].
    rewrite (bool_decide_eq_true_2 _ eq_refl). cbn [andb].
    destruct (decide (tok_name token = name)) as [<-|Hn].
    + rewrite dict_get_set, (bool_decide_eq_true_2 _ eq_refl).
      destruct (dict_get table policy_id) as [inner|]; cbn; [|f_equal; lia].
      destruct (dict_get inner (tok_name token)) as [q|]; cbn; [|f_equal; lia].
      destruct (Z.eqb_spec q 0); f_equal; lia.
    + rewrite dict_get_set_ne by exact Hn.
      rewrite (bool_decide_eq_false_2 _ Hn).
      destruct (dict_get table policy_id); reflexivity.
  - rewrite dict_get_set_ne by exact Hp.
    rewrite (bool_decide_eq_false_2 _ Hp). reflexivity.
Qed.

Lemma tally_cons (t : Token) (l : list Token) :
  tally (t :: l) = Some (tok_amount t + default 0 (tally l)).
Proof. destruct l; cbn; f_equal; lia. Qed.

Lemma merged_tokens_lookup (tokens : list Token) policy_id name :
  forall table table',
    fold_result merge_output_token tokens table = Ok table' ->
    lookup2 table' policy_id name
    = match tally (List.filter (carries policy_id name) tokens) with
      | Some q => Some (default 0 (lookup2 table policy_id name) + q)
      | None => lookup2 table policy_id name
      end.
Proof.
  induction tokens as [|t tokens IH]; intros table table' Hf.
  - injection Hf as <-. reflexivity.
  - rewrite fold_result_cons in Hf. apply bind_ok in Hf as (table1 & Ht & Hf).
    rewrite (IH _ _ Hf), (merge_output_token_lookup _ _ _ _ _ Ht).
    cbn [List.filter]. destruct (carries policy_id name t).
    + rewrite tally_cons.
      destruct (tally (List.filter (carries policy_id name) tokens)); cbn;
        f_equal; lia.
    + reflexivity.
Qed.

(** ** The scripts of the mints *)

Lemma NativeScript_eqb_refl : forall s, NativeScript_eqb s s = true.
Proof.
  fix IH 1. intros [h|l|l|n l|z|z]; cbn.
  - apply bool_decide_eq_true_2. reflexivity.
  - induction l as [|x l IHl]; [reflexivity|]. rewrite IH. exact IHl.
  - induction l as [|x l IHl]; [reflexivity|]. rewrite IH. exact IHl.
  - rewrite Z.eqb_refl. induction l as [|x l IHl]; [reflexivity|].
    rewrite IH. exact IHl.
  - apply Z.eqb_refl.
  - apply Z.eqb_refl.
Qed.

Lemma NoDup_snoc {A} (l : list A) (x : A) :
  List.NoDup l -> ~ In x l -> List.NoDup (l ++ [x]).
Proof.
  induction 1 as [|y l Hy Hl IH]; intros Hx; cbn.
  - constructor; [intros [] | constructor].
  - constructor.
    + intros Hin. apply in_app_or in Hin as [Hin|[<-|[]]]; [contradiction|].
      apply Hx. left. reflexivity.
    + apply IH. intros Hin. apply Hx. right. exact Hin.
Qed.

Lemma script_in_In (x : option NativeScript) (l : list (option NativeScript)) :
  In x l -> script_in x l = true.
Proof.
  intros Hx. unfold script_in. apply existsb_exists. exists x. split; [exact Hx|].
  destruct x as [s|]; [apply NativeScript_eqb_refl | reflexivity].
Qed.

Lemma sort_mint_scripts st token st' :
  sort_mint st token = Ok st' ->
  native_scripts st' = native_scripts st
  \/ (native_scripts st' = native_scripts st ++ [token_script token]
      /\ ~ In (token_script token) (native_scripts st)).
Proof.
  unfold sort_mint. intros Hs. apply bind_ok in Hs as (h & _ & Hs).
  injection Hs as <-. cbn [native_scripts].
  destruct (inner_truthy _); [auto|].
  destruct (script_in _ _) eqn:Hin; [auto|]. right. split; [reflexivity|].
  intros Hc. apply script_in_In in Hc. congruence.
Qed.

(** ** Metadata *)

Lemma dict_set_nonempty {K V} `{EqDecision K} (d : list (K * V)) k v :
  dict_set d k v <> [].
Proof. destruct d as [|[k' v'] d]; cbn; [|destruct (decide (k' = k))]; discriminate. Qed.

Lemma caller_entries_win (other : list (pykey * pyval)) :
  forall base all,
    fold_result
      (fun (all_metadata : list (pykey * pyval)) (kv : pykey * pyval) =>
         check_metadata unicode_isprintable (snd kv) false ;;
         Ok (dict_set all_metadata (fst kv) (snd kv)))
      other base = Ok all ->
    List.NoDup (map fst other) ->
    (forall k v, In (k, v) other ->
                 dict_get all k = Some v
                 /\ check_metadata unicode_isprintable v false = Ok tt)
    /\ (forall k, ~ In k (map fst other) -> dict_get all k = dict_get base k).
Proof.
  induction other as [|[k0 v0] other IH]; intros base all Hf Hnd.
  - injection Hf as <-. split; [intros k v [] | reflexivity].
  - rewrite fold_result_cons in Hf. apply bind_ok in Hf as (base' & Hstep & Hf).
    cbn [fst snd] in Hstep.
    destruct (check_metadata unicode_isprintable v0 false) as [[]|e] eqn:Hv0;
      [|discriminate].
    injection Hstep as <-. inversion Hnd as [|? ? Hk0 Hnd']; subst.
    destruct (IH _ _ Hf Hnd') as [Hin Hout]. split.
    + intros k v [[= <- <-]|Hkv]; [|exact (Hin k v Hkv)].
      split; [|exact Hv0]. rewrite (Hout k0 Hk0). apply dict_get_set.
    + intros k Hk. cbn [map fst In] in Hk.
      rewrite (Hout k) by tauto. apply dict_get_set_ne. tauto.
Qed.
End Stages.


(** X12. The certificates handed to the builder are one registration for
    every entry of the registration list, in order, followed by the
    delegations; the builder's field is left unset when there are none. *)
Theorem registrations_precede_delegations `{Collaborators} (self : Wallet)
    (args : transact_args) (r : request) :
  transact self args = Ok r ->
  exists regs delegs,
    length regs = length (stake_registration_info (stake_registration args))
    /\ forallb is_registration regs = true
    /\ forallb is_delegation delegs = true
    /\ b_certificates (request_builder r)
       = match regs ++ delegs with
         | [] => None
         | certificates => Some certificates
         end.
Proof.
  intros Hr. apply transact_certificates_withdrawals in Hr
    as (c & certs0 & certs & sg & wd & sg' & _ & Hcerts0 & Hcerts & _ & Hb & _).
  unfold registration_certificates in Hcerts0.
  apply registration_certificates_shape in Hcerts0 as (regs & -> & Hlen & Hregs).
  apply delegation_certificates_shape in Hcerts as (delegs & -> & Hdelegs).
  exists regs, delegs. repeat (split; [assumption|]). cbn [app] in Hb.
  rewrite Hb. destruct (regs ++ delegs); reflexivity.
Qed.

(** [transact(inputs=[self], stake_registration=[self, bob_address],
              delegations=pool_id, build_only=True)] *)
Definition register_and_delegate_call : transact_args :=
  mkArgs (Many [InputWallet Fixture.alice]) None None None
    (Some (RegMany [TargetWallet Fixture.alice; TargetAddress Fixture.bob_address]))
    (Some (DelegStr Fixture.pool_id)) None None true None None true true false None.

Lemma registrations_precede_delegations_witness :
  exists r,
    transact Fixture.alice register_and_delegate_call = Ok r
    /\ b_certificates (request_builder r)
       = Some [StakeRegistration Fixture.alice_stake;
               StakeRegistration Fixture.bob_stake;
               StakeDelegation Fixture.alice_stake Fixture.pool_hash]
    /\ exists regs delegs,
         length regs
         = length (stake_registration_info
                     (stake_registration register_and_delegate_call))
         /\ forallb is_registration regs = true
         /\ forallb is_delegation delegs = true
         /\ b_certificates (request_builder r)
            = match regs ++ delegs with
              | [] => None
              | certificates => Some certificates
              end.
Proof.
  eexists. split; [vm_compute; reflexivity|]. split; [vm_compute; reflexivity|].
  apply (registrations_precede_delegations Fixture.alice
           register_and_delegate_call).
  vm_compute. reflexivity.
Defined.

(** X13. A delegation dictionary cannot name a stake address. The loop
    iterates over the dictionary itself, so over its keys alone, and
    unpacks each key into a stake target and a pool: a key that has not
    exactly two characters, as every stake address has, raises
    [ValueError], and the call returns nothing. *)
Theorem delegation_dictionary_raises `{Collaborators} (self : Wallet)
    (args : transact_args) (key : dict_key) (pool : pool_like)
    (d : list (dict_key * pool_like)) :
  delegations args = Some (DelegDict ((key, pool) :: d)) ->
  len key <> 2 ->
  (forall certificates sg,
      delegation_certificates self (delegations args) certificates sg
      = Raise ValueError)
  /\ is_ok (transact self args) = false.
Proof.
  intros Hdeleg Hkey.
  assert (Hraise : forall certificates sg,
             delegation_certificates self (delegations args) certificates sg
             = Raise ValueError).
  { intros certificates sg. rewrite Hdeleg. unfold delegation_certificates.
    cbn [delegations_truthy negb]. unfold len. cbn [length].
    rewrite fold_result_cons. cbn [fst]. unfold key_target.
    destruct key as [|c1 [|c2 [|c3 s]]]; try reflexivity.
    exfalso. apply Hkey. reflexivity. }
  split; [exact Hraise|].
  destruct (transact self args) as [r|e] eqn:Hr; [|reflexivity].
  apply transact_ok in Hr
    as (c & change & minted & mm & all & meta & aux & certs0 & certs & sg & wd
        & sg' & b1 & b2 & b3 & _ & _ & _ & _ & _ & _ & _ & Hcerts & _).
  rewrite Hraise in Hcerts. discriminate.
Qed.

(** [transact(inputs=[self], delegations={"stake1_bob": pool_id},
              build_only=True)] *)
Definition delegation_dictionary_call : transact_args :=
  mkArgs (Many [InputWallet Fixture.alice]) None None None None
    (Some (DelegDict [(py "stake1_bob", PoolStr Fixture.pool_id)]))
    None None true None None true true false None.

Lemma delegation_dictionary_raises_witness :
  len (py "stake1_bob") <> 2
  /\ transact Fixture.alice delegation_dictionary_call = Raise ValueError
  /\ is_ok (transact Fixture.alice delegation_dictionary_call) = false.
Proof.
  split; [discriminate|]. split; [vm_compute; reflexivity|].
  refine (proj2 (delegation_dictionary_raises Fixture.alice
                   delegation_dictionary_call (py "stake1_bob")
                   (PoolStr Fixture.pool_id) [] eq_refl _)).
  discriminate.
Defined.

(** X14. The tokens of an output add up. Under each policy identifier and
    name, the bundle holds the sum of the quantities of all tokens of the
    output with that identifier and name, and nothing where there is none. *)
Theorem output_tokens_add_up (tokens : list Token)
    (output_policies : output_table) (policy_id : option pystr) (name : pystr) :
  fold_result merge_output_token tokens [] = Ok output_policies ->
  lookup2 output_policies policy_id name
  = tally (List.filter (carries policy_id name) tokens).
Proof.
  intros Hf. rewrite (merged_tokens_lookup tokens policy_id name [] _ Hf).
  destruct (tally _); cbn; [f_equal; lia | reflexivity].
Qed.

(** Two and three tokens ["abc"] of the policy in one output make five. *)
Lemma output_tokens_add_up_witness :
  fold_result merge_output_token [Fixture.token 2; Fixture.token 3] []
  = Ok [(tp_policy_id Fixture.policy_P, [(py "abc", 5)])]
  /\ lookup2 [(tp_policy_id Fixture.policy_P, [(py "abc", 5)])]
       (tp_policy_id Fixture.policy_P) (py "abc")
     = tally (List.filter (carries (tp_policy_id Fixture.policy_P) (py "abc"))
                [Fixture.token 2; Fixture.token 3])
  /\ tally (List.filter (carries (tp_policy_id Fixture.policy_P) (py "abc"))
              [Fixture.token 2; Fixture.token 3]) = Some 5.
Proof.
  split; [vm_compute; reflexivity|]. split; [|vm_compute; reflexivity].
  apply (output_tokens_add_up [Fixture.token 2; Fixture.token 3]).
  vm_compute. reflexivity.
Defined.

(** X15. The scripts handed to the builder with the mints are pairwise
    distinct, and each is the script of one of the minted tokens. *)
Theorem mint_scripts_are_distinct `{Collaborators} (mint_list : list Token)
    (st : mint_state) :
  sort_out_mints mint_list = Ok st ->
  List.NoDup (native_scripts st)
  /\ (forall s, In s (native_scripts st) ->
                exists t, In t mint_list /\ token_script t = s).
Proof.
  intros Hst. unfold sort_out_mints in Hst.
  apply (fold_result_invariant sort_mint
           (fun st => List.NoDup (native_scripts st)
                      /\ forall s, In s (native_scripts st) ->
                                   exists t, In t mint_list /\ token_script t = s)
           (fun t => In t mint_list) mint_list (mkMintState [] [] []) st);
    [|apply Forall_forall; auto|split; [constructor | intros s []]|exact Hst].
  clear. intros st token st' Htoken [Hnd Hfrom] Hstep.
  apply sort_mint_scripts in Hstep as [->|[-> Hnew]]; [auto|]. split.
  - apply NoDup_snoc; assumption.
  - intros s Hs. apply in_app_or in Hs as [Hs|[<-|[]]]; eauto.
Qed.

Lemma mint_scripts_are_distinct_witness :
  exists st,
    sort_out_mints [Fixture.token 2; Fixture.token 3] = Ok st
    /\ native_scripts st = [Some Fixture.policy_script]
    /\ List.NoDup (native_scripts st)
    /\ (forall s, In s (native_scripts st) ->
                  exists t, In t [Fixture.token 2; Fixture.token 3]
                            /\ token_script t = s).
Proof.
  eexists. split; [vm_compute; reflexivity|]. split; [vm_compute; reflexivity|].
  apply (mint_scripts_are_distinct [Fixture.token 2; Fixture.token 3]).
  vm_compute. reflexivity.
Defined.

(** X16. The metadata under key 721 comes from minted tokens only. Every
    entry is the metadata of a token of the list with a positive quantity;
    a token that is burned contributes none, so a call that only burns
    attaches no token metadata. *)
Theorem mint_metadata_of_positive_mints `{Collaborators} (mint_list : list Token)
    (st : mint_state) :
  sort_out_mints mint_list = Ok st ->
  Forall (from_positive_mints mint_list) (mint_metadata st)
  /\ (Forall (fun t => tok_amount t <= 0) mint_list -> mint_metadata st = []).
Proof.
  intros Hst. unfold sort_out_mints in Hst.
  assert (Hinv : Forall (from_positive_mints mint_list) (mint_metadata st)).
  { apply (fold_result_invariant sort_mint
             (fun st => Forall (from_positive_mints mint_list) (mint_metadata st))
             (fun t => In t mint_list) mint_list (mkMintState [] [] []) st);
      [|apply Forall_forall; auto|constructor|exact Hst].
    clear. intros st token st' Htoken Hinv Hstep.
    unfold sort_mint in Hstep. apply bind_ok in Hstep as (h & _ & Hstep).
    injection Hstep as <-. cbn [mint_metadata].
    destruct (py_truthy (tok_metadata token)) eqn:Htruthy; [|exact Hinv].
    destruct (Z.ltb_spec 0 (tok_amount token)); [|exact Hinv]. cbn [andb].
    rewrite Forall_forall in Hinv |- *. intros [k v] Hin.
    unfold set_mint_metadata in Hin.
    apply dict_set_in in Hin as [[-> ->]|Hin]; [|exact (Hinv _ Hin)].
    eexists. split; [reflexivity|]. split; [apply dict_set_nonempty|].
    intros name metadata Hentry.
    apply dict_set_in in Hentry as [[-> ->]|Hentry]; [eauto 10|].
    destruct (dict_get (mint_metadata st) (KStr (script_hash_str h)))
      as [[| | | | |[|kv d]]|] eqn:Hget; try contradiction.
    apply dict_get_in in Hget.
    destruct (Hinv _ Hget) as (inner & Hinner & _ & Hok).
    cbn [snd] in Hinner. injection Hinner as <-. exact (Hok _ _ Hentry). }
  split; [exact Hinv|]. intros Hburn.
  destruct (mint_metadata st) as [|[k v] rest]; [reflexivity|]. exfalso.
  inversion Hinv as [|? ? (inner & Hv & Hne & Hok) _]; subst.
  cbn [snd] in Hv. subst v.
  destruct inner as [|[name metadata] inner]; [contradiction|].
  destruct (Hok name metadata (or_introl eq_refl)) as (t & Ht & Hpos & _).
  rewrite Forall_forall in Hburn. specialize (Hburn t Ht). lia.
Qed.

(** [Token(P, amount, "nft", metadata={"image": "ipfs://x"})] *)
Definition pictured_token (amount : Z) : Token :=
  mkToken (PolicyToken Fixture.policy_P) amount (py "nft") (py "6e6674")
    (VDict [(KStr (py "image"), VStr (py "ipfs://x"))]).

Lemma mint_metadata_of_positive_mints_witness :
  (exists st,
     sort_out_mints [pictured_token 1] = Ok st
     /\ mint_metadata st
        = [(KStr (script_hash_str Fixture.policy_hash),
            VDict [(KStr (py "nft"),
                    VDict [(KStr (py "image"), VStr (py "ipfs://x"))])])]
     /\ Forall (from_positive_mints [pictured_token 1]) (mint_metadata st))
  /\ (exists st,
        sort_out_mints [pictured_token (-1)] = Ok st /\ mint_metadata st = []).
Proof.
  split.
  - eexists. split; [vm_compute; reflexivity|]. split; [vm_compute; reflexivity|].
    apply (mint_metadata_of_positive_mints [pictured_token 1]).
    vm_compute. reflexivity.
  - eexists. split; [vm_compute; reflexivity|].
    refine (proj2 (mint_metadata_of_positive_mints [pictured_token (-1)] _ _) _).
    + vm_compute. reflexivity.
    + repeat constructor. vm_compute. discriminate.
Defined.

(** X17. The caller's [other_metadata] has the last word. Each of its
    entries is validated and then stored under its key, replacing what the
    mint metadata (key 721) or the message (key 674) had put there; the
    other keys keep what they had. *)
Theorem caller_metadata_wins `{Collaborators} (mint_metadata : list (pykey * pyval))
    (msg : option message) (other all : list (pykey * pyval)) :
  assemble_metadata mint_metadata msg (Some other) = Ok all ->
  List.NoDup (map fst other) ->
  exists base,
    assemble_metadata mint_metadata msg None = Ok base
    /\ (forall k v, In (k, v) other ->
                    dict_get all k = Some v
                    /\ check_metadata unicode_isprintable v false = Ok tt)
    /\ (forall k, ~ In k (map fst other) -> dict_get all k = dict_get base k).
Proof.
  unfold assemble_metadata. intros Hall Hnd.
  apply bind_ok in Hall as (base & Hbase & Hall). exists base.
  rewrite Hbase. split; [reflexivity|].
  exact (caller_entries_win other base all Hall Hnd).
Qed.

(** The caller's entry under key 674 replaces the formatted message. *)
Lemma caller_metadata_wins_witness :
  assemble_metadata [] (Some (MsgStr (py "hi")))
    (Some [(KInt 674, VStr (py "mine"))])
  = Ok [(KInt 674, VStr (py "mine"))]
  /\ exists base,
       assemble_metadata [] (Some (MsgStr (py "hi"))) None = Ok base
       /\ (forall k v, In (k, v) [(KInt 674, VStr (py "mine"))] ->
                       dict_get [(KInt 674, VStr (py "mine"))] k = Some v
                       /\ check_metadata unicode_isprintable v false = Ok tt)
       /\ (forall k, ~ In k (map fst [(KInt 674, VStr (py "mine"))]) ->
                     dict_get [(KInt 674, VStr (py "mine"))] k = dict_get base k).
Proof.
  split; [vm_compute; reflexivity|].
  apply (caller_metadata_wins [] (Some (MsgStr (py "hi")))
           [(KInt 674, VStr (py "mine"))] [(KInt 674, VStr (py "mine"))]).
  - vm_compute. reflexivity.
  - repeat constructor. intros [].
Defined.

End ComposerFacts.

(* ================================================================== *)
(** * Properties of the convenience methods and the helper functions *)
(* ================================================================== *)

Module ConvenienceFacts.
Import PyBase PyNum Amounts Metadata Wallet Tokens Convenience.
Import NumFacts AmountFacts WalletFacts TokenFacts.


Section MethodFacts.
Context `{Collaborators}.

(** ** What the stages leave alone *)


Lemma set_mint_inputs b mint_list scripts all_assets b' :
  set_mint b mint_list scripts all_assets = Ok b' ->
  b_inputs b' = b_inputs b /\ b_input_addresses b' = b_input_addresses b
  /\ b_outputs b' = b_outputs b.
Proof.
  unfold set_mint. destruct mint_list; [intros [= <-]; auto|].
  intros Hb. apply bind_ok in Hb as (slots & _ & Hb).
  apply bind_ok in Hb as (ttl & _ & Hb). injection Hb as <-. auto.
Qed.

Lemma set_auxiliary_data_inputs b meta aux :
  b_inputs (set_auxiliary_data b meta aux) = b_inputs b
  /\ b_input_addresses (set_auxiliary_data b meta aux) = b_input_addresses b
  /\ b_outputs (set_auxiliary_data b meta aux) = b_outputs b
  /\ b_context (set_auxiliary_data b meta aux) = b_context b.
Proof. destruct meta; auto. Qed.


Lemma final_stages_keep b certs wd :
  b_inputs (set_withdrawals (set_certificates b certs) wd) = b_inputs b
  /\ b_input_addresses (set_withdrawals (set_certificates b certs) wd)
     = b_input_addresses b
  /\ b_outputs (set_withdrawals (set_certificates b certs) wd) = b_outputs b.
Proof. destruct certs, wd; auto. Qed.


End MethodFacts.




(** X19. [withdraw_rewards] never returns. It raises [ValueError] for a
    wallet without stake address or without rewards to withdraw, and
    otherwise [TypeError], where it makes the wallet the key of the
    withdrawals dictionary. *)
Theorem withdraw_rewards_raises `{Collaborators} (self : Wallet)
    (withdrawal_amount : option Amount) (output_amount : Amount)
    (kwargs : transact_args) :
  is_ok (withdraw_rewards self withdrawal_amount output_amount kwargs) = false
  /\ (stake_address self = Ok None ->
      withdraw_rewards self withdrawal_amount output_amount kwargs
      = Raise ValueError)
  /\ (forall a rewards,
         stake_address self = Ok (Some a) ->
         withdrawal_amount = Some rewards -> Amount_bool rewards = true ->
         withdraw_rewards self withdrawal_amount output_amount kwargs
         = Raise TypeError)
  /\ (forall a rewards,
         stake_address self = Ok (Some a) ->
         withdrawal_amount = None -> withdrawable_amount self = Ok rewards ->
         withdraw_rewards self withdrawal_amount output_amount kwargs
         = Raise (if Amount_bool rewards then TypeError else ValueError)).
Proof.
  unfold withdraw_rewards. split; [|split; [|split]].
  - destruct (stake_address self) as [[a|]|e]; cbn; try reflexivity.
    destruct (match withdrawal_amount with
              | Some a0 => if Amount_bool a0 then Ok a0 else withdrawable_amount self
              | None => withdrawable_amount self
              end) as [w|e]; cbn; [|reflexivity].
    destruct (Amount_bool w); reflexivity.
  - intros ->. reflexivity.
  - intros a rewards -> -> Hr. cbn. rewrite Hr. cbn. rewrite Hr. reflexivity.
  - intros a rewards -> -> ->. cbn. destruct (Amount_bool rewards); reflexivity.
Qed.

(** Bob has rewards of 7 ADA to withdraw, and the call stops with
    [TypeError]. *)
Lemma withdraw_rewards_raises_witness :
  withdrawable_amount Fixture.bob
  = Ok (mkAmount Lovelace (PInt 7000000) lovelace_t 7000000 (PFloat (Fin 7)))
  /\ withdraw_rewards Fixture.bob None Fixture.two_ada Fixture.plain_call
     = Raise TypeError.
Proof.
  split; [vm_compute; reflexivity|].
  exact (proj2 (proj2 (proj2 (@withdraw_rewards_raises Fixture.collaborators
                                Fixture.bob None Fixture.two_ada
                                Fixture.plain_call)))
           Fixture.bob_stake_address
           (mkAmount Lovelace (PInt 7000000) lovelace_t 7000000 (PFloat (Fin 7)))
           ltac:(vm_compute; reflexivity) eq_refl
           ltac:(vm_compute; reflexivity)).
Defined.

(** ** One output *)

Section SingleOutput.
Context `{Collaborators}.

(** The output [Output(to, amount)] makes: it has no tokens, and its amount
    is an [Amount] unless a float was given. *)
Lemma Output_new_plain to amount output :
  Output_new to amount None = Ok output ->
  out_tokens output = None
  /\ match amount with
     | AmountObj a => out_amount output = AmountObj a
     | AmountNum (PInt z) =>
         exists a, out_amount output = AmountObj a /\ lovelace a = z
     | AmountNum (PFloat f) => out_amount output = AmountNum (PFloat f)
     end.
Proof.
  unfold Output_new. intros Ho.
  apply bind_ok in Ho as (amount' & Hamount & Ho).
  apply bind_ok in Ho as (address' & _ & Ho). injection Ho as <-.
  cbn [out_tokens out_amount]. split; [reflexivity|].
  destruct amount as [a|[z|f]]; try (injection Hamount as <-; reflexivity).
  apply bind_ok in Hamount as (a & Ha & Hamount). injection Hamount as <-.
  exists a. split; [reflexivity|].
  unfold Lovelace_new, Amount_init in Ha. cbn [is_int py_int] in Ha.
  apply bind_ok in Ha as (l & Hl & Ha). apply bind_ok in Ha as (f & _ & Ha).
  injection Ha as <-. injection Hl as <-. reflexivity.
Qed.

Lemma format_plain_output tx_context mint_multiasset output o :
  out_tokens output = None ->
  format_output tx_context mint_multiasset output = Ok o ->
  exists requested,
    output_amount (out_amount output) = Ok requested
    /\ multi_asset (to_amount o) = []
    /\ (lovelace requested <> 0 -> coin (to_amount o) = lovelace requested).
Proof.
  unfold format_output. intros Htokens Ho. rewrite Htokens in Ho.
  cbn [output_multi_asset many_truthy negb mbind result_bind] in Ho.
  apply bind_ok in Ho as (requested & Hreq & Ho).
  apply bind_ok in Ho as (address & _ & Ho).
  apply bind_ok in Ho as (amount1 & Hamount & Ho). injection Ho as <-.
  exists requested. split; [exact Hreq|]. split; [reflexivity|].
  cbn [to_amount coin]. intros Hnz.
  destruct (Z.eqb_spec (lovelace requested) 0); [contradiction|].
  injection Hamount as <-. reflexivity.
Qed.
End SingleOutput.

(** X20. [send_ada] hands the builder exactly one output. It carries no
    tokens and, when the amount is not zero, that amount in minor units,
    whether it was given as an [Amount] or as an [int]. *)
Theorem send_ada_single_output `{Collaborators} (self : Wallet)
    (to : address_like) (amount : amount_like)
    (utxos : option (one_or_many UTxO)) (kwargs : transact_args) (r : request) :
  send_ada self to amount utxos kwargs = Ok r ->
  exists o requested,
    b_outputs (request_builder r) = [o]
    /\ multi_asset (to_amount o) = []
    /\ (lovelace requested <> 0 -> coin (to_amount o) = lovelace requested)
    /\ match amount with
       | AmountObj a => requested = a
       | AmountNum (PInt z) => lovelace requested = z
       | AmountNum (PFloat _) => False
       end.
Proof.
  unfold send_ada. intros Hr. apply bind_ok in Hr as (output & Hout & Hr).
  apply Output_new_plain in Hout as [Htokens Hamount].
  apply transact_ok in Hr
    as (c & change & minted & mm & all & meta & aux & certs0 & certs & sg & wd
        & sg' & b1 & b2 & b3 & _ & _ & _ & _ & _ & _ & _ & _ & _ & Hb1 & Hb2
        & Hb3 & ->).
  cbn [call_with outputs optional_list as_list] in Hb3.
  unfold add_outputs in Hb3. rewrite fold_result_cons in Hb3.
  apply bind_ok in Hb3 as (b3' & Ho & Hb3). injection Hb3 as <-.
  apply bind_ok in Ho as (o & Ho & Hb3'). injection Hb3' as <-.
  destruct (format_plain_output _ _ _ _ Htokens Ho) as (requested & Hreq & Hma & Hcoin).
  exists o, requested.
  destruct (final_stages_keep
              (add_output (set_auxiliary_data b2 meta aux) o) certs wd)
    as (_ & _ & ->).
  cbn [add_output b_outputs].
  destruct (set_auxiliary_data_inputs b2 meta aux) as (_ & _ & -> & _).
  apply set_mint_inputs in Hb2 as (_ & _ & ->).
  assert (Hnone : b_outputs b1 = []).
  { cbn [call_with inputs] in Hb1.
    clear -Hb1. revert Hb1. generalize (as_list (inputs_of_utxos self utxos)).
    assert (Hgen : forall l b, add_inputs b l = Ok b1 -> b_outputs b1 = b_outputs b).
    { induction l as [|i l IH]; intros b Hb; [injection Hb as <-; reflexivity|].
      rewrite add_inputs_cons in Hb. apply bind_ok in Hb as (b0 & Hi & Hb).
      rewrite (IH _ Hb).
      destruct i as [a|s|w|u|]; cbn in Hi;
        try (destruct (w_address w); [|discriminate]); injection Hi as <-;
        reflexivity. }
    intros l Hl. exact (Hgen l _ Hl). }
  rewrite Hnone. split; [reflexivity|]. split; [exact Hma|]. split; [exact Hcoin|].
  destruct amount as [a|[z|f]].
  - rewrite Hamount in Hreq. injection Hreq as <-. reflexivity.
  - destruct Hamount as (a & Ha & Hz). rewrite Ha in Hreq. injection Hreq as <-.
    exact Hz.
  - rewrite Hamount in Hreq. discriminate.
Qed.

(** Alice sends 2 ADA to Bob. *)
Lemma send_ada_single_output_witness :
  exists r,
    send_ada Fixture.alice (AddrObj Fixture.bob_address)
      (AmountObj Fixture.two_ada) None Fixture.plain_call = Ok r
    /\ b_outputs (request_builder r)
       = [mkTransactionOutput (Some Fixture.bob_address) (mkValue 2000000 [])]
    /\ exists o requested,
         b_outputs (request_builder r) = [o]
         /\ multi_asset (to_amount o) = []
         /\ (lovelace requested <> 0 -> coin (to_amount o) = lovelace requested)
         /\ requested = Fixture.two_ada.
Proof.
  eexists. split; [vm_compute; reflexivity|]. split; [vm_compute; reflexivity|].
  apply (send_ada_single_output Fixture.alice (AddrObj Fixture.bob_address)
           (AmountObj Fixture.two_ada) None Fixture.plain_call).
  vm_compute. reflexivity.
Defined.

(** ** The stake address of an address *)

Section StakeAddressFacts.
Context `{Collaborators}.
Variable staking_part_str : staking_part -> pystr.
Variable address_from_bytes : bytes -> result Address.

Lemma fromhex_pair (c1 c2 : codepoint) (top bot : N) (rest : pystr) :
  is_space c1 = false -> hex_digit c1 = Some top -> hex_digit c2 = Some bot ->
  bytes_fromhex (c1 :: c2 :: rest)
  = (b ← bytes_fromhex rest; Ok ((top * 16 + bot)%N :: b)).
Proof. intros Hs H1 H2. cbn [bytes_fromhex]. rewrite Hs, H1, H2. reflexivity. Qed.

Lemma header_digits (n : Network) (rest : pystr) :
  bytes_fromhex (py "e" ++ str_int (network_value n) ++ rest)
  = (b ← bytes_fromhex rest; Ok ((224 + Z.to_N (network_value n))%N :: b)).
Proof.
  destruct n.
  - change (py "e" ++ str_int (network_value MAINNET) ++ rest)
      with (101%N :: 49%N :: rest).
    apply (fromhex_pair 101%N 49%N 14%N 1%N); reflexivity.
  - change (py "e" ++ str_int (network_value TESTNET) ++ rest)
      with (101%N :: 48%N :: rest).
    apply (fromhex_pair 101%N 48%N 14%N 0%N); reflexivity.
Qed.

(** X21. [get_stake_address] decodes the header byte [0xe0] or [0xe1],
    by network, followed by the bytes of the staking hash; on an address
    without staking part it raises [ValueError], where [Wallet.stake_address]
    returns [None]. *)
Theorem stake_address_of_address (a : Address) :
  (staking_part_of a = None ->
   get_stake_address staking_part_str address_from_bytes (AddrObj a)
   = Raise ValueError)
  /\ (forall sp h,
         staking_part_of a = Some sp ->
         staking_part_str sp = bytes_hex h -> Forall is_byte h ->
         get_stake_address staking_part_str address_from_bytes (AddrObj a)
         = address_from_bytes ((224 + Z.to_N (network_value (network a)))%N :: h)).
Proof.
  unfold get_stake_address. cbn [mbind result_bind]. split.
  - intros ->. cbn [str_of_staking]. rewrite header_digits. reflexivity.
  - intros sp h -> Hstr Hh. cbn [str_of_staking]. rewrite header_digits, Hstr.
    rewrite (fromhex_hex h Hh). reflexivity.
Qed.
End StakeAddressFacts.

(** The string form of a staking hash is its bytes in hexadecimal, and an
    address is read back from its header byte and the hash that follows. *)
Definition hash_str (sp : staking_part) : pystr :=
  bytes_hex (match sp with StakeHash h => h | PointerAddress p => p end).

Definition read_stake_address (b : bytes) : result Address :=
  match b with
  | header :: h =>
      Ok (mkAddress None (Some (StakeHash h))
            (if (header =? 225)%N then MAINNET else TESTNET))
  | [] => Raise ExternalError
  end.

Lemma stake_address_of_address_witness :
  get_stake_address hash_str read_stake_address (AddrObj Fixture.alice_address)
  = Ok (mkAddress None (Some (StakeHash Fixture.alice_stake)) MAINNET)
  /\ get_stake_address hash_str read_stake_address
       (AddrObj (mkAddress (Some Fixture.alice_payment) None MAINNET))
     = Raise ValueError.
Proof.
  split.
  - refine (eq_trans
              (proj2 (stake_address_of_address hash_str read_stake_address
                        Fixture.alice_address)
                 (StakeHash Fixture.alice_stake) Fixture.alice_stake
                 eq_refl eq_refl _) _); [|reflexivity].
    apply Forall_forall. intros x Hx. apply repeat_spec in Hx. subst x.
    reflexivity.
  - exact (proj1 (stake_address_of_address hash_str read_stake_address
                    (mkAddress (Some Fixture.alice_payment) None MAINNET))
             eq_refl).
Defined.

(** ** Waiting for a confirmation *)

Lemma wait_finds (chain : nat -> query) (k : nat) : forall fuel asked,
  (forall i, (i < k)%nat -> chain (asked + i)%nat = NotFound) ->
  chain (asked + k)%nat = Found -> (k < fuel)%nat ->
  wait_for_confirmation chain fuel asked = Some (Ok (true, (asked + k)%nat)).
Proof.
  induction k as [|k IH]; intros fuel asked Hbefore Hfound Hfuel;
    (destruct fuel as [|fuel]; [lia|]); cbn [wait_for_confirmation].
  - rewrite Nat.add_0_r in *. rewrite Hfound. reflexivity.
  - pose proof (Hbefore 0%nat ltac:(lia)) as H0. rewrite Nat.add_0_r in H0.
    rewrite H0. cbn [confirm_tx].
    replace (asked + S k)%nat with (S asked + k)%nat in * by lia.
    apply IH; [|exact Hfound|lia].
    intros i Hi. replace (S asked + i)%nat with (asked + S i)%nat by lia.
    apply Hbefore. lia.
Qed.

Lemma wait_returns_true (chain : nat -> query) : forall fuel asked confirmed slept,
  wait_for_confirmation chain fuel asked = Some (Ok (confirmed, slept)) ->
  confirmed = true /\ chain slept = Found /\ (asked <= slept)%nat.
Proof.
  induction fuel as [|fuel IH]; intros asked confirmed slept; [discriminate|].
  cbn [wait_for_confirmation].
  destruct (chain asked) as [| |e] eqn:Hq; cbn [confirm_tx].
  - intros [= <- <-]. auto.
  - intros Hw. apply IH in Hw as (-> & Hs & Hle). repeat split; [exact Hs | lia].
  - discriminate.
Qed.

(** X22. [wait_for_confirmation] returns as soon as a query finds the
    transaction, after one sleep for every query that did not, and the
    value it returns is always [True]; it never gives up with [False]. *)
Theorem wait_for_confirmation_returns_true (chain : nat -> query) (k : nat) :
  (forall i, (i < k)%nat -> chain i = NotFound) -> chain k = Found ->
  (forall fuel, (k < fuel)%nat ->
                wait_for_confirmation chain fuel 0 = Some (Ok (true, k)))
  /\ (forall fuel confirmed slept,
         wait_for_confirmation chain fuel 0 = Some (Ok (confirmed, slept)) ->
         confirmed = true).
Proof.
  intros Hbefore Hfound. split.
  - intros fuel Hfuel. exact (wait_finds chain k fuel 0%nat Hbefore Hfound Hfuel).
  - intros fuel confirmed slept Hw.
    exact (proj1 (wait_returns_true chain fuel 0%nat confirmed slept Hw)).
Qed.

(** The third query finds the transaction: the loop has slept twice. *)
Definition found_at_third (i : nat) : query :=
  match i with
  | 0%nat | 1%nat => NotFound
  | _ => Found
  end.

Lemma wait_for_confirmation_returns_true_witness :
  wait_for_confirmation found_at_third 3 0 = Some (Ok (true, 2%nat))
  /\ wait_for_confirmation found_at_third 2 0 = None.
Proof.
  split; [|reflexivity].
  refine (proj1 (wait_for_confirmation_returns_true found_at_third 2 _ eq_refl)
            3%nat _); [|lia].
  intros [|[|i]] Hi; [reflexivity | reflexivity | lia].
Defined.

(** ** Policies *)

Section PolicyFacts.
Context `{Collaborators}.

Lemma pub_keys_of_script (pub_keys : list bytes) (rest : list NativeScript) :
  flat_map (fun sub => match sub with
                       | ScriptPubkey key_hash => [key_hash]
                       | _ => []
                       end) (map ScriptPubkey pub_keys ++ rest)
  = pub_keys
    ++ flat_map (fun sub => match sub with
                            | ScriptPubkey key_hash => [key_hash]
                            | _ => []
                            end) rest.
Proof. induction pub_keys as [|k l IH]; cbn; [reflexivity | f_equal; exact IH]. Qed.

Lemma no_slot_in_pub_keys (pub_keys : list bytes) (rest : list NativeScript) exp :
  fold_left (fun exp sub => match sub with
                            | InvalidHereAfter after => Some after
                            | _ => exp
                            end) (map ScriptPubkey pub_keys ++ rest) exp
  = fold_left (fun exp sub => match sub with
                              | InvalidHereAfter after => Some after
                              | _ => exp
                              end) rest exp.
Proof. induction pub_keys as [|k l IH]; cbn; [reflexivity | exact IH]. Qed.

(** X23. A policy whose script has the shape [generate_minting_policy]
    makes reads back what went in: the signers' key hashes, and the
    expiration slot. It is expired when the last block slot is beyond
    that slot. Made without expiration, or with slot 0, it has no
    expiration slot, and asking whether it is expired raises [TypeError]. *)
Theorem generated_policy_reads_back (name : pystr) (policy_id : option pystr)
    (pub_keys : list bytes) (expiration : option Z) (last_block_slot : Z) :
  let script := minting_policy_script pub_keys expiration in
  let p := TokenPolicy_new name policy_id (Some script) in
  required_signatures p = Ok pub_keys
  /\ tp_policy_id p = Some (script_hash_str (native_script_hash script))
  /\ (forall slot, expiration = Some slot -> slot <> 0 ->
                   expiration_slot p = Ok slot
                   /\ is_expired p last_block_slot = Ok (slot <? last_block_slot))
  /\ (expiration = None \/ expiration = Some 0 ->
      expiration_slot p = Raise TypeError
      /\ is_expired p last_block_slot = Raise TypeError).
Proof.
  cbv zeta. unfold TokenPolicy_new, required_signatures, is_expired, expiration_slot.
  cbn [tp_script tp_policy_id].
  split; [|split; [reflexivity|split]].
  - unfold minting_policy_script.
    assert (Hplain : flat_map (fun sub => match sub with
                                          | ScriptPubkey key_hash => [key_hash]
                                          | _ => []
                                          end) (map ScriptPubkey pub_keys)
                     = pub_keys).
    { rewrite <- (app_nil_r (map ScriptPubkey pub_keys)), pub_keys_of_script.
      apply app_nil_r. }
    destruct expiration as [slot|]; [destruct (slot =? 0)|];
      cbn [get_native_scripts]; rewrite ?pub_keys_of_script, ?Hplain;
      cbn; rewrite ?app_nil_r; reflexivity.
  - intros slot -> Hslot. unfold minting_policy_script.
    destruct (Z.eqb_spec slot 0); [contradiction|]. cbn [get_native_scripts].
    rewrite no_slot_in_pub_keys. cbn [fold_left].
    destruct (Z.eqb_spec slot 0); [contradiction|]. cbn [mbind result_bind].
    split; [reflexivity|]. f_equal.
    destruct (Z.ltb_spec (slot - last_block_slot) 0),
      (Z.ltb_spec slot last_block_slot); try lia; reflexivity.
  - intros Hexp. unfold minting_policy_script.
    assert (Hscript : (match expiration with
                       | Some slot =>
                           if slot =? 0 then ScriptAll (map ScriptPubkey pub_keys)
                           else ScriptAll (map ScriptPubkey pub_keys
                                           ++ [InvalidHereAfter slot])
                       | None => ScriptAll (map ScriptPubkey pub_keys)
                       end) = ScriptAll (map ScriptPubkey pub_keys ++ []))
      by (rewrite app_nil_r; destruct Hexp as [-> | ->]; reflexivity).
    rewrite Hscript. cbn [get_native_scripts]. rewrite no_slot_in_pub_keys.
    cbn. auto.
Qed.
End PolicyFacts.

(** The policy of the concrete setting: signed by Alice, expiring at slot
    90000000. *)
Lemma generated_policy_reads_back_witness :
  minting_policy_script [Fixture.alice_payment] (Some 90000000)
  = Fixture.policy_script
  /\ required_signatures Fixture.policy_P = Ok [Fixture.alice_payment]
  /\ expiration_slot Fixture.policy_P = Ok 90000000
  /\ is_expired Fixture.policy_P 90000001 = Ok true
  /\ is_expired Fixture.policy_P 90000000 = Ok false
  /\ expiration_slot
       (TokenPolicy_new (py "P") None
          (Some (minting_policy_script [Fixture.alice_payment] (Some 0))))
     = Raise TypeError.
Proof.
  split; [reflexivity|].
  pose proof (generated_policy_reads_back (py "P") None [Fixture.alice_payment]
                (Some 90000000) 90000001) as (Hsig & _ & Hslot & _).
  pose proof (generated_policy_reads_back (py "P") None [Fixture.alice_payment]
                (Some 90000000) 90000000) as (_ & _ & Hslot' & _).
  pose proof (generated_policy_reads_back (py "P") None [Fixture.alice_payment]
                (Some 0) 0) as (_ & _ & _ & Hzero).
  split; [exact Hsig|].
  destruct (Hslot 90000000 eq_refl ltac:(discriminate)) as [He Hx].
  destruct (Hslot' 90000000 eq_refl ltac:(discriminate)) as [_ Hx'].
  split; [exact He|]. split; [exact Hx|]. split; [exact Hx'|].
  exact (proj1 (Hzero (or_intror eq_refl))).
Defined.

End ConvenienceFacts.
